(** * Router operations of the nxtp cross-chain router: auction and cancel

    A shallow embedding of

    - [newAuction]  (packages/router/src/lib/operations/auction.ts),
    - [cancel]      (packages/router/src/lib/operations/cancel.ts),
    - [getContext] and [makeRouter]  (packages/router/src/router.ts),
    - [aggregate]   (the Multicall contract of the subgraph deployments).

    Promises are modelled by a state-and-exception monad: an [await] of a
    collaborator either yields a value or rejects, and a rejection unwinds
    the whole operation.  Big numbers ([ethers] [BigNumber]) and JavaScript
    numbers holding seconds, milliseconds and chain ids are integers in [Z].
    Logging has no effect on the results and is left out. *)

From Stdlib Require Import ZArith String Ascii List Bool Lia.
From stdpp Require Import base option gmap strings list pretty.

Local Open Scope string_scope.
Local Open Scope Z_scope.

(** ** Errors *)

(** One record of [contractReader.getSyncRecords]. *)
Record SyncRecord := {
  synced : bool;
  latestBlock : Z;
  syncedBlock : Z;
  lag : Z;
  uri : string;
}.

(** The error classes thrown by the two operations.  Constructors carry the
    positional arguments of the JavaScript constructors; the context objects
    are dropped.  [Rejected] stands for anything a collaborator rejects with
    and for the [TypeError]s and [Error]s of the JavaScript runtime and of
    ethers. *)
Inductive RouterError :=
| ParamsInvalid
| ZeroValueBid
| AuctionRateExceeded (elapsed : Z)
| AuctionExpired (expiry : Z)
| ProvidersNotAvailable (chains : list Z)
| SubgraphNotSynced (chainId : Z) (records : list SyncRecord)
| NotEnoughAmount
| NotEnoughLiquidity (chainId : Z)
| NotEnoughGas (sendingChainId senderBalance receivingChainId receiverBalance : Z)
| ReceiverTxExists (transactionId : string) (chainId : Z)
| SenderTxTooNew (transactionId : string) (chainId : Z) (preparedTimestamp currentTime : Z)
| Rejected (reason : string).

(** Outcome of a promise. *)
Inductive res (A : Type) :=
| Ok (a : A)
| Throw (e : RouterError).
Arguments Ok {A} a.
Arguments Throw {A} e.

(** ** The monad of an async operation over a store [S] *)

Definition M (S A : Type) : Type := S -> res A * S.

Definition ret {S A} (a : A) : M S A := fun s => (Ok a, s).

Definition bind {S A B} (m : M S A) (k : A -> M S B) : M S B :=
  fun s => match m s with
           | (Ok a, s') => k a s'
           | (Throw e, s') => (Throw e, s')
           end.

Definition throw {S A} (e : RouterError) : M S A := fun s => (Throw e, s).

Definition get {S} : M S S := fun s => (Ok s, s).

Definition modify {S} (f : S -> S) : M S unit := fun s => (Ok tt, f s).

(** [if (c) throw e;] *)
Definition throw_if {S} (c : bool) (e : RouterError) : M S unit :=
  if c then throw e else ret tt.

(** A value that is [undefined] where the code dereferences it. *)
Definition defined {S A} (o : option A) (what : string) : M S A :=
  match o with
  | Some a => ret a
  | None => throw (Rejected what)
  end.

Notation "'let!' x ':=' c1 'in' c2" := (bind c1 (fun x => c2))
  (at level 10, x pattern, c1 at level 100, c2 at level 200, only parsing).
Notation "'do!' c1 'in' c2" := (bind c1 (fun _ => c2))
  (at level 10, c1 at level 100, c2 at level 200, only parsing).

(** [array.map(async f)] under [Promise.all]: the results come in array
    order.  When several elements reject, [Promise.all] reports the rejection
    that settles first, which is a matter of timing; the model reports the
    first in array order. *)
Fixpoint mapM {S A B} (f : A -> M S B) (l : list A) : M S (list B) :=
  match l with
  | [] => ret []
  | a :: l' => let! b := f a in let! bs := mapM f l' in ret (b :: bs)
  end.

(** ** [BigNumber.from] of ethers v5 on a string argument

    A string is accepted when it matches [/^-?0x[0-9a-f]+$/i] (hexadecimal)
    or [/^-?[0-9]+$/] (decimal); any other string makes [BigNumber.from]
    throw "invalid BigNumber string".  [None] is the throw.

    The hexadecimal pattern is matched without regard to case, but [toHex]
    only knows the prefix "0x": a string that starts with "0X" is given a
    second prefix and reaches the number parser with its X, which is read as
    the hexadecimal digit 8 ("0X1F" is 0x081F). *)

Definition decimal_digit (c : ascii) : option Z :=
  let n := Z.of_N (N_of_ascii c) in
  if (48 <=? n) && (n <=? 57) then Some (n - 48) else None.

Definition hex_digit (c : ascii) : option Z :=
  let n := Z.of_N (N_of_ascii c) in
  if (48 <=? n) && (n <=? 57) then Some (n - 48)
  else if (97 <=? n) && (n <=? 102) then Some (n - 87)
  else if (65 <=? n) && (n <=? 70) then Some (n - 55)
  else None.

Fixpoint digits_value (digit : ascii -> option Z) (base acc : Z) (s : string) : option Z :=
  match s with
  | EmptyString => Some acc
  | String c s' =>
      match digit c with
      | Some d => digits_value digit base (base * acc + d) s'
      | None => None
      end
  end.

(** One or more digits. *)
Definition digits1 (digit : ascii -> option Z) (base : Z) (s : string) : option Z :=
  match s with
  | EmptyString => None
  | _ => digits_value digit base 0 s
  end.

Definition unsigned_from (s : string) : option Z :=
  match s with
  | String c (String x rest) =>
      if Ascii.eqb c "0" && Ascii.eqb x "x" then digits1 hex_digit 16 rest
      else if Ascii.eqb c "0" && Ascii.eqb x "X" then
        match rest with
        | EmptyString => None
        | _ => digits_value hex_digit 16 8 rest
        end
      else digits1 decimal_digit 10 s
  | _ => digits1 decimal_digit 10 s
  end.

Definition BigNumber_from (s : string) : option Z :=
  match s with
  | String c rest =>
      if Ascii.eqb c "-" then Z.opp <$> unsigned_from rest else unsigned_from s
  | EmptyString => unsigned_from s
  end.

(** ** Collaborators

    What an [await] of a collaborator settles to.  Collaborators reject with
    errors of their own ([RpcError], [ChainNotSupported],
    [PriceImpactTooHigh], ...), kept here as the reason of [Rejected]. *)
Inductive promise (A : Type) :=
| Resolves (a : A)
| Rejects (reason : string).
Arguments Resolves {A} a.
Arguments Rejects {A} reason.

Definition settle {S A} (p : promise A) : M S A :=
  match p with
  | Resolves a => ret a
  | Rejects reason => throw (Rejected reason)
  end.

(** router.ts, [getContext]: the singleton is handed out once [makeRouter]
    has filled it; an empty object makes [getContext] throw. *)
Definition getContext {S C} (context : option C) : M S C :=
  defined context "Context not created".

(** ** Configuration (the fields the operations read) *)

Module ChainConfig.
Record t := {
  providers : list string;
  minGas : Z;
  transactionManagerAddress : string;
  weight : Z;
  routerContractRelayerAsset : option string;
}.
End ChainConfig.

Module PoolAsset.
Record t := { assetId : string; chainId : Z }.
End PoolAsset.

Module SwapPool.
Record t := { name : string; assets : list PoolAsset.t }.
End SwapPool.

Module NxtpRouterConfig.
Record t := {
  requestLimit : Z;
  chainConfig : gmap Z ChainConfig.t;
  swapPools : list SwapPool.t;
  maxPriceImpact : string;
  amplification : string;
  allowedVAMM : bool;
}.
End NxtpRouterConfig.

(** ** The auction operation *)

Module AuctionPayload.
Record t := {
  user : string;
  initiator : string;
  sendingChainId : Z;
  sendingAssetId : string;
  amount : string;
  receivingChainId : Z;
  receivingAssetId : string;
  receivingAddress : string;
  expiry : Z;
  transactionId : string;
  encryptedCallData : string;
  callDataHash : string;
  callTo : string;
  dryRun : bool;
}.
End AuctionPayload.

(** [AuctionPayloadSchema], which [newAuction] compiles into its validator,
    is declared in the nxtp-utils package and is not among the sources.  Its
    [amount] is a [TIntegerString], the pattern [^([0-9])*$]: decimal digits
    only, the empty string included. *)
Fixpoint TIntegerString (s : string) : bool :=
  match s with
  | EmptyString => true
  | String c s' =>
      match decimal_digit c with
      | Some _ => TIntegerString s'
      | None => false
      end
  end.

Module AuctionBid.
Record t := {
  user : string;
  router : string;
  initiator : string;
  sendingChainId : Z;
  sendingAssetId : string;
  amount : string;
  receivingChainId : Z;
  receivingAssetId : string;
  amountReceived : Z;
  receivingAddress : string;
  transactionId : string;
  expiry : Z;
  callDataHash : string;
  callTo : string;
  encryptedCallData : string;
  sendingChainTxManagerAddress : string;
  receivingChainTxManagerAddress : string;
  bidExpiry : Z;
}.
End AuctionBid.

Module AuctionResponse.
Record t := {
  bid : AuctionBid.t;
  bidSignature : option string;
  gasFeeInReceivingToken : Z;
}.
End AuctionResponse.

(** Label set of one [receivedAuction.inc] call. *)
Module AuctionLabels.
Record t := {
  sendingAssetId : string;
  receivingAssetId : string;
  sendingChainId : Z;
  receivingChainId : Z;
}.
End AuctionLabels.

Module Auction.

(** The part of [Context] that [newAuction] destructures. *)
Record Context := {
  config : NxtpRouterConfig.t;
  wallet_getAddress : promise string;
  contractReader_getSyncRecords : Z -> promise (list SyncRecord);
  contractReader_getAssetBalance : string -> Z -> promise Z;
  txService_getBalance : Z -> string -> promise Z;
}.

(** Everything outside [newAuction] that one invocation consults: the
    singleton context of router.ts ([None] before [makeRouter] has filled
    it), the compiled schema validator, and the imported helpers. *)
Record World := {
  context : option Context;
  validateInput : AuctionPayload.t -> bool;
  getNtpTimeSeconds : promise Z;
  getDecimalsForAsset : Z -> string -> promise Z;
  getSwapIdxList : Z -> string -> Z -> string -> option (nat * nat * nat);
  getReceiverAmount :
    string -> Z -> Z -> list Z -> nat -> nat -> string -> string -> bool -> promise string;
  calculateGasFeeInReceivingToken : string -> Z -> string -> Z -> Z -> promise Z;
  getBidExpiry : Z -> Z;
  AUCTION_EXPIRY_BUFFER : Z;
  signAuctionBid : AuctionBid.t -> promise string;
}.

(** The validator holds the amount to the pattern of the schema. *)
Definition checksAmount (w : World) : Prop :=
  forall data, validateInput w data = true -> TIntegerString (AuctionPayload.amount data) = true.

(** The two module-level mutable objects: the rate-limiter map
    (helpers/auction) and the cells of the [receivedAuction] counter, one
    entry per [inc], newest first. *)
Record RouterState := {
  AUCTION_REQUEST_MAP : gmap string Z;
  receivedAuction : list AuctionLabels.t;
}.

Definition receivedAuction_inc (labels : AuctionLabels.t) : M RouterState unit :=
  modify (fun st =>
    {| AUCTION_REQUEST_MAP := AUCTION_REQUEST_MAP st;
       receivedAuction := labels :: receivedAuction st |}).

Definition AUCTION_REQUEST_MAP_set (key : string) (value : Z) : M RouterState unit :=
  modify (fun st =>
    {| AUCTION_REQUEST_MAP := <[key := value]> (AUCTION_REQUEST_MAP st);
       receivedAuction := receivedAuction st |}).

(** The template literal
    [`${user}-${sendingAssetId}-${sendingChainId}-${receivingAssetId}-${receivingChainId}`]. *)
Definition requestKey (data : AuctionPayload.t) : string :=
  AuctionPayload.user data +:+ "-" +:+
  AuctionPayload.sendingAssetId data +:+ "-" +:+
  pretty (AuctionPayload.sendingChainId data) +:+ "-" +:+
  AuctionPayload.receivingAssetId data +:+ "-" +:+
  pretty (AuctionPayload.receivingChainId data).

(** Lines 77-95: the [try] block around [BigNumber.from(amount)]; whatever
    is thrown inside is replaced by [ZeroValueBid]. *)
Definition validateAmount (amount : string) : M RouterState unit :=
  match BigNumber_from amount with
  | Some amountBigNumber => throw_if (amountBigNumber =? 0) ZeroValueBid
  | None => throw ZeroValueBid
  end.

(** Lines 100-112.  [lastAttemptTime && ...]: an absent entry and the
    number [0] are both falsy. *)
Definition validateRequestLimit (requestLimit currentTime : Z) (key : string)
  : M RouterState unit :=
  let! st := get in
  match AUCTION_REQUEST_MAP st !! key with
  | Some lastAttemptTime =>
      throw_if (negb (lastAttemptTime =? 0)
                && (lastAttemptTime + requestLimit >? currentTime * 1000))
               (AuctionRateExceeded (currentTime - lastAttemptTime))
  | None => ret tt
  end.

(** Lines 132-147.  Yields the two chain configurations for later use. *)
Definition validateConfig (config : NxtpRouterConfig.t) (sendingChainId receivingChainId : Z)
  : M RouterState (ChainConfig.t * ChainConfig.t) :=
  match NxtpRouterConfig.chainConfig config !! sendingChainId,
        NxtpRouterConfig.chainConfig config !! receivingChainId with
  | Some sendingConfig, Some receivingConfig =>
      do! throw_if ((length (ChainConfig.providers sendingConfig) =? 0)%nat
                    || (length (ChainConfig.providers receivingConfig) =? 0)%nat)
                   (ProvidersNotAvailable [sendingChainId; receivingChainId]) in
      ret (sendingConfig, receivingConfig)
  | _, _ => throw (ProvidersNotAvailable [sendingChainId; receivingChainId])
  end.

(** Lines 150-157 and 159-166, for one chain. *)
Definition requireSynced (ctx : Context) (chainId : Z) : M RouterState unit :=
  let! syncRecords := settle (contractReader_getSyncRecords ctx chainId) in
  throw_if (negb (existsb synced syncRecords)) (SubgraphNotSynced chainId syncRecords).

(** [BigNumber.from(10).pow(18 - assetDecimals)]; ethers throws on a
    negative exponent. *)
Definition pow10 (e : Z) : M RouterState Z :=
  if e <? 0 then throw (Rejected "negative-power") else ret (10 ^ e).

(** Lines 181-188: one asset of the swap pool, in 18 decimals and weighted. *)
Definition routerBalanceInEther (w : World) (ctx : Context) (asset : PoolAsset.t)
  : M RouterState Z :=
  let! assetLiquidity :=
    settle (contractReader_getAssetBalance ctx (PoolAsset.assetId asset) (PoolAsset.chainId asset)) in
  let! assetDecimals :=
    settle (getDecimalsForAsset w (PoolAsset.chainId asset) (PoolAsset.assetId asset)) in
  let! chain :=
    defined (NxtpRouterConfig.chainConfig (config ctx) !! PoolAsset.chainId asset)
            "TypeError: weight of undefined" in
  let poolWeight := ChainConfig.weight chain in
  let! scale := pow10 (18 - assetDecimals) in
  ret (assetLiquidity * scale * poolWeight).

(** Modelled from the spec: [getSwapIdxList] (helpers/shared) is not among
    the sources; by step 7 of the auction evaluator, swap-pool indices
    that cannot be resolved are reported as [ParamsInvalid]. *)
Definition resolveSwapIdxList (w : World) (data : AuctionPayload.t)
  : M RouterState (nat * nat * nat) :=
  match getSwapIdxList w (AuctionPayload.sendingChainId data) (AuctionPayload.sendingAssetId data)
                         (AuctionPayload.receivingChainId data) (AuctionPayload.receivingAssetId data) with
  | Some idx => ret idx
  | None => throw ParamsInvalid
  end.

Definition newAuction (w : World) (data : AuctionPayload.t)
  : M RouterState AuctionResponse.t :=
  do! receivedAuction_inc
        {| AuctionLabels.sendingAssetId := AuctionPayload.sendingAssetId data;
           AuctionLabels.receivingAssetId := AuctionPayload.receivingAssetId data;
           AuctionLabels.sendingChainId := AuctionPayload.receivingChainId data;
           AuctionLabels.receivingChainId := AuctionPayload.receivingChainId data |} in
  let! ctx := getContext (context w) in
  let cfg := config ctx in
  (* Validate params *)
  do! throw_if (negb (validateInput w data)) ParamsInvalid in
  let user := AuctionPayload.user data in
  let sendingChainId := AuctionPayload.sendingChainId data in
  let sendingAssetId := AuctionPayload.sendingAssetId data in
  let amount := AuctionPayload.amount data in
  let receivingAssetId := AuctionPayload.receivingAssetId data in
  let receivingChainId := AuctionPayload.receivingChainId data in
  let expiry := AuctionPayload.expiry data in
  do! validateAmount amount in
  let! currentTime := settle (getNtpTimeSeconds w) in
  let! routerAddress := settle (wallet_getAddress ctx) in
  (* Validate request limit *)
  do! validateRequestLimit (NxtpRouterConfig.requestLimit cfg) currentTime (requestKey data) in
  (* Validate expiry is valid (greater than current time plus a buffer) *)
  do! throw_if (expiry <=? currentTime + AUCTION_EXPIRY_BUFFER w) (AuctionExpired expiry) in
  let! inputDecimals := settle (getDecimalsForAsset w sendingChainId sendingAssetId) in
  let! outputDecimals := settle (getDecimalsForAsset w receivingChainId receivingAssetId) in
  (* validate config *)
  let! (sendingConfig, receivingConfig) := validateConfig cfg sendingChainId receivingChainId in
  (* Make sure subgraphs are synced *)
  do! requireSynced ctx receivingChainId in
  do! requireSynced ctx sendingChainId in
  let! (sendingChainIdx, receivingChainIdx, swapPoolIdx) := resolveSwapIdxList w data in
  let! swapPool :=
    defined (NxtpRouterConfig.swapPools cfg !! swapPoolIdx) "TypeError: assets of undefined" in
  let! routerBalancesInEther := mapM (routerBalanceInEther w ctx) (SwapPool.assets swapPool) in
  let! senderLiquidity := settle (contractReader_getAssetBalance ctx sendingAssetId sendingChainId) in
  let! receiverLiquidity := settle (contractReader_getAssetBalance ctx receivingAssetId receivingChainId) in
  (* getting the swap amount from the receiver side config *)
  let! amountReceived :=
    settle (getReceiverAmount w amount inputDecimals outputDecimals routerBalancesInEther
              sendingChainIdx receivingChainIdx
              (NxtpRouterConfig.maxPriceImpact cfg) (NxtpRouterConfig.amplification cfg)
              (NxtpRouterConfig.allowedVAMM cfg)) in
  let! amountReceivedInBigNum :=
    defined (BigNumber_from amountReceived) "invalid BigNumber string" in
  let! gasFeeInReceivingToken :=
    settle (calculateGasFeeInReceivingToken w sendingAssetId sendingChainId
              receivingAssetId receivingChainId outputDecimals) in
  do! throw_if (amountReceivedInBigNum <? gasFeeInReceivingToken) NotEnoughAmount in
  let amountReceived := amountReceivedInBigNum - gasFeeInReceivingToken in
  do! throw_if (receiverLiquidity <? amountReceived) (NotEnoughLiquidity receivingChainId) in
  let! senderBalance := settle (txService_getBalance ctx sendingChainId routerAddress) in
  let! receiverBalance := settle (txService_getBalance ctx receivingChainId routerAddress) in
  do! throw_if ((senderBalance <? ChainConfig.minGas sendingConfig)
                || (receiverBalance <? ChainConfig.minGas receivingConfig))
               (NotEnoughGas sendingChainId senderBalance receivingChainId receiverBalance) in
  (* Create bid object *)
  let bidExpiry := getBidExpiry w currentTime in
  let bid :=
    {| AuctionBid.user := user;
       AuctionBid.router := routerAddress;
       AuctionBid.initiator := AuctionPayload.initiator data;
       AuctionBid.sendingChainId := sendingChainId;
       AuctionBid.sendingAssetId := sendingAssetId;
       AuctionBid.amount := amount;
       AuctionBid.receivingChainId := receivingChainId;
       AuctionBid.receivingAssetId := receivingAssetId;
       AuctionBid.amountReceived := amountReceived;
       AuctionBid.receivingAddress := AuctionPayload.receivingAddress data;
       AuctionBid.transactionId := AuctionPayload.transactionId data;
       AuctionBid.expiry := expiry;
       AuctionBid.callDataHash := AuctionPayload.callDataHash data;
       AuctionBid.callTo := AuctionPayload.callTo data;
       AuctionBid.encryptedCallData := AuctionPayload.encryptedCallData data;
       AuctionBid.sendingChainTxManagerAddress := ChainConfig.transactionManagerAddress sendingConfig;
       AuctionBid.receivingChainTxManagerAddress := ChainConfig.transactionManagerAddress receivingConfig;
       AuctionBid.bidExpiry := bidExpiry |} in
  let! bidSignature := settle (signAuctionBid w bid) in
  do! AUCTION_REQUEST_MAP_set (requestKey data) (currentTime * 1000) in
  ret {| AuctionResponse.bid := bid;
         AuctionResponse.bidSignature :=
           if AuctionPayload.dryRun data then None else Some bidSignature;
         AuctionResponse.gasFeeInReceivingToken := gasFeeInReceivingToken |}.

End Auction.

(** ** The cancel operation *)

Module InvariantTransactionData.
Record t := {
  transactionId : string;
  user : string;
  router : string;
  initiator : string;
  sendingChainId : Z;
  sendingAssetId : string;
  receivingChainId : Z;
  receivingAssetId : string;
  receivingAddress : string;
  callTo : string;
  callDataHash : string;
}.
End InvariantTransactionData.

(** The variant part of a transaction: [amount], [expiry],
    [preparedBlockNumber]. *)
Module VariantTransactionData.
Record t := {
  amount : string;
  expiry : Z;
  preparedBlockNumber : Z;
}.
End VariantTransactionData.

(** [{ ...invariantData, ...variant }] *)
Module TransactionData.
Record t := {
  invariant : InvariantTransactionData.t;
  variant : VariantTransactionData.t;
}.
Definition expiry (d : t) : Z := VariantTransactionData.expiry (variant d).
End TransactionData.

Inductive TransactionStatus := Prepared | Fulfilled | Cancelled.

Definition TransactionStatus_eqb (a b : TransactionStatus) : bool :=
  match a, b with
  | Prepared, Prepared | Fulfilled, Fulfilled | Cancelled, Cancelled => true
  | _, _ => false
  end.

(** What [contractReader.getTransactionForChain] finds. *)
Module TransactionRecord.
Record t := {
  status : TransactionStatus;
  txData : TransactionData.t;
}.
End TransactionRecord.

Module CancelInput.
Record t := {
  side : string;
  preparedTransactionHash : string;
  amount : string;
  expiry : Z;
  preparedBlockNumber : Z;
}.
End CancelInput.

Module TransactionReceipt.
Record t := { transactionHash : string; blockNumber : Z }.
End TransactionReceipt.

Module Block.
Record t := { timestamp : Z }.
End Block.

Module Cancel.

(** The part of [Context] that [cancel] destructures. *)
Record Context := {
  config : NxtpRouterConfig.t;
  isRouterContract : bool;
  contractReader_getTransactionForChain :
    string -> string -> Z -> promise (option TransactionRecord.t);
  txService_getTransactionReceipt : Z -> string -> promise TransactionReceipt.t;
  txService_getBlock : Z -> Z -> promise (option Block.t);
  txService_getDecimalsForAsset : Z -> string -> promise Z;
  contractWriter_cancel :
    Z -> TransactionData.t -> string -> string -> Z -> promise TransactionReceipt.t;
}.

Record World := {
  context : option Context;
  validateInvariantData : InvariantTransactionData.t -> bool;
  validateInput : CancelInput.t -> bool;
  getNtpTimeSeconds : promise Z;
  utils_getAddress : string -> promise string;
  calculateGasFee : Z -> string -> Z -> string -> string -> promise Z;
}.

(** The calls [cancel] makes to its collaborators; the store of the
    operation is the log of them, latest first. *)
Inductive Call :=
| GetTransactionForChain (transactionId user : string) (chainId : Z)
| GetNtpTimeSeconds
| GetTransactionReceipt (chainId : Z) (transactionHash : string)
| GetBlock (chainId blockNumber : Z)
| GetDecimalsForAsset (chainId : Z) (assetId : string)
| CalculateGasFee (chainId : Z) (assetId : string) (decimals : Z) (action side : string)
| WriterCancel (cancelChain : Z) (txData : TransactionData.t) (signature : string)
               (routerRelayerFeeAsset : string) (routerRelayerFee : Z).

Definition call {A} (c : Call) (p : promise A) : M (list Call) A :=
  do! modify (cons c) in settle p.

Definition SENDER_PREPARE_BUFFER_TIME : Z := 60 * 13.

Definition AddressZero : string := "0x0000000000000000000000000000000000000000".

(** [x || AddressZero]: [undefined] and the empty string are falsy. *)
Definition orAddressZero (x : option string) : string :=
  match x with
  | Some a => if String.eqb a "" then AddressZero else a
  | None => AddressZero
  end.

(** Lines 65-99: the [side === "sender"] branch. *)
Definition senderSide (w : World) (ctx : Context)
    (invariantData : InvariantTransactionData.t) (preparedTransactionHash : string)
  : M (list Call) (Z * string * Z) :=
  let transactionId := InvariantTransactionData.transactionId invariantData in
  let sendingChainId := InvariantTransactionData.sendingChainId invariantData in
  let receivingChainId := InvariantTransactionData.receivingChainId invariantData in
  let cancelChain := sendingChainId in
  let! existing :=
    call (GetTransactionForChain transactionId (InvariantTransactionData.user invariantData)
                                 receivingChainId)
         (contractReader_getTransactionForChain ctx transactionId
            (InvariantTransactionData.user invariantData) receivingChainId) in
  let! currentTime := call GetNtpTimeSeconds (getNtpTimeSeconds w) in
  do! match existing with
      | Some existing =>
          throw_if (negb (TransactionStatus_eqb (TransactionRecord.status existing) Cancelled)
                    && (currentTime <? TransactionData.expiry (TransactionRecord.txData existing)))
                   (ReceiverTxExists transactionId receivingChainId)
      | None => ret tt
      end in
  let! receipt :=
    call (GetTransactionReceipt sendingChainId preparedTransactionHash)
         (txService_getTransactionReceipt ctx sendingChainId preparedTransactionHash) in
  let! preparedBlock :=
    call (GetBlock sendingChainId (TransactionReceipt.blockNumber receipt))
         (txService_getBlock ctx sendingChainId (TransactionReceipt.blockNumber receipt)) in
  do! match preparedBlock with
      | Some preparedBlock =>
          throw_if (currentTime <? Block.timestamp preparedBlock + SENDER_PREPARE_BUFFER_TIME)
                   (SenderTxTooNew transactionId sendingChainId
                                   (Block.timestamp preparedBlock) currentTime)
      | None => throw (SenderTxTooNew transactionId sendingChainId 0 currentTime)
      end in
  ret (cancelChain, AddressZero, 0).

(** Lines 100-121: the [else] branch. *)
Definition receiverSide (w : World) (ctx : Context)
    (invariantData : InvariantTransactionData.t)
  : M (list Call) (Z * string * Z) :=
  let receivingChainId := InvariantTransactionData.receivingChainId invariantData in
  let cancelChain := receivingChainId in
  if isRouterContract ctx then
    let! chain :=
      defined (NxtpRouterConfig.chainConfig (config ctx) !! receivingChainId)
              "TypeError: routerContractRelayerAsset of undefined" in
    let! routerRelayerFeeAsset :=
      settle (utils_getAddress w (orAddressZero (ChainConfig.routerContractRelayerAsset chain))) in
    let! relayerFeeAssetDecimal :=
      call (GetDecimalsForAsset receivingChainId
              (InvariantTransactionData.receivingAssetId invariantData))
           (txService_getDecimalsForAsset ctx receivingChainId
              (InvariantTransactionData.receivingAssetId invariantData)) in
    let! routerRelayerFee :=
      call (CalculateGasFee receivingChainId routerRelayerFeeAsset relayerFeeAssetDecimal
              "cancel" "receiving")
           (calculateGasFee w receivingChainId routerRelayerFeeAsset relayerFeeAssetDecimal
              "cancel" "receiving") in
    ret (cancelChain, routerRelayerFeeAsset, routerRelayerFee)
  else ret (cancelChain, AddressZero, 0).

Definition cancel (w : World) (invariantData : InvariantTransactionData.t)
    (input : CancelInput.t) : M (list Call) TransactionReceipt.t :=
  let! ctx := getContext (context w) in
  (* Validate InvariantData schema *)
  do! throw_if (negb (validateInvariantData w invariantData)) ParamsInvalid in
  (* Validate Prepare Input schema *)
  do! throw_if (negb (validateInput w input)) ParamsInvalid in
  let side := CancelInput.side input in
  let preparedTransactionHash := CancelInput.preparedTransactionHash input in
  let variant :=
    {| VariantTransactionData.amount := CancelInput.amount input;
       VariantTransactionData.expiry := CancelInput.expiry input;
       VariantTransactionData.preparedBlockNumber := CancelInput.preparedBlockNumber input |} in
  let! (cancelChain, routerRelayerFeeAsset, routerRelayerFee) :=
    if String.eqb side "sender"
    then senderSide w ctx invariantData preparedTransactionHash
    else receiverSide w ctx invariantData in
  (* Send to tx service *)
  let txData := {| TransactionData.invariant := invariantData;
                   TransactionData.variant := variant |} in
  call (WriterCancel cancelChain txData "0x" routerRelayerFeeAsset routerRelayerFee)
       (contractWriter_cancel ctx cancelChain txData "0x" routerRelayerFeeAsset routerRelayerFee).

(** A cancel was handed to the chain writer. *)
Definition is_WriterCancel (c : Call) : bool :=
  match c with WriterCancel _ _ _ _ _ => true | _ => false end.

Definition dispatched (log : list Call) : bool := existsb is_WriterCancel log.

(** A call of the sender-side safety checks: the receiver-record lookup,
    the clock read for the expiry comparison, and the two reads that find
    the age of the prepared block. *)
Definition is_check_call (c : Call) : bool :=
  match c with
  | GetTransactionForChain _ _ _ | GetNtpTimeSeconds
  | GetTransactionReceipt _ _ | GetBlock _ _ => true
  | _ => false
  end.

End Cancel.


(** ** Reasoning about operations *)

(** [wp m s Q R]: run from store [s], the operation [m] either returns [a]
    in a store [s'] with [Q a s'], or throws [e] in a store [s'] with
    [R e s']. *)
Definition wp {S A} (m : M S A) (s : S) (Q : A -> S -> Prop) (R : RouterError -> S -> Prop)
  : Prop :=
  match m s with
  | (Ok a, s') => Q a s'
  | (Throw e, s') => R e s'
  end.

(** An operation that leaves the store alone, whatever its outcome. *)
Definition pure {S A} (m : M S A) : Prop :=
  forall s, wp m s (fun _ s' => s' = s) (fun _ s' => s' = s).

(** ** Sample router set-up

    The set-up of the end-to-end scenarios: chains 1337 and 1338, one swap
    pool over one asset on either chain, a request limit of 5000 ms and an
    expiry buffer of 300 s. *)

Module Sample.

Definition sendingAsset : string := "0x1000000000000000000000000000000000000001".
Definition receivingAsset : string := "0x2000000000000000000000000000000000000002".
Definition routerAddress : string := "0x3000000000000000000000000000000000000003".
Definition userAddress : string := "0x4000000000000000000000000000000000000004".
Definition txManager : string := "0x5000000000000000000000000000000000000005".
Definition transactionId : string := "0xaaaa".

Definition chain : ChainConfig.t :=
  {| ChainConfig.providers := ["http://localhost:8545"];
     ChainConfig.minGas := 10 ^ 17;
     ChainConfig.transactionManagerAddress := txManager;
     ChainConfig.weight := 1;
     ChainConfig.routerContractRelayerAsset := None |}.

Definition config : NxtpRouterConfig.t :=
  {| NxtpRouterConfig.requestLimit := 5000;
     NxtpRouterConfig.chainConfig := <[1337 := chain]> (<[1338 := chain]> ∅);
     NxtpRouterConfig.swapPools :=
       [ {| SwapPool.name := "TEST";
            SwapPool.assets :=
              [ {| PoolAsset.assetId := sendingAsset; PoolAsset.chainId := 1337 |};
                {| PoolAsset.assetId := receivingAsset; PoolAsset.chainId := 1338 |} ] |} ];
     NxtpRouterConfig.maxPriceImpact := "0.1";
     NxtpRouterConfig.amplification := "85";
     NxtpRouterConfig.allowedVAMM := true |}.

Definition record (isSynced : bool) : SyncRecord :=
  {| synced := isSynced; latestBlock := 100; syncedBlock := if isSynced then 100 else 10;
     lag := if isSynced then 0 else 90; uri := "http://localhost:8000/subgraph" |}.

(** A context whose indexers report [records] for a chain and whose router
    holds [liquidity] of every asset. *)
Definition auctionContext (records : Z -> list SyncRecord) (liquidity : Z) : Auction.Context :=
  {| Auction.config := config;
     Auction.wallet_getAddress := Resolves routerAddress;
     Auction.contractReader_getSyncRecords := fun chainId => Resolves (records chainId);
     Auction.contractReader_getAssetBalance := fun _ _ => Resolves liquidity;
     Auction.txService_getBalance := fun _ _ => Resolves (10 ^ 18) |}.

Definition allSynced (chainId : Z) : list SyncRecord := [record false; record true].

(** Scenario S3: the only indexer of the receiving chain lags behind. *)
Definition receivingLags (chainId : Z) : list SyncRecord :=
  if chainId =? 1338 then [record false] else [record true].

(** A world at NTP time [now] whose AMM quotes [ammOutput] and whose gas
    fee in the receiving token is [gasFee]; of the schema, the validator
    checks the amount. *)
Definition auctionWorld (ctx : Auction.Context) (now : Z) (ammOutput : string) (gasFee : Z)
  : Auction.World :=
  {| Auction.context := Some ctx;
     Auction.validateInput := fun data => TIntegerString (AuctionPayload.amount data);
     Auction.getNtpTimeSeconds := Resolves now;
     Auction.getDecimalsForAsset := fun _ _ => Resolves 18;
     Auction.getSwapIdxList := fun _ _ _ _ => Some (0, 1, 0)%nat;
     Auction.getReceiverAmount := fun _ _ _ _ _ _ _ _ _ => Resolves ammOutput;
     Auction.calculateGasFeeInReceivingToken := fun _ _ _ _ _ => Resolves gasFee;
     Auction.getBidExpiry := fun t => t + 300;
     Auction.AUCTION_EXPIRY_BUFFER := 300;
     Auction.signAuctionBid := fun _ => Resolves "0xsigned" |}.

Definition world (now : Z) (ammOutput : string) (gasFee : Z) : Auction.World :=
  auctionWorld (auctionContext allSynced 10000000) now ammOutput gasFee.

Definition payload (amount : string) (expiry : Z) : AuctionPayload.t :=
  {| AuctionPayload.user := userAddress;
     AuctionPayload.initiator := userAddress;
     AuctionPayload.sendingChainId := 1337;
     AuctionPayload.sendingAssetId := sendingAsset;
     AuctionPayload.amount := amount;
     AuctionPayload.receivingChainId := 1338;
     AuctionPayload.receivingAssetId := receivingAsset;
     AuctionPayload.receivingAddress := userAddress;
     AuctionPayload.expiry := expiry;
     AuctionPayload.transactionId := transactionId;
     AuctionPayload.encryptedCallData := "0x";
     AuctionPayload.callDataHash := "0x";
     AuctionPayload.callTo := Cancel.AddressZero;
     AuctionPayload.dryRun := false |}.

(** The router just after start-up. *)
Definition fresh : Auction.RouterState :=
  {| Auction.AUCTION_REQUEST_MAP := ∅; Auction.receivedAuction := [] |}.

(** The transaction of the sample request, as the cancel operation sees it. *)
Definition invariantData : InvariantTransactionData.t :=
  {| InvariantTransactionData.transactionId := transactionId;
     InvariantTransactionData.user := userAddress;
     InvariantTransactionData.router := routerAddress;
     InvariantTransactionData.initiator := userAddress;
     InvariantTransactionData.sendingChainId := 1337;
     InvariantTransactionData.sendingAssetId := sendingAsset;
     InvariantTransactionData.receivingChainId := 1338;
     InvariantTransactionData.receivingAssetId := receivingAsset;
     InvariantTransactionData.receivingAddress := userAddress;
     InvariantTransactionData.callTo := Cancel.AddressZero;
     InvariantTransactionData.callDataHash := "0x" |}.

Definition cancelInput (side : string) : CancelInput.t :=
  {| CancelInput.side := side;
     CancelInput.preparedTransactionHash := "0xbbbb";
     CancelInput.amount := "1000000";
     CancelInput.expiry := 100000;
     CancelInput.preparedBlockNumber := 42 |}.

(** The receiver-side record of the sample transaction. *)
Definition receiverRecord (status : TransactionStatus) (expiry : Z) : TransactionRecord.t :=
  {| TransactionRecord.status := status;
     TransactionRecord.txData :=
       {| TransactionData.invariant := invariantData;
          TransactionData.variant :=
            {| VariantTransactionData.amount := "998000";
               VariantTransactionData.expiry := expiry;
               VariantTransactionData.preparedBlockNumber := 43 |} |} |}.

(** A context in which the receiver side holds [existing] and the sender
    side was prepared in a block of time [preparedAt]. *)
Definition cancelContext (viaRouterContract : bool) (existing : option TransactionRecord.t)
    (preparedAt : Z) : Cancel.Context :=
  {| Cancel.config := config;
     Cancel.isRouterContract := viaRouterContract;
     Cancel.contractReader_getTransactionForChain := fun _ _ _ => Resolves existing;
     Cancel.txService_getTransactionReceipt :=
       fun _ hash => Resolves {| TransactionReceipt.transactionHash := hash;
                                 TransactionReceipt.blockNumber := 42 |};
     Cancel.txService_getBlock := fun _ _ => Resolves (Some {| Block.timestamp := preparedAt |});
     Cancel.txService_getDecimalsForAsset := fun _ _ => Resolves 18;
     Cancel.contractWriter_cancel :=
       fun _ _ _ _ _ => Resolves {| TransactionReceipt.transactionHash := "0xcccc";
                                    TransactionReceipt.blockNumber := 50 |} |}.

Definition cancelWorld (ctx : Cancel.Context) (now : Z) : Cancel.World :=
  {| Cancel.context := Some ctx;
     Cancel.validateInvariantData := fun _ => true;
     Cancel.validateInput := fun _ => true;
     Cancel.getNtpTimeSeconds := Resolves now;
     Cancel.utils_getAddress := fun address => Resolves address;
     Cancel.calculateGasFee := fun _ _ _ _ _ => Resolves 1234 |}.

(** The router after it has answered the sample request at time 1000. *)
Definition served_once : Auction.RouterState :=
  snd (Auction.newAuction (world 1000 "999000" 1000) (payload "1000000" 100000) fresh).

End Sample.

(** ** Serving a sequence of auction requests

    The messaging binding hands every inbound auction request to
    [newAuction], one after the other, each in the world of its moment,
    over the same router state. *)

Fixpoint serve (requests : list (Auction.World * AuctionPayload.t))
    (st : Auction.RouterState) : list (res AuctionResponse.t) * Auction.RouterState :=
  match requests with
  | [] => ([], st)
  | (w, data) :: requests' =>
      let (r, st1) := Auction.newAuction w data st in
      let (rs, st2) := serve requests' st1 in
      (r :: rs, st2)
  end.

(** The clock of a world reads a time after the epoch. *)
Definition clock_after_epoch (w : Auction.World) : Prop :=
  forall t, Auction.getNtpTimeSeconds w = Resolves t -> 0 < t.

(** The amount received of the bid an auction was answered with, if any. *)
Definition bidAmountReceived (r : res AuctionResponse.t) : option Z :=
  match r with
  | Ok resp => Some (AuctionBid.amountReceived (AuctionResponse.bid resp))
  | Throw _ => None
  end.

(** The error an operation ended with, if any. *)
Definition thrown {A} (r : res A) : option RouterError :=
  match r with
  | Ok _ => None
  | Throw e => Some e
  end.

(** ** What the errors of [newAuction] report

    The state of the world that each error of the later checks of
    [newAuction] stands for; the errors not listed carry no condition. *)
Definition error_cause (w : Auction.World) (data : AuctionPayload.t) (e : RouterError) : Prop :=
  match e with
  | ParamsInvalid =>
      Auction.validateInput w data = false
      \/ Auction.getSwapIdxList w (AuctionPayload.sendingChainId data)
           (AuctionPayload.sendingAssetId data) (AuctionPayload.receivingChainId data)
           (AuctionPayload.receivingAssetId data) = None
  | ProvidersNotAvailable chains =>
      chains = [AuctionPayload.sendingChainId data; AuctionPayload.receivingChainId data]
      /\ exists ctx,
           Auction.context w = Some ctx
           /\ forall sendingConfig receivingConfig,
                NxtpRouterConfig.chainConfig (Auction.config ctx)
                  !! AuctionPayload.sendingChainId data = Some sendingConfig ->
                NxtpRouterConfig.chainConfig (Auction.config ctx)
                  !! AuctionPayload.receivingChainId data = Some receivingConfig ->
                ChainConfig.providers sendingConfig <> [] ->
                ChainConfig.providers receivingConfig <> [] -> False
  | NotEnoughAmount =>
      exists ctx ammOutput amountReceivedInBigNum gasFeeInReceivingToken,
        Auction.context w = Some ctx
        /\ (exists inputDecimals outputDecimals routerBalancesInEther
                   sendingChainIdx receivingChainIdx,
              Auction.getReceiverAmount w (AuctionPayload.amount data)
                inputDecimals outputDecimals routerBalancesInEther
                sendingChainIdx receivingChainIdx
                (NxtpRouterConfig.maxPriceImpact (Auction.config ctx))
                (NxtpRouterConfig.amplification (Auction.config ctx))
                (NxtpRouterConfig.allowedVAMM (Auction.config ctx))
              = Resolves ammOutput
              /\ Auction.calculateGasFeeInReceivingToken w
                   (AuctionPayload.sendingAssetId data)
                   (AuctionPayload.sendingChainId data)
                   (AuctionPayload.receivingAssetId data)
                   (AuctionPayload.receivingChainId data) outputDecimals
                 = Resolves gasFeeInReceivingToken)
        /\ BigNumber_from ammOutput = Some amountReceivedInBigNum
        /\ amountReceivedInBigNum < gasFeeInReceivingToken
  | NotEnoughLiquidity chainId =>
      chainId = AuctionPayload.receivingChainId data
      /\ exists ctx receiverLiquidity ammOutput amountReceivedInBigNum
                gasFeeInReceivingToken,
           Auction.context w = Some ctx
           /\ Auction.contractReader_getAssetBalance ctx
                (AuctionPayload.receivingAssetId data)
                (AuctionPayload.receivingChainId data)
              = Resolves receiverLiquidity
           /\ (exists inputDecimals outputDecimals routerBalancesInEther
                      sendingChainIdx receivingChainIdx,
                 Auction.getReceiverAmount w (AuctionPayload.amount data)
                   inputDecimals outputDecimals routerBalancesInEther
                   sendingChainIdx receivingChainIdx
                   (NxtpRouterConfig.maxPriceImpact (Auction.config ctx))
                   (NxtpRouterConfig.amplification (Auction.config ctx))
                   (NxtpRouterConfig.allowedVAMM (Auction.config ctx))
                 = Resolves ammOutput
                 /\ Auction.calculateGasFeeInReceivingToken w
                      (AuctionPayload.sendingAssetId data)
                      (AuctionPayload.sendingChainId data)
                      (AuctionPayload.receivingAssetId data)
                      (AuctionPayload.receivingChainId data) outputDecimals
                    = Resolves gasFeeInReceivingToken)
           /\ BigNumber_from ammOutput = Some amountReceivedInBigNum
           /\ gasFeeInReceivingToken <= amountReceivedInBigNum
           /\ receiverLiquidity < amountReceivedInBigNum - gasFeeInReceivingToken
  | NotEnoughGas sendingChainId senderBalance receivingChainId receiverBalance =>
      sendingChainId = AuctionPayload.sendingChainId data
      /\ receivingChainId = AuctionPayload.receivingChainId data
      /\ exists ctx routerAddress sendingConfig receivingConfig,
           Auction.context w = Some ctx
           /\ Auction.wallet_getAddress ctx = Resolves routerAddress
           /\ NxtpRouterConfig.chainConfig (Auction.config ctx)
                !! AuctionPayload.sendingChainId data = Some sendingConfig
           /\ NxtpRouterConfig.chainConfig (Auction.config ctx)
                !! AuctionPayload.receivingChainId data = Some receivingConfig
           /\ Auction.txService_getBalance ctx (AuctionPayload.sendingChainId data)
                routerAddress = Resolves senderBalance
           /\ Auction.txService_getBalance ctx (AuctionPayload.receivingChainId data)
                routerAddress = Resolves receiverBalance
           /\ (senderBalance < ChainConfig.minGas sendingConfig
               \/ receiverBalance < ChainConfig.minGas receivingConfig)
  | _ => True
  end.

(** ** Start-up of the router (router.ts)

    [makeRouter] fills the singleton context field by field and starts the
    bindings that the configuration asks for; whatever is thrown on the way
    is caught, reported on the console, and ends the process. *)

Module Startup.

(** The fields of the configuration that [makeRouter] reads. *)
Record Config := {
  mnemonic : option string;
  web3SignerUrl : option string;
  logLevel : string;
  authUrl : string;
  natsUrl : string;
  diagnosticMode : bool;
  cleanUpMode : bool;
  priceCacheMode : bool;
}.

(** [Wallet.fromMnemonic(mnemonic)] or [new Web3Signer(url)]. *)
Inductive Signer :=
| FromMnemonic (mnemonic : string)
| Web3Signer (url : option string).

(** The singleton [context]; a field is [None] until it is assigned. *)
Record Context := {
  chainData : option string;
  config : option Config;
  wallet : option Signer;
  logger : option (string * string);
  messaging : option Signer;
  txService : option Signer;
  contractReader : option unit;
  contractWriter : option unit;
}.

(** [const context: Context = {} as any] *)
Definition empty : Context :=
  {| chainData := None; config := None; wallet := None; logger := None;
     messaging := None; txService := None; contractReader := None; contractWriter := None |}.

(** What [makeRouter] does to the outside, in order. *)
Inductive Event :=
| LogInfo (message : string) (logged : option Config)
| LogWarn (message : string)
| Connect
| BindContractReader
| BindMessaging
| BindPrices
| BindFastify
| BindMetrics
| ConsoleError (e : RouterError)
| ProcessExit.

Record State := {
  context : Context;
  events : list Event;
}.

(** The collaborators of the start-up; constructors may throw. *)
Record World := {
  getChainData : promise (option string);
  getConfig : promise Config;
  Wallet_fromMnemonic : string -> promise Signer;
  new_Web3Signer : option string -> promise Signer;
  address : Signer -> string;
  new_Logger : string -> string -> promise (string * string);
  new_Messaging : Signer -> string -> string -> promise Signer;
  messaging_connect : promise unit;
  new_TransactionService : Signer -> promise Signer;
  subgraphContractReader : promise unit;
  contractWriter_make : promise unit;
  bindContractReader : promise unit;
  bindMessaging : promise unit;
  bindPrices : promise unit;
  bindFastify : promise unit;
  bindMetrics : promise unit;
}.

Definition emit (e : Event) : M State unit :=
  modify (fun st => {| context := context st; events := e :: events st |}).

Definition assign (f : Context -> Context) : M State unit :=
  modify (fun st => {| context := f (context st); events := events st |}).

(** [Object.keys(context).length === 0] *)
Definition no_keys (c : Context) : bool :=
  match chainData c, config c, wallet c, logger c,
        messaging c, txService c, contractReader c, contractWriter c with
  | None, None, None, None, None, None, None, None => true
  | _, _, _, _, _, _, _, _ => false
  end.

(** What [getContext] has to hand out: nothing while the object has no key. *)
Definition current (c : Context) : option Context :=
  if no_keys c then None else Some c.

(** A JavaScript string used as a condition: [undefined] and [""] are falsy. *)
Definition truthy (s : option string) : bool :=
  match s with
  | Some v => negb (String.eqb v "")
  | None => false
  end.

(** [Object.assign(context.config, ...)]: the configuration object held by
    the context is itself overwritten. *)
Definition redact (c : Config) : Config :=
  {| mnemonic := if truthy (mnemonic c) then Some "......." else Some "N/A";
     web3SignerUrl := web3SignerUrl c;
     logLevel := logLevel c;
     authUrl := authUrl c;
     natsUrl := natsUrl c;
     diagnosticMode := diagnosticMode c;
     cleanUpMode := cleanUpMode c;
     priceCacheMode := priceCacheMode c |}.

Definition set_chainData v (c : Context) : Context :=
  {| chainData := Some v; config := config c; wallet := wallet c; logger := logger c;
     messaging := messaging c; txService := txService c;
     contractReader := contractReader c; contractWriter := contractWriter c |}.
Definition set_config v (c : Context) : Context :=
  {| chainData := chainData c; config := Some v; wallet := wallet c; logger := logger c;
     messaging := messaging c; txService := txService c;
     contractReader := contractReader c; contractWriter := contractWriter c |}.
Definition set_wallet v (c : Context) : Context :=
  {| chainData := chainData c; config := config c; wallet := Some v; logger := logger c;
     messaging := messaging c; txService := txService c;
     contractReader := contractReader c; contractWriter := contractWriter c |}.
Definition set_logger v (c : Context) : Context :=
  {| chainData := chainData c; config := config c; wallet := wallet c; logger := Some v;
     messaging := messaging c; txService := txService c;
     contractReader := contractReader c; contractWriter := contractWriter c |}.
Definition set_messaging v (c : Context) : Context :=
  {| chainData := chainData c; config := config c; wallet := wallet c; logger := logger c;
     messaging := Some v; txService := txService c;
     contractReader := contractReader c; contractWriter := contractWriter c |}.
Definition set_txService v (c : Context) : Context :=
  {| chainData := chainData c; config := config c; wallet := wallet c; logger := logger c;
     messaging := messaging c; txService := Some v;
     contractReader := contractReader c; contractWriter := contractWriter c |}.
Definition set_contractReader v (c : Context) : Context :=
  {| chainData := chainData c; config := config c; wallet := wallet c; logger := logger c;
     messaging := messaging c; txService := txService c;
     contractReader := Some v; contractWriter := contractWriter c |}.
Definition set_contractWriter v (c : Context) : Context :=
  {| chainData := chainData c; config := config c; wallet := wallet c; logger := logger c;
     messaging := messaging c; txService := txService c;
     contractReader := contractReader c; contractWriter := Some v |}.

(** Lines 45-100: the body of the [try] block. *)
Definition start (w : World) : M State unit :=
  let! chainData := settle (getChainData w) in
  let! chainData := defined chainData "Could not get chain data" in
  do! assign (set_chainData chainData) in
  let! cfg := settle (getConfig w) in
  do! assign (set_config cfg) in
  let! signer :=
    (if truthy (mnemonic cfg)
     then settle (Wallet_fromMnemonic w (default "" (mnemonic cfg)))
     else settle (new_Web3Signer w (web3SignerUrl cfg))) in
  do! assign (set_wallet signer) in
  let! log := settle (new_Logger w (logLevel cfg) (address w signer)) in
  do! assign (set_logger log) in
  do! assign (set_config (redact cfg)) in
  do! emit (LogInfo "Config generated" (Some (redact cfg))) in
  let cfg := redact cfg in
  let! nats := settle (new_Messaging w signer (authUrl cfg) (natsUrl cfg)) in
  do! assign (set_messaging nats) in
  do! emit Connect in
  do! settle (messaging_connect w) in
  let! txs := settle (new_TransactionService w signer) in
  do! assign (set_txService txs) in
  (* adapters *)
  let! reader := settle (subgraphContractReader w) in
  do! assign (set_contractReader reader) in
  let! writer := settle (contractWriter_make w) in
  do! assign (set_contractWriter writer) in
  (* bindings *)
  do! (if negb (diagnosticMode cfg)
       then do! emit BindContractReader in settle (bindContractReader w)
       else emit (LogWarn "Running router in diagnostic mode")) in
  do! (if negb (cleanUpMode cfg)
       then do! emit BindMessaging in settle (bindMessaging w)
       else emit (LogWarn "Running router in cleanup mode")) in
  do! (if priceCacheMode cfg
       then do! emit BindPrices in settle (bindPrices w)
       else emit (LogWarn "Running router not in price cache mode")) in
  do! emit BindFastify in
  do! settle (bindFastify w) in
  do! emit BindMetrics in
  do! settle (bindMetrics w) in
  emit (LogInfo "Router ready 🚀" None).

(** [try { ... } catch (e) { console.error(...); process.exit(); }] *)
Definition makeRouter (w : World) (st : State) : State :=
  match start w st with
  | (Ok _, st') => st'
  | (Throw e, st') =>
      {| context := context st'; events := ProcessExit :: ConsoleError e :: events st' |}
  end.

(** The process has been ended. *)
Definition exited (st : State) : bool :=
  match events st with
  | ProcessExit :: _ => true
  | _ => false
  end.

(** The bindings started, oldest first. *)
Definition is_binding (e : Event) : bool :=
  match e with
  | BindContractReader | BindMessaging | BindPrices | BindFastify | BindMetrics => true
  | _ => false
  end.

Definition bindings (st : State) : list Event := rev (filter (fun e => is_binding e = true) (events st)).

(** The state of a process that has just been loaded. *)
Definition boot : State := {| context := empty; events := [] |}.

End Startup.

(** ** The Multicall contract (deployments/.../Multicall.json)

    [aggregate] of the deployed Solidity source: every call is made in turn,
    a failed call reverts the whole transaction, and the return data is
    stored at the index of its call. *)

Module Multicall.

Record Call := { target : string; callData : string }.

(** The chain as [aggregate] sees it: [call] is the low-level
    [target.call(callData)], which reports success, returns data and leaves
    the chain in a new state. *)
Record Evm (St : Type) := {
  call : St -> string -> string -> bool * string * St;
}.
Arguments call {St} _ _ _ _.

(** The body of the [for] loop, for the [fuel] indices from [i] on;
    [None] is a revert ([require(success)] or an index out of bounds). *)
Fixpoint loop {St} (evm : Evm St) (calls : list Call) (fuel i : nat)
    (returnData : list string) (st : St) : option (list string * St) :=
  match fuel with
  | O => Some (returnData, st)
  | S fuel' =>
      match calls !! i with
      | Some c =>
          let '(success, ret, st') := call evm st (target c) (callData c) in
          if success
          then loop evm calls fuel' (S i) (<[i := ret]> returnData) st'
          else None
      | None => None
      end
  end.

(** [function aggregate(Call[] memory calls) public returns (uint256
    blockNumber, bytes[] memory returnData)] *)
Definition aggregate {St} (evm : Evm St) (blockNumber : Z) (calls : list Call) (st : St)
  : option (Z * list string * St) :=
  match loop evm calls (length calls) 0 (replicate (length calls) "") st with
  | Some (returnData, st') => Some (blockNumber, returnData, st')
  | None => None
  end.

(** The calls made one after the other, each on the state the previous one
    left, with their return data in order. *)
Fixpoint in_turn {St} (evm : Evm St) (calls : list Call) (st : St)
  : option (list string * St) :=
  match calls with
  | [] => Some ([], st)
  | c :: calls' =>
      let '(success, ret, st') := call evm st (target c) (callData c) in
      if success
      then match in_turn evm calls' st' with
           | Some (rets, st'') => Some (ret :: rets, st'')
           | None => None
           end
      else None
  end.

End Multicall.

(** ** The key of the rate limiter *)

(** A string without the separator of the key. *)
Fixpoint dash_free (s : string) : bool :=
  match s with
  | EmptyString => true
  | String c s' => negb (Ascii.eqb c "-") && dash_free s'
  end.

(** Identifiers as the schema has them: the user and the assets are
    addresses, which hold no dash, and a chain id is not negative. *)
Definition plain_ids (data : AuctionPayload.t) : Prop :=
  dash_free (AuctionPayload.user data) = true
  /\ dash_free (AuctionPayload.sendingAssetId data) = true
  /\ dash_free (AuctionPayload.receivingAssetId data) = true
  /\ 0 <= AuctionPayload.sendingChainId data.

(** Two requests with the same user, assets and chains: the five fields
    that the key of the rate limiter is made of. *)
Definition same_key_fields (a b : AuctionPayload.t) : bool :=
  String.eqb (AuctionPayload.user a) (AuctionPayload.user b)
  && String.eqb (AuctionPayload.sendingAssetId a) (AuctionPayload.sendingAssetId b)
  && (AuctionPayload.sendingChainId a =? AuctionPayload.sendingChainId b)
  && String.eqb (AuctionPayload.receivingAssetId a) (AuctionPayload.receivingAssetId b)
  && (AuctionPayload.receivingChainId a =? AuctionPayload.receivingChainId b).

(** The previous attempt recorded for the key of [data] in a sequence of
    requests served with the outcomes given: the NTP time, in seconds, of
    the latest request of the sequence that has the five key fields of
    [data] and was answered with a bid.  Requests that were refused are not
    recorded. *)
Fixpoint previous_attempt (data : AuctionPayload.t)
    (served : list (Auction.World * AuctionPayload.t * res AuctionResponse.t)) : option Z :=
  match served with
  | [] => None
  | (w, d, r) :: later =>
      match previous_attempt data later with
      | Some t => Some t
      | None =>
          match r, Auction.getNtpTimeSeconds w with
          | Ok _, Resolves t => if same_key_fields d data then Some t else None
          | _, _ => None
          end
      end
  end.

(** ** Further scenarios *)

Module Scenario.

(** The sample request as a dry run. *)
Definition dryRunPayload : AuctionPayload.t :=
  {| AuctionPayload.user := Sample.userAddress;
     AuctionPayload.initiator := Sample.userAddress;
     AuctionPayload.sendingChainId := 1337;
     AuctionPayload.sendingAssetId := Sample.sendingAsset;
     AuctionPayload.amount := "1000000";
     AuctionPayload.receivingChainId := 1338;
     AuctionPayload.receivingAssetId := Sample.receivingAsset;
     AuctionPayload.receivingAddress := Sample.userAddress;
     AuctionPayload.expiry := 100000;
     AuctionPayload.transactionId := Sample.transactionId;
     AuctionPayload.encryptedCallData := "0x";
     AuctionPayload.callDataHash := "0x";
     AuctionPayload.callTo := Cancel.AddressZero;
     AuctionPayload.dryRun := true |}.

(** The response of the sample router to the sample request at time 1000,
    for an AMM output of 999000 and a gas fee of 1000. *)
Definition answer (signature : option string) : AuctionResponse.t :=
  {| AuctionResponse.bid :=
       {| AuctionBid.user := Sample.userAddress;
          AuctionBid.router := Sample.routerAddress;
          AuctionBid.initiator := Sample.userAddress;
          AuctionBid.sendingChainId := 1337;
          AuctionBid.sendingAssetId := Sample.sendingAsset;
          AuctionBid.amount := "1000000";
          AuctionBid.receivingChainId := 1338;
          AuctionBid.receivingAssetId := Sample.receivingAsset;
          AuctionBid.amountReceived := 998000;
          AuctionBid.receivingAddress := Sample.userAddress;
          AuctionBid.transactionId := Sample.transactionId;
          AuctionBid.expiry := 100000;
          AuctionBid.callDataHash := "0x";
          AuctionBid.callTo := Cancel.AddressZero;
          AuctionBid.encryptedCallData := "0x";
          AuctionBid.sendingChainTxManagerAddress := Sample.txManager;
          AuctionBid.receivingChainTxManagerAddress := Sample.txManager;
          AuctionBid.bidExpiry := 1300 |};
     AuctionResponse.bidSignature := signature;
     AuctionResponse.gasFeeInReceivingToken := 1000 |}.

(** Scenario S4: the router holds 500000 of the receiving asset while the
    AMM quotes 901000 against a gas fee of 1000. *)
Definition shortOfLiquidity : Auction.World :=
  Sample.auctionWorld (Sample.auctionContext Sample.allSynced 500000) 1000 "901000" 1000.

(** A sender-side context in which the prepared block cannot be found. *)
Definition blockMissing : Cancel.Context :=
  {| Cancel.config := Sample.config;
     Cancel.isRouterContract := false;
     Cancel.contractReader_getTransactionForChain := fun _ _ _ => Resolves None;
     Cancel.txService_getTransactionReceipt :=
       fun _ hash => Resolves {| TransactionReceipt.transactionHash := hash;
                                 TransactionReceipt.blockNumber := 42 |};
     Cancel.txService_getBlock := fun _ _ => Resolves None;
     Cancel.txService_getDecimalsForAsset := fun _ _ => Resolves 18;
     Cancel.contractWriter_cancel :=
       fun _ _ _ _ _ => Resolves {| TransactionReceipt.transactionHash := "0xcccc";
                                    TransactionReceipt.blockNumber := 50 |} |}.

(** The transaction data that a cancel of the sample transaction hands to
    the chain writer. *)
Definition cancelTxData : TransactionData.t :=
  {| TransactionData.invariant := Sample.invariantData;
     TransactionData.variant :=
       {| VariantTransactionData.amount := "1000000";
          VariantTransactionData.expiry := 100000;
          VariantTransactionData.preparedBlockNumber := 42 |} |}.

(** The sample request of another user. *)
Definition otherUserPayload : AuctionPayload.t :=
  {| AuctionPayload.user := Sample.routerAddress;
     AuctionPayload.initiator := Sample.routerAddress;
     AuctionPayload.sendingChainId := 1337;
     AuctionPayload.sendingAssetId := Sample.sendingAsset;
     AuctionPayload.amount := "1000000";
     AuctionPayload.receivingChainId := 1338;
     AuctionPayload.receivingAssetId := Sample.receivingAsset;
     AuctionPayload.receivingAddress := Sample.routerAddress;
     AuctionPayload.expiry := 100000;
     AuctionPayload.transactionId := "0xdddd";
     AuctionPayload.encryptedCallData := "0x";
     AuctionPayload.callDataHash := "0x";
     AuctionPayload.callTo := Cancel.AddressZero;
     AuctionPayload.dryRun := false |}.

(** A start-up in which every collaborator answers. *)
Definition startupWorld (cfg : Startup.Config) : Startup.World :=
  {| Startup.getChainData := Resolves (Some "chains");
     Startup.getConfig := Resolves cfg;
     Startup.Wallet_fromMnemonic := fun m => Resolves (Startup.FromMnemonic m);
     Startup.new_Web3Signer := fun url => Resolves (Startup.Web3Signer url);
     Startup.address := fun _ => Sample.routerAddress;
     Startup.new_Logger := fun level name => Resolves (level, name);
     Startup.new_Messaging := fun signer _ _ => Resolves signer;
     Startup.messaging_connect := Resolves tt;
     Startup.new_TransactionService := fun signer => Resolves signer;
     Startup.subgraphContractReader := Resolves tt;
     Startup.contractWriter_make := Resolves tt;
     Startup.bindContractReader := Resolves tt;
     Startup.bindMessaging := Resolves tt;
     Startup.bindPrices := Resolves tt;
     Startup.bindFastify := Resolves tt;
     Startup.bindMetrics := Resolves tt |}.

Definition startupConfig (diagnostic cleanUp priceCache : bool) : Startup.Config :=
  {| Startup.mnemonic := Some "candy maple cake sugar";
     Startup.web3SignerUrl := None;
     Startup.logLevel := "info";
     Startup.authUrl := "https://auth";
     Startup.natsUrl := "nats://nats";
     Startup.diagnosticMode := diagnostic;
     Startup.cleanUpMode := cleanUp;
     Startup.priceCacheMode := priceCache |}.

(** A start-up without chain data. *)
Definition noChainData : Startup.World :=
  {| Startup.getChainData := Resolves None;
     Startup.getConfig := Resolves (startupConfig false false false);
     Startup.Wallet_fromMnemonic := fun m => Resolves (Startup.FromMnemonic m);
     Startup.new_Web3Signer := fun url => Resolves (Startup.Web3Signer url);
     Startup.address := fun _ => Sample.routerAddress;
     Startup.new_Logger := fun level name => Resolves (level, name);
     Startup.new_Messaging := fun signer _ _ => Resolves signer;
     Startup.messaging_connect := Resolves tt;
     Startup.new_TransactionService := fun signer => Resolves signer;
     Startup.subgraphContractReader := Resolves tt;
     Startup.contractWriter_make := Resolves tt;
     Startup.bindContractReader := Resolves tt;
     Startup.bindMessaging := Resolves tt;
     Startup.bindPrices := Resolves tt;
     Startup.bindFastify := Resolves tt;
     Startup.bindMetrics := Resolves tt |}.

(** A start-up in diagnostic and clean-up mode in which the metrics cannot
    be bound. *)
Definition metricsDown : Startup.World :=
  {| Startup.getChainData := Resolves (Some "chains");
     Startup.getConfig := Resolves (startupConfig true true false);
     Startup.Wallet_fromMnemonic := fun m => Resolves (Startup.FromMnemonic m);
     Startup.new_Web3Signer := fun url => Resolves (Startup.Web3Signer url);
     Startup.address := fun _ => Sample.routerAddress;
     Startup.new_Logger := fun level name => Resolves (level, name);
     Startup.new_Messaging := fun signer _ _ => Resolves signer;
     Startup.messaging_connect := Resolves tt;
     Startup.new_TransactionService := fun signer => Resolves signer;
     Startup.subgraphContractReader := Resolves tt;
     Startup.contractWriter_make := Resolves tt;
     Startup.bindContractReader := Resolves tt;
     Startup.bindMessaging := Resolves tt;
     Startup.bindPrices := Resolves tt;
     Startup.bindFastify := Resolves tt;
     Startup.bindMetrics := Rejects "EADDRINUSE" |}.

(** A chain on which the target "0xbad" fails every call, and every other
    target echoes its call data and counts the call. *)
Definition echo : Multicall.Evm nat :=
  {| Multicall.call :=
       fun n target data =>
         if String.eqb target "0xbad" then (false, "", n) else (true, data, S n) |}.

End Scenario.

(** * Properties *)

(** ** The parser *)

Example BigNumber_from_decimal : BigNumber_from "1000000" = Some 1000000.
Proof. reflexivity. Qed.
Example BigNumber_from_hex : BigNumber_from "0x1F" = Some 31.
Proof. reflexivity. Qed.
Example BigNumber_from_negative : BigNumber_from "-42" = Some (-42).
Proof. reflexivity. Qed.
Example BigNumber_from_fraction : BigNumber_from "1.5" = None.
Proof. reflexivity. Qed.
Example BigNumber_from_empty : BigNumber_from "" = None.
Proof. reflexivity. Qed.
Example BigNumber_from_zeros : BigNumber_from "000" = Some 0.
Proof. reflexivity. Qed.
Example BigNumber_from_upper_prefix : BigNumber_from "0X1F" = Some 2079.
Proof. reflexivity. Qed.
Example BigNumber_from_upper_zero : BigNumber_from "0X0" = Some 128.
Proof. reflexivity. Qed.

(** Scenario S1: the sample request is answered with a signed bid. *)
Example S1_happy_path :
  fst (Auction.newAuction (Sample.world 1000 "999000" 1000) (Sample.payload "1000000" 100000)
         Sample.fresh)
  = Ok {| AuctionResponse.bid :=
            {| AuctionBid.user := Sample.userAddress;
               AuctionBid.router := Sample.routerAddress;
               AuctionBid.initiator := Sample.userAddress;
               AuctionBid.sendingChainId := 1337;
               AuctionBid.sendingAssetId := Sample.sendingAsset;
               AuctionBid.amount := "1000000";
               AuctionBid.receivingChainId := 1338;
               AuctionBid.receivingAssetId := Sample.receivingAsset;
               AuctionBid.amountReceived := 998000;
               AuctionBid.receivingAddress := Sample.userAddress;
               AuctionBid.transactionId := Sample.transactionId;
               AuctionBid.expiry := 100000;
               AuctionBid.callDataHash := "0x";
               AuctionBid.callTo := Cancel.AddressZero;
               AuctionBid.encryptedCallData := "0x";
               AuctionBid.sendingChainTxManagerAddress := Sample.txManager;
               AuctionBid.receivingChainTxManagerAddress := Sample.txManager;
               AuctionBid.bidExpiry := 1300 |};
          AuctionResponse.bidSignature := Some "0xsigned";
          AuctionResponse.gasFeeInReceivingToken := 1000 |}.
Proof. vm_compute. reflexivity. Qed.

(** ** Rules of [wp] *)

Section Rules.
Context {S : Type}.
Implicit Types (s : S) (R : RouterError -> S -> Prop).

Lemma wp_ret {A} (a : A) s (Q : A -> S -> Prop) R : Q a s -> wp (ret a) s Q R.
Proof. intros H. exact H. Qed.

Lemma wp_throw {A} e s (Q : A -> S -> Prop) R : R e s -> wp (throw e) s Q R.
Proof. intros H. exact H. Qed.

Lemma wp_bind {A B} (m : M S A) (k : A -> M S B) s (Q : B -> S -> Prop) R :
  wp m s (fun a s' => wp (k a) s' Q R) R -> wp (bind m k) s Q R.
Proof.
  unfold wp, bind. destruct (m s) as [[a | e] s']; intros H; exact H.
Qed.

Lemma wp_mono {A} (m : M S A) s (Q Q' : A -> S -> Prop) R R' :
  wp m s Q R ->
  (forall a s', Q a s' -> Q' a s') ->
  (forall e s', R e s' -> R' e s') ->
  wp m s Q' R'.
Proof.
  unfold wp. destruct (m s) as [[a | e] s']; intros H HQ HR; auto.
Qed.

Lemma wp_settle {A} (p : promise A) s (Q : A -> S -> Prop) R :
  (forall a, p = Resolves a -> Q a s) ->
  (forall reason, p = Rejects reason -> R (Rejected reason) s) ->
  wp (settle p) s Q R.
Proof. destruct p; intros HQ HR; cbn; auto. Qed.

Lemma wp_throw_if (c : bool) e s (Q : unit -> S -> Prop) R :
  (c = false -> Q tt s) -> (c = true -> R e s) -> wp (throw_if c e) s Q R.
Proof. destruct c; intros HQ HR; cbn; auto. Qed.

Lemma wp_defined {A} (o : option A) what s (Q : A -> S -> Prop) R :
  (forall a, o = Some a -> Q a s) ->
  (o = None -> R (Rejected what) s) ->
  wp (defined o what) s Q R.
Proof. destruct o; intros HQ HR; cbn; auto. Qed.

Lemma wp_get s (Q : S -> S -> Prop) R : Q s s -> wp get s Q R.
Proof. intros H. exact H. Qed.

Lemma wp_modify (f : S -> S) s (Q : unit -> S -> Prop) R : Q tt (f s) -> wp (modify f) s Q R.
Proof. intros H. exact H. Qed.

(** A store-preserving operation can be stepped over. *)
Lemma wp_pure {A} (m : M S A) s (Q : A -> S -> Prop) R :
  pure m -> (forall a, Q a s) -> (forall e, R e s) -> wp m s Q R.
Proof.
  intros Hm HQ HR. eapply wp_mono; [apply Hm | |]; cbn; intros; subst; auto.
Qed.

Lemma pure_ret {A} (a : A) : pure (ret (S := S) a).
Proof. intros s. reflexivity. Qed.

Lemma pure_throw {A} e : pure (throw (S := S) (A := A) e).
Proof. intros s. reflexivity. Qed.

Lemma pure_settle {A} (p : promise A) : pure (settle (S := S) p).
Proof. intros s. apply wp_settle; reflexivity. Qed.

Lemma pure_throw_if c e : pure (throw_if (S := S) c e).
Proof. intros s. apply wp_throw_if; reflexivity. Qed.

Lemma pure_defined {A} (o : option A) what : pure (defined (S := S) o what).
Proof. intros s. apply wp_defined; reflexivity. Qed.

Lemma pure_get : pure (get (S := S)).
Proof. intros s. reflexivity. Qed.

Lemma pure_bind {A B} (m : M S A) (k : A -> M S B) :
  pure m -> (forall a, pure (k a)) -> pure (bind m k).
Proof.
  intros Hm Hk s. apply wp_bind. eapply wp_mono; [apply Hm | |]; cbn.
  - intros a s' ->. apply Hk.
  - auto.
Qed.

Lemma pure_mapM {A B} (f : A -> M S B) (l : list A) :
  (forall a, pure (f a)) -> pure (mapM f l).
Proof.
  intros Hf. induction l as [| a l IH]; cbn [mapM].
  - apply pure_ret.
  - apply pure_bind; [apply Hf |]. intros b.
    apply pure_bind; [apply IH |]. intros bs. apply pure_ret.
Qed.

(** Inversion of a run through [bind]. *)
Lemma bind_Ok {A B} (m : M S A) (k : A -> M S B) s b s' :
  bind m k s = (Ok b, s') ->
  exists a s1, m s = (Ok a, s1) /\ k a s1 = (Ok b, s').
Proof.
  unfold bind. destruct (m s) as [[a | e] s1]; intros H; [eauto | discriminate].
Qed.

Lemma bind_Throw {A B} (m : M S A) (k : A -> M S B) s e s' :
  bind m k s = (Throw e, s') ->
  m s = (Throw e, s') \/ exists a s1, m s = (Ok a, s1) /\ k a s1 = (Throw e, s').
Proof.
  unfold bind. destruct (m s) as [[a | e0] s1]; intros H; [right; eauto | left; inversion H; reflexivity].
Qed.

Lemma settle_Ok {A} (p : promise A) s a s' :
  settle p s = (Ok a, s') -> p = Resolves a /\ s' = s.
Proof. destruct p; cbn; intros H; inversion H; auto. Qed.

Lemma throw_if_Ok c e s u s' :
  throw_if c e s = (Ok u, s') -> c = false /\ s' = s.
Proof. destruct c; cbn; intros H; inversion H; auto. Qed.

Lemma defined_Ok {A} (o : option A) what s a s' :
  defined o what s = (Ok a, s') -> o = Some a /\ s' = s.
Proof. destruct o; cbn; intros H; inversion H; auto. Qed.

(** What a store-preserving operation returns, it returns in the same store. *)
Lemma pure_run {A} (m : M S A) s r s' : pure m -> m s = (r, s') -> s' = s.
Proof.
  intros Hm H. specialize (Hm s). unfold wp in Hm. rewrite H in Hm.
  destruct r; exact Hm.
Qed.

End Rules.

Create HintDb pure_db.
#[export] Hint Resolve pure_ret pure_throw pure_settle pure_throw_if pure_defined
  pure_get pure_mapM : pure_db.

(** ** The blocks of [newAuction] that leave the router state alone *)

Ltac pure_step :=
  first
    [ apply pure_bind; [| intros ? ]
    | progress auto with pure_db
    | match goal with
      | |- pure (match ?x with _ => _ end) => destruct x
      | |- pure (if ?c then _ else _) => destruct c
      end ].

Lemma pure_validateAmount amount : pure (Auction.validateAmount amount).
Proof. unfold Auction.validateAmount. repeat pure_step. Qed.

Lemma pure_validateRequestLimit requestLimit currentTime key :
  pure (Auction.validateRequestLimit requestLimit currentTime key).
Proof. unfold Auction.validateRequestLimit. repeat pure_step. Qed.

Lemma pure_validateConfig cfg sendingChainId receivingChainId :
  pure (Auction.validateConfig cfg sendingChainId receivingChainId).
Proof. unfold Auction.validateConfig. repeat pure_step. Qed.

Lemma pure_requireSynced ctx chainId : pure (Auction.requireSynced ctx chainId).
Proof. unfold Auction.requireSynced. repeat pure_step. Qed.

Lemma pure_pow10 e : pure (Auction.pow10 e).
Proof. unfold Auction.pow10. repeat pure_step. Qed.

Lemma pure_routerBalanceInEther w ctx asset : pure (Auction.routerBalanceInEther w ctx asset).
Proof.
  unfold Auction.routerBalanceInEther. repeat pure_step. apply pure_pow10.
Qed.

Lemma pure_resolveSwapIdxList w data : pure (Auction.resolveSwapIdxList w data).
Proof. unfold Auction.resolveSwapIdxList. repeat pure_step. Qed.

#[export] Hint Resolve pure_validateAmount pure_validateRequestLimit pure_validateConfig
  pure_requireSynced pure_routerBalanceInEther pure_resolveSwapIdxList : pure_db.

Ltac destruct_pairs :=
  repeat match goal with p : (_ * _)%type |- _ => destruct p end.

(** Step over a store-preserving operation at the head of a [bind]. *)
Ltac over :=
  cbv zeta; apply wp_bind; apply wp_pure;
  [ solve [unfold getContext; auto with pure_db]
  | intros ?; destruct_pairs
  | intros ?; split; reflexivity ].

(** What one invocation of [newAuction] does to the router state: the
    counter gets one more cell, and the rate-limiter map is written on the
    successful return only. *)
Lemma newAuction_effects w data st :
  wp (Auction.newAuction w data) st
    (fun _ st' =>
       Auction.receivedAuction st' =
         {| AuctionLabels.sendingAssetId := AuctionPayload.sendingAssetId data;
            AuctionLabels.receivingAssetId := AuctionPayload.receivingAssetId data;
            AuctionLabels.sendingChainId := AuctionPayload.receivingChainId data;
            AuctionLabels.receivingChainId := AuctionPayload.receivingChainId data |}
         :: Auction.receivedAuction st
       /\ exists currentTime,
            Auction.getNtpTimeSeconds w = Resolves currentTime
            /\ Auction.AUCTION_REQUEST_MAP st' =
                 <[Auction.requestKey data := currentTime * 1000]> (Auction.AUCTION_REQUEST_MAP st))
    (fun _ st' =>
       Auction.receivedAuction st' =
         {| AuctionLabels.sendingAssetId := AuctionPayload.sendingAssetId data;
            AuctionLabels.receivingAssetId := AuctionPayload.receivingAssetId data;
            AuctionLabels.sendingChainId := AuctionPayload.receivingChainId data;
            AuctionLabels.receivingChainId := AuctionPayload.receivingChainId data |}
         :: Auction.receivedAuction st
       /\ Auction.AUCTION_REQUEST_MAP st' = Auction.AUCTION_REQUEST_MAP st).
Proof.
  unfold Auction.newAuction.
  apply wp_bind, wp_modify.
  do 3 over.
  (* the clock *)
  cbv zeta. apply wp_bind, wp_settle; [intros currentTime Hnow | intros; split; reflexivity].
  repeat over.
  cbv zeta. apply wp_bind, wp_modify, wp_ret. cbn.
  split; [reflexivity |]. exists currentTime. split; [exact Hnow | reflexivity].
Qed.

(** ** What the blocks of [newAuction] establish *)

Lemma wp_validateAmount amount s (Q : unit -> Auction.RouterState -> Prop) R :
  (forall a, BigNumber_from amount = Some a -> a <> 0 -> Q tt s) ->
  (BigNumber_from amount = None \/ BigNumber_from amount = Some 0 -> R ZeroValueBid s) ->
  wp (Auction.validateAmount amount) s Q R.
Proof.
  intros HQ HR. unfold Auction.validateAmount.
  destruct (BigNumber_from amount) as [a |] eqn:E.
  - apply wp_throw_if; intros Hz.
    + apply (HQ a); [reflexivity | lia].
    + apply HR. right. f_equal. lia.
  - apply wp_throw. auto.
Qed.

Lemma wp_validateRequestLimit requestLimit currentTime key s
    (Q : unit -> Auction.RouterState -> Prop) R :
  ((forall last, Auction.AUCTION_REQUEST_MAP s !! key = Some last ->
      last = 0 \/ last + requestLimit <= currentTime * 1000) -> Q tt s) ->
  (forall last, Auction.AUCTION_REQUEST_MAP s !! key = Some last ->
      last <> 0 -> currentTime * 1000 < last + requestLimit ->
      R (AuctionRateExceeded (currentTime - last)) s) ->
  wp (Auction.validateRequestLimit requestLimit currentTime key) s Q R.
Proof.
  intros HQ HR. unfold Auction.validateRequestLimit.
  apply wp_bind, wp_get.
  destruct (Auction.AUCTION_REQUEST_MAP s !! key) as [last |] eqn:E.
  - apply wp_throw_if; intros Hc.
    + apply HQ. intros last' [= <-].
      apply andb_false_iff in Hc as [Hc | Hc]; [left | right]; lia.
    + apply andb_true_iff in Hc as [Hc1 Hc2]. apply (HR last); [reflexivity | lia | lia].
  - apply wp_ret, HQ. intros last' [=].
Qed.

Lemma wp_validateConfig cfg sendingChainId receivingChainId s
    (Q : ChainConfig.t * ChainConfig.t -> Auction.RouterState -> Prop) R :
  (forall sendingConfig receivingConfig,
      NxtpRouterConfig.chainConfig cfg !! sendingChainId = Some sendingConfig ->
      NxtpRouterConfig.chainConfig cfg !! receivingChainId = Some receivingConfig ->
      ChainConfig.providers sendingConfig <> [] ->
      ChainConfig.providers receivingConfig <> [] ->
      Q (sendingConfig, receivingConfig) s) ->
  ((forall sendingConfig receivingConfig,
       NxtpRouterConfig.chainConfig cfg !! sendingChainId = Some sendingConfig ->
       NxtpRouterConfig.chainConfig cfg !! receivingChainId = Some receivingConfig ->
       ChainConfig.providers sendingConfig <> [] ->
       ChainConfig.providers receivingConfig <> [] -> False) ->
   R (ProvidersNotAvailable [sendingChainId; receivingChainId]) s) ->
  wp (Auction.validateConfig cfg sendingChainId receivingChainId) s Q R.
Proof.
  intros HQ HR. unfold Auction.validateConfig.
  destruct (NxtpRouterConfig.chainConfig cfg !! sendingChainId) as [sc |] eqn:Es.
  2:{ assert (Hno : forall a b : ChainConfig.t, @None ChainConfig.t = Some a ->
                      NxtpRouterConfig.chainConfig cfg !! receivingChainId = Some b ->
                      ChainConfig.providers a <> [] -> ChainConfig.providers b <> [] -> False)
        by (intros; discriminate).
      destruct (NxtpRouterConfig.chainConfig cfg !! receivingChainId);
        apply wp_throw, HR, Hno. }
  destruct (NxtpRouterConfig.chainConfig cfg !! receivingChainId) as [rc |] eqn:Er.
  2:{ apply wp_throw, HR. intros; discriminate. }
  apply wp_bind, wp_throw_if; intros Hc.
  - apply wp_ret. apply orb_false_iff in Hc as [Hs Hr].
    apply HQ; try reflexivity.
    + destruct (ChainConfig.providers sc); [discriminate | congruence].
    + destruct (ChainConfig.providers rc); [discriminate | congruence].
  - apply HR. intros sc' rc' [= <-] [= <-] Hs Hr.
    apply orb_true_iff in Hc as [Hc | Hc].
    + destruct (ChainConfig.providers sc); [congruence | discriminate].
    + destruct (ChainConfig.providers rc); [congruence | discriminate].
Qed.

Lemma wp_requireSynced ctx chainId s (Q : unit -> Auction.RouterState -> Prop) R :
  (forall records, Auction.contractReader_getSyncRecords ctx chainId = Resolves records ->
      existsb synced records = true -> Q tt s) ->
  (forall records, Auction.contractReader_getSyncRecords ctx chainId = Resolves records ->
      existsb synced records = false -> R (SubgraphNotSynced chainId records) s) ->
  (forall reason, Auction.contractReader_getSyncRecords ctx chainId = Rejects reason ->
      R (Rejected reason) s) ->
  wp (Auction.requireSynced ctx chainId) s Q R.
Proof.
  intros HQ HR Hrej. unfold Auction.requireSynced.
  apply wp_bind, wp_settle; [intros records E | exact Hrej].
  apply wp_throw_if; intros Hc.
  - apply (HQ records E). now apply negb_false_iff.
  - apply (HR records E). now apply negb_true_iff.
Qed.

Lemma wp_resolveSwapIdxList w data s (Q : nat * nat * nat -> Auction.RouterState -> Prop) R :
  (forall idx, Q idx s) -> R ParamsInvalid s ->
  wp (Auction.resolveSwapIdxList w data) s Q R.
Proof.
  intros HQ HR. unfold Auction.resolveSwapIdxList.
  destruct (Auction.getSwapIdxList _ _ _ _ _); [apply wp_ret, HQ | apply wp_throw, HR].
Qed.

(** The pool balances are read without touching the router state, and a
    failed read is a rejection of a collaborator. *)
Lemma wp_routerBalanceInEther w ctx asset s (Q : Z -> Auction.RouterState -> Prop) R :
  (forall b, Q b s) -> (forall reason, R (Rejected reason) s) ->
  wp (Auction.routerBalanceInEther w ctx asset) s Q R.
Proof.
  intros HQ HR. unfold Auction.routerBalanceInEther.
  apply wp_bind, wp_settle; [intros assetLiquidity _ | intros; apply HR].
  apply wp_bind, wp_settle; [intros assetDecimals _ | intros; apply HR].
  apply wp_bind, wp_defined; [intros chain _ | intros; apply HR].
  cbv zeta. apply wp_bind. unfold Auction.pow10.
  destruct (18 - assetDecimals <? 0); [apply wp_throw, HR |].
  apply wp_ret, wp_ret, HQ.
Qed.

Lemma wp_routerBalances w ctx assets s (Q : list Z -> Auction.RouterState -> Prop) R :
  (forall bs, Q bs s) -> (forall reason, R (Rejected reason) s) ->
  wp (mapM (Auction.routerBalanceInEther w ctx) assets) s Q R.
Proof.
  revert Q. induction assets as [| asset assets IH]; intros Q HQ HR; cbn [mapM].
  - apply wp_ret, HQ.
  - apply wp_bind, wp_routerBalanceInEther; [intros b | exact HR].
    apply wp_bind, IH; [intros bs | exact HR].
    apply wp_ret, HQ.
Qed.

(** One step of [newAuction]: the continuation comes first, the goals of
    the ways the step can throw follow. *)
Ltac wstep :=
  cbv zeta;
  lazymatch goal with
  | |- wp (bind (getContext _) _) _ _ _ =>
      unfold getContext; apply wp_bind, wp_defined; [intros ? ? | intros ?]
  | |- wp (bind (settle _) _) _ _ _ => apply wp_bind, wp_settle; [intros ? ? | intros ? ?]
  | |- wp (bind (throw_if _ _) _) _ _ _ => apply wp_bind, wp_throw_if; intros ?
  | |- wp (bind (defined _ _) _) _ _ _ => apply wp_bind, wp_defined; [intros ? ? | intros ?]
  | |- wp (bind (Auction.validateAmount _) _) _ _ _ =>
      apply wp_bind, wp_validateAmount; [intros ? ? ? | intros ?]
  | |- wp (bind (Auction.validateRequestLimit _ _ _) _) _ _ _ =>
      apply wp_bind, wp_validateRequestLimit; [intros ? | intros ? ? ? ?]
  | |- wp (bind (Auction.validateConfig _ _ _) _) _ _ _ =>
      apply wp_bind, wp_validateConfig; [intros ? ? ? ? ? ? | intros ?]
  | |- wp (bind (Auction.requireSynced _ _) _) _ _ _ =>
      apply wp_bind, wp_requireSynced; [intros ? ? ? | intros ? ? ? | intros ? ?]
  | |- wp (bind (Auction.resolveSwapIdxList _ _) _) _ _ _ =>
      apply wp_bind, wp_resolveSwapIdxList; [intros ?; destruct_pairs |]
  | |- wp (bind (mapM _ _) _) _ _ _ =>
      apply wp_bind, wp_routerBalances; [intros ? | intros ?]
  | |- wp (bind (modify _) _) _ _ _ => apply wp_bind, wp_modify
  | |- wp (bind (Auction.receivedAuction_inc _) _) _ _ _ => apply wp_bind, wp_modify
  | |- wp (bind (Auction.AUCTION_REQUEST_MAP_set _ _) _) _ _ _ => apply wp_bind, wp_modify
  | |- wp (ret _) _ _ _ => apply wp_ret
  end.

(** ** Why [newAuction] throws *)

Ltac close_throw :=
  cbn;
  first
    [ exact I
    | assumption
    | solve [ repeat first [ eexists | split ]; first [ eassumption | reflexivity | lia | auto ] ] ].

Lemma newAuction_Throw_inv w data st :
  wp (Auction.newAuction w data) st (fun _ _ => True)
    (fun e _ =>
       match e with
       | ZeroValueBid =>
           BigNumber_from (AuctionPayload.amount data) = None
           \/ BigNumber_from (AuctionPayload.amount data) = Some 0
       | AuctionRateExceeded elapsed =>
           exists ctx currentTime last,
             Auction.context w = Some ctx
             /\ Auction.getNtpTimeSeconds w = Resolves currentTime
             /\ Auction.AUCTION_REQUEST_MAP st !! Auction.requestKey data = Some last
             /\ last <> 0
             /\ currentTime * 1000 < last + NxtpRouterConfig.requestLimit (Auction.config ctx)
             /\ elapsed = currentTime - last
       | AuctionExpired expiry =>
           exists currentTime,
             Auction.getNtpTimeSeconds w = Resolves currentTime
             /\ expiry = AuctionPayload.expiry data
             /\ AuctionPayload.expiry data <= currentTime + Auction.AUCTION_EXPIRY_BUFFER w
       | SubgraphNotSynced chainId records =>
           exists ctx,
             Auction.context w = Some ctx
             /\ Auction.contractReader_getSyncRecords ctx chainId = Resolves records
             /\ existsb synced records = false
             /\ (chainId = AuctionPayload.receivingChainId data
                 \/ chainId = AuctionPayload.sendingChainId data)
       | ReceiverTxExists _ _ | SenderTxTooNew _ _ _ _ => False
       | _ => True
       end).
Proof.
  unfold Auction.newAuction.
  repeat (wstep; [ | close_throw .. ]).
  exact I.
Qed.

(** ** What an accepted auction has passed *)

Ltac bool_hyps :=
  repeat match goal with
    | H : negb _ = false |- _ => apply negb_false_iff in H
    | H : negb _ = true |- _ => apply negb_true_iff in H
    | H : (_ || _) = false |- _ => apply orb_false_iff in H as [? ?]
    | H : (_ <? _) = false |- _ => apply Z.ltb_ge in H
    | H : (_ <? _) = true |- _ => apply Z.ltb_lt in H
    | H : (_ <=? _) = false |- _ => apply Z.leb_gt in H
    | H : (_ <=? _) = true |- _ => apply Z.leb_le in H
    end.

Lemma newAuction_Ok_inv w data st :
  wp (Auction.newAuction w data) st
    (fun resp _ =>
       exists ctx currentTime amountBigNumber receivingRecords sendingRecords
              receiverLiquidity ammOutput amountReceivedInBigNum bidSignature,
         Auction.context w = Some ctx
         /\ Auction.validateInput w data = true
         /\ BigNumber_from (AuctionPayload.amount data) = Some amountBigNumber
         /\ amountBigNumber <> 0
         /\ Auction.getNtpTimeSeconds w = Resolves currentTime
         /\ (forall last,
               Auction.AUCTION_REQUEST_MAP st !! Auction.requestKey data = Some last ->
               last = 0
               \/ last + NxtpRouterConfig.requestLimit (Auction.config ctx) <= currentTime * 1000)
         /\ currentTime + Auction.AUCTION_EXPIRY_BUFFER w < AuctionPayload.expiry data
         /\ Auction.contractReader_getSyncRecords ctx (AuctionPayload.receivingChainId data)
            = Resolves receivingRecords
         /\ existsb synced receivingRecords = true
         /\ Auction.contractReader_getSyncRecords ctx (AuctionPayload.sendingChainId data)
            = Resolves sendingRecords
         /\ existsb synced sendingRecords = true
         /\ Auction.contractReader_getAssetBalance ctx
              (AuctionPayload.receivingAssetId data) (AuctionPayload.receivingChainId data)
            = Resolves receiverLiquidity
         /\ (exists inputDecimals outputDecimals routerBalancesInEther
                    sendingChainIdx receivingChainIdx,
               Auction.getReceiverAmount w (AuctionPayload.amount data)
                 inputDecimals outputDecimals routerBalancesInEther
                 sendingChainIdx receivingChainIdx
                 (NxtpRouterConfig.maxPriceImpact (Auction.config ctx))
                 (NxtpRouterConfig.amplification (Auction.config ctx))
                 (NxtpRouterConfig.allowedVAMM (Auction.config ctx))
               = Resolves ammOutput
               /\ Auction.calculateGasFeeInReceivingToken w
                    (AuctionPayload.sendingAssetId data) (AuctionPayload.sendingChainId data)
                    (AuctionPayload.receivingAssetId data) (AuctionPayload.receivingChainId data)
                    outputDecimals
                  = Resolves (AuctionResponse.gasFeeInReceivingToken resp))
         /\ BigNumber_from ammOutput = Some amountReceivedInBigNum
         /\ AuctionResponse.gasFeeInReceivingToken resp <= amountReceivedInBigNum
         /\ AuctionBid.amountReceived (AuctionResponse.bid resp)
            = amountReceivedInBigNum - AuctionResponse.gasFeeInReceivingToken resp
         /\ AuctionBid.amountReceived (AuctionResponse.bid resp) <= receiverLiquidity
         /\ Auction.signAuctionBid w (AuctionResponse.bid resp) = Resolves bidSignature)
    (fun _ _ => True).
Proof.
  unfold Auction.newAuction.
  repeat (wstep; [ | exact I .. ]).
  bool_hyps. cbn [AuctionResponse.bid AuctionResponse.gasFeeInReceivingToken
                  AuctionBid.amountReceived].
  do 9 eexists.
  repeat match goal with
    | |- _ /\ _ => split
    | |- exists _, _ => eexists
    end; try eassumption; try reflexivity; try lia.
Qed.

Lemma wp_run {S A} (m : M S A) s (Q : A -> S -> Prop) R r s' :
  wp m s Q R -> m s = (r, s') ->
  match r with Ok a => Q a s' | Throw e => R e s' end.
Proof. unfold wp. intros H E. rewrite E in H. destruct r; exact H. Qed.

(** ** The rate-limiter map and the metric *)

(** C9: an invocation of [newAuction] that throws leaves the rate-limiter
    map as it found it, for every key; the map is written on the successful
    return only, after the bid has been signed, at the request's key and
    with the time of the request in milliseconds. *)
Theorem newAuction_writes_request_map_on_success_only w data st r st' :
  Auction.newAuction w data st = (r, st') ->
  match r with
  | Throw _ => Auction.AUCTION_REQUEST_MAP st' = Auction.AUCTION_REQUEST_MAP st
  | Ok resp =>
      exists currentTime bidSignature,
        Auction.getNtpTimeSeconds w = Resolves currentTime
        /\ Auction.signAuctionBid w (AuctionResponse.bid resp) = Resolves bidSignature
        /\ Auction.AUCTION_REQUEST_MAP st' =
             <[Auction.requestKey data := currentTime * 1000]> (Auction.AUCTION_REQUEST_MAP st)
  end.
Proof.
  intros E.
  pose proof (wp_run _ _ _ _ _ _ (newAuction_effects w data st) E) as Heff.
  pose proof (wp_run _ _ _ _ _ _ (newAuction_Ok_inv w data st) E) as Hok.
  destruct r as [resp | e]; [| apply Heff].
  destruct Heff as (_ & currentTime & Hnow & Hmap).
  destruct Hok as (ctx & currentTime' & a & rr & sr & liq & amm & ammN & signature & Hok).
  exists currentTime, signature. repeat split; [exact Hnow | apply Hok | exact Hmap].
Qed.

(** A rate-limited replay: the map still holds the time of the first bid. *)
Lemma newAuction_writes_request_map_on_success_only_witness :
  Auction.AUCTION_REQUEST_MAP
    (snd (Auction.newAuction (Sample.world 1001 "999000" 1000)
            (Sample.payload "1000000" 100000) Sample.served_once))
  = Auction.AUCTION_REQUEST_MAP Sample.served_once.
Proof.
  apply (newAuction_writes_request_map_on_success_only
           (Sample.world 1001 "999000" 1000) (Sample.payload "1000000" 100000)
           Sample.served_once (Throw (AuctionRateExceeded (1001 - 1000000)))).
  vm_compute. reflexivity.
Defined.

(** Every invocation adds exactly one cell to the [receivedAuction]
    counter, whatever the outcome, and both chain labels of that cell hold
    the receiving chain of the request. *)
Lemma newAuction_counts_once w data st :
  Auction.receivedAuction (snd (Auction.newAuction w data st))
  = {| AuctionLabels.sendingAssetId := AuctionPayload.sendingAssetId data;
       AuctionLabels.receivingAssetId := AuctionPayload.receivingAssetId data;
       AuctionLabels.sendingChainId := AuctionPayload.receivingChainId data;
       AuctionLabels.receivingChainId := AuctionPayload.receivingChainId data |}
    :: Auction.receivedAuction st.
Proof.
  destruct (Auction.newAuction w data st) as [r st'] eqn:E.
  pose proof (wp_run _ _ _ _ _ _ (newAuction_effects w data st) E) as Heff.
  destruct r; apply Heff.
Qed.

(** C6: for the sample request from chain 1337 to chain 1338 the cell that
    [newAuction] adds to the [receivedAuction] counter carries 1338 as its
    [sendingChainId] label, while the request's [sendingChainId] is 1337. *)
Theorem newAuction_sendingChainId_label_is_receiving_chain :
  map AuctionLabels.sendingChainId
      (Auction.receivedAuction
         (snd (Auction.newAuction (Sample.world 1000 "999000" 1000)
                 (Sample.payload "1000000" 100000) Sample.fresh)))
  = [1338]
  /\ map AuctionLabels.receivingChainId
       (Auction.receivedAuction
          (snd (Auction.newAuction (Sample.world 1000 "999000" 1000)
                  (Sample.payload "1000000" 100000) Sample.fresh)))
     = [1338]
  /\ AuctionPayload.sendingChainId (Sample.payload "1000000" 100000) = 1337.
Proof.
  rewrite newAuction_counts_once. repeat split.
Qed.

(** ** The amount of a bid *)

(** C1, as the code has it: the bid of an accepted auction offers the AMM
    output less the gas fee; the AMM output is at least the gas fee, so the
    offer is not negative, and it does not exceed the router's liquidity on
    the receiving side. *)
Theorem newAuction_bid_amount_bounds w data st resp st' :
  Auction.newAuction w data st = (Ok resp, st') ->
  exists ctx receiverLiquidity ammOutput amountReceivedInBigNum,
    Auction.context w = Some ctx
    /\ Auction.contractReader_getAssetBalance ctx
         (AuctionPayload.receivingAssetId data) (AuctionPayload.receivingChainId data)
       = Resolves receiverLiquidity
    /\ (exists inputDecimals outputDecimals routerBalancesInEther
               sendingChainIdx receivingChainIdx,
          Auction.getReceiverAmount w (AuctionPayload.amount data)
            inputDecimals outputDecimals routerBalancesInEther
            sendingChainIdx receivingChainIdx
            (NxtpRouterConfig.maxPriceImpact (Auction.config ctx))
            (NxtpRouterConfig.amplification (Auction.config ctx))
            (NxtpRouterConfig.allowedVAMM (Auction.config ctx))
          = Resolves ammOutput
          /\ Auction.calculateGasFeeInReceivingToken w
               (AuctionPayload.sendingAssetId data) (AuctionPayload.sendingChainId data)
               (AuctionPayload.receivingAssetId data) (AuctionPayload.receivingChainId data)
               outputDecimals
             = Resolves (AuctionResponse.gasFeeInReceivingToken resp))
    /\ BigNumber_from ammOutput = Some amountReceivedInBigNum
    /\ AuctionResponse.gasFeeInReceivingToken resp <= amountReceivedInBigNum
    /\ AuctionBid.amountReceived (AuctionResponse.bid resp)
       = amountReceivedInBigNum - AuctionResponse.gasFeeInReceivingToken resp
    /\ 0 <= AuctionBid.amountReceived (AuctionResponse.bid resp) <= receiverLiquidity.
Proof.
  intros E.
  pose proof (wp_run _ _ _ _ _ _ (newAuction_Ok_inv w data st) E) as Hok. cbn in Hok.
  destruct Hok as (ctx & currentTime & a & rr & sr & liq & amm & ammN & signature & Hok).
  destruct Hok as (Hctx & _ & _ & _ & _ & _ & _ & _ & _ & _ & _ & Hliq & Hamm & Hparse
                   & Hfee & Hrecv & Hle & _).
  exists ctx, liq, amm, ammN. repeat split; try assumption. lia.
Qed.

Lemma newAuction_bid_amount_bounds_witness :
  exists ctx receiverLiquidity ammOutput amountReceivedInBigNum,
    Auction.context (Sample.world 1000 "999000" 1000) = Some ctx
    /\ Auction.contractReader_getAssetBalance ctx Sample.receivingAsset 1338
       = Resolves receiverLiquidity
    /\ (exists inputDecimals outputDecimals routerBalancesInEther
               sendingChainIdx receivingChainIdx,
          Auction.getReceiverAmount (Sample.world 1000 "999000" 1000) "1000000"
            inputDecimals outputDecimals routerBalancesInEther
            sendingChainIdx receivingChainIdx
            (NxtpRouterConfig.maxPriceImpact (Auction.config ctx))
            (NxtpRouterConfig.amplification (Auction.config ctx))
            (NxtpRouterConfig.allowedVAMM (Auction.config ctx))
          = Resolves ammOutput
          /\ Auction.calculateGasFeeInReceivingToken (Sample.world 1000 "999000" 1000)
               Sample.sendingAsset 1337 Sample.receivingAsset 1338 outputDecimals
             = Resolves 1000)
    /\ BigNumber_from ammOutput = Some amountReceivedInBigNum
    /\ 1000 <= amountReceivedInBigNum
    /\ 998000 = amountReceivedInBigNum - 1000
    /\ 0 <= 998000 <= receiverLiquidity.
Proof.
  destruct (Auction.newAuction (Sample.world 1000 "999000" 1000)
              (Sample.payload "1000000" 100000) Sample.fresh) as [r st'] eqn:E.
  assert (exists resp, r = Ok resp
                       /\ AuctionBid.amountReceived (AuctionResponse.bid resp) = 998000
                       /\ AuctionResponse.gasFeeInReceivingToken resp = 1000)
    as (resp & -> & Hr & Hf).
  { vm_compute in E. injection E as <- _. eexists. repeat split. }
  pose proof (newAuction_bid_amount_bounds _ _ _ _ _ E) as H.
  rewrite Hr, Hf in H. exact H.
Defined.

(** C1 fails as stated: with an AMM output of 1000 and a gas fee of 1000
    the sample request is answered with a bid that offers nothing. *)
Lemma newAuction_bids_zero_when_output_equals_fee :
  bidAmountReceived
    (fst (Auction.newAuction (Sample.world 1000 "1000" 1000)
            (Sample.payload "1000000" 100000) Sample.fresh))
  = Some 0
  /\ BigNumber_from "1000" = Some 1000.
Proof. split; vm_compute; reflexivity. Qed.

(** ** The ordered checks *)

(** Bring what a step has read in line with what is known of the world. *)
Ltac known :=
  repeat match goal with
    | H1 : ?x = Resolves _, H2 : ?x = Resolves _ |- _ => rewrite H1 in H2; simplify_eq
    | H1 : ?x = Resolves _, H2 : ?x = Rejects _ |- _ => rewrite H1 in H2; discriminate
    | H1 : ?x = Some _, H2 : ?x = Some _ |- _ => rewrite H1 in H2; simplify_eq
    | H1 : ?x = Some _, H2 : ?x = None |- _ => rewrite H1 in H2; discriminate
    end.

(** Close a branch that the known facts rule out, or the branch aimed at. *)
Ltac ruled_out :=
  known; bool_hyps;
  first
    [ reflexivity
    | congruence
    | lia
    | match goal with
      | Hr : forall last, _ !! _ = Some last -> _, H : _ !! _ = Some _ |- _ =>
          destruct (Hr _ H); lia
      | H : _ \/ _ |- _ => destruct H; congruence
      | H : forall sendingConfig receivingConfig, _ -> _ -> _ -> _ -> False |- _ =>
          exfalso; eapply H; eassumption
      end ].

Lemma fst_throws {S A} (m : M S A) s e :
  wp m s (fun _ _ => False) (fun e' _ => e' = e) -> fst (m s) = Throw e.
Proof.
  unfold wp. destruct (m s) as [[a | e'] s']; cbn; [tauto | congruence].
Qed.

(** C7: for a request that reaches the expiry check (the context exists,
    the payload passes the schema and the amount check, the clock and the
    wallet answer, and the rate limiter lets it through), [newAuction] throws
    [AuctionExpired] if and only if [expiry <= now + AUCTION_EXPIRY_BUFFER]. *)
Theorem newAuction_AuctionExpired_iff w data st ctx amountBigNumber currentTime routerAddress :
  Auction.context w = Some ctx ->
  Auction.validateInput w data = true ->
  BigNumber_from (AuctionPayload.amount data) = Some amountBigNumber ->
  amountBigNumber <> 0 ->
  Auction.getNtpTimeSeconds w = Resolves currentTime ->
  Auction.wallet_getAddress ctx = Resolves routerAddress ->
  (forall last,
      Auction.AUCTION_REQUEST_MAP st !! Auction.requestKey data = Some last ->
      last = 0
      \/ last + NxtpRouterConfig.requestLimit (Auction.config ctx) <= currentTime * 1000) ->
  (fst (Auction.newAuction w data st) = Throw (AuctionExpired (AuctionPayload.expiry data))
   <-> AuctionPayload.expiry data <= currentTime + Auction.AUCTION_EXPIRY_BUFFER w)
  /\ (currentTime + Auction.AUCTION_EXPIRY_BUFFER w < AuctionPayload.expiry data ->
      forall expiry, fst (Auction.newAuction w data st) <> Throw (AuctionExpired expiry)).
Proof.
  intros Hctx Hvalid Hparse Hnz Hnow Haddr Hrate.
  assert (Hinv : forall expiry,
             fst (Auction.newAuction w data st) = Throw (AuctionExpired expiry) ->
             AuctionPayload.expiry data <= currentTime + Auction.AUCTION_EXPIRY_BUFFER w).
  { intros expiry E.
    destruct (Auction.newAuction w data st) as [r st'] eqn:Erun. cbn in E. subst r.
    pose proof (wp_run _ _ _ _ _ _ (newAuction_Throw_inv w data st) Erun) as H.
    cbn in H. destruct H as (t & Ht & _ & Hle). known. exact Hle. }
  split; [split |].
  - apply Hinv.
  - intros Hle. apply fst_throws. unfold Auction.newAuction.
    do 8 (wstep; [ | ruled_out .. ]). exfalso. ruled_out.
  - intros Hlt expiry E. apply Hinv in E. lia.
Qed.

(** The sample request with an expiry of exactly [now + AUCTION_EXPIRY_BUFFER]
    is refused as expired. *)
Lemma newAuction_AuctionExpired_iff_witness :
  (fst (Auction.newAuction (Sample.world 1000 "999000" 1000)
          (Sample.payload "1000000" 1300) Sample.fresh)
   = Throw (AuctionExpired 1300)
   <-> 1300 <= 1000 + 300)
  /\ (1000 + 300 < 1300 ->
      forall expiry,
        fst (Auction.newAuction (Sample.world 1000 "999000" 1000)
               (Sample.payload "1000000" 1300) Sample.fresh)
        <> Throw (AuctionExpired expiry)).
Proof.
  apply (newAuction_AuctionExpired_iff
           (Sample.world 1000 "999000" 1000) (Sample.payload "1000000" 1300) Sample.fresh
           (Sample.auctionContext Sample.allSynced 10000000)
           1000000 1000 Sample.routerAddress);
    try reflexivity.
  - lia.
  - intros last H. vm_compute in H. discriminate.
Defined.

(** C8: for a request that has passed the provider-configuration check (and
    every check before it), and whose two reads of the sync records are
    answered, [newAuction] throws [SubgraphNotSynced] if and only if the
    records of the receiving chain or those of the sending chain hold no
    synced entry; the receiving chain is looked at first. *)
Theorem newAuction_SubgraphNotSynced_iff w data st ctx amountBigNumber currentTime
    routerAddress inputDecimals outputDecimals sendingConfig receivingConfig
    receivingSyncRecords sendingSyncRecords :
  Auction.context w = Some ctx ->
  Auction.validateInput w data = true ->
  BigNumber_from (AuctionPayload.amount data) = Some amountBigNumber ->
  amountBigNumber <> 0 ->
  Auction.getNtpTimeSeconds w = Resolves currentTime ->
  Auction.wallet_getAddress ctx = Resolves routerAddress ->
  (forall last,
      Auction.AUCTION_REQUEST_MAP st !! Auction.requestKey data = Some last ->
      last = 0
      \/ last + NxtpRouterConfig.requestLimit (Auction.config ctx) <= currentTime * 1000) ->
  currentTime + Auction.AUCTION_EXPIRY_BUFFER w < AuctionPayload.expiry data ->
  Auction.getDecimalsForAsset w (AuctionPayload.sendingChainId data)
    (AuctionPayload.sendingAssetId data) = Resolves inputDecimals ->
  Auction.getDecimalsForAsset w (AuctionPayload.receivingChainId data)
    (AuctionPayload.receivingAssetId data) = Resolves outputDecimals ->
  NxtpRouterConfig.chainConfig (Auction.config ctx) !! AuctionPayload.sendingChainId data
    = Some sendingConfig ->
  NxtpRouterConfig.chainConfig (Auction.config ctx) !! AuctionPayload.receivingChainId data
    = Some receivingConfig ->
  ChainConfig.providers sendingConfig <> [] ->
  ChainConfig.providers receivingConfig <> [] ->
  Auction.contractReader_getSyncRecords ctx (AuctionPayload.receivingChainId data)
    = Resolves receivingSyncRecords ->
  Auction.contractReader_getSyncRecords ctx (AuctionPayload.sendingChainId data)
    = Resolves sendingSyncRecords ->
  ((exists chainId records,
       fst (Auction.newAuction w data st) = Throw (SubgraphNotSynced chainId records))
   <-> existsb synced receivingSyncRecords = false
       \/ existsb synced sendingSyncRecords = false)
  /\ (existsb synced receivingSyncRecords = false ->
      fst (Auction.newAuction w data st)
      = Throw (SubgraphNotSynced (AuctionPayload.receivingChainId data) receivingSyncRecords))
  /\ (existsb synced receivingSyncRecords = true ->
      existsb synced sendingSyncRecords = false ->
      fst (Auction.newAuction w data st)
      = Throw (SubgraphNotSynced (AuctionPayload.sendingChainId data) sendingSyncRecords)).
Proof.
  intros Hctx Hvalid Hparse Hnz Hnow Haddr Hrate Hexp HinD HoutD Hsc Hrc Hsp Hrp Hrr Hsr.
  assert (Hrecv : existsb synced receivingSyncRecords = false ->
                  fst (Auction.newAuction w data st)
                  = Throw (SubgraphNotSynced (AuctionPayload.receivingChainId data)
                             receivingSyncRecords)).
  { intros Hno. apply fst_throws. unfold Auction.newAuction.
    do 12 (wstep; [ | ruled_out .. ]). exfalso. ruled_out. }
  assert (Hsend : existsb synced receivingSyncRecords = true ->
                  existsb synced sendingSyncRecords = false ->
                  fst (Auction.newAuction w data st)
                  = Throw (SubgraphNotSynced (AuctionPayload.sendingChainId data)
                             sendingSyncRecords)).
  { intros Hyes Hno. apply fst_throws. unfold Auction.newAuction.
    do 13 (wstep; [ | ruled_out .. ]). exfalso. ruled_out. }
  split; [split | split; assumption].
  - intros (chainId & records & E).
    destruct (Auction.newAuction w data st) as [r st'] eqn:Erun. cbn in E. subst r.
    pose proof (wp_run _ _ _ _ _ _ (newAuction_Throw_inv w data st) Erun) as H.
    cbn in H. destruct H as (ctx' & Hctx' & Hrec & Hno & [-> | ->]); known; auto.
  - intros [Hno | Hno].
    + eauto.
    + destruct (existsb synced receivingSyncRecords) eqn:Hr; eauto.
Qed.

(** Scenario S3: the indexer of the receiving chain reports [synced = false]. *)
Lemma newAuction_SubgraphNotSynced_iff_witness :
  ((exists chainId records,
       fst (Auction.newAuction
              (Sample.auctionWorld (Sample.auctionContext Sample.receivingLags 10000000)
                 1000 "999000" 1000)
              (Sample.payload "1000000" 100000) Sample.fresh)
       = Throw (SubgraphNotSynced chainId records))
   <-> existsb synced [Sample.record false] = false
       \/ existsb synced [Sample.record true] = false)
  /\ (existsb synced [Sample.record false] = false ->
      fst (Auction.newAuction
             (Sample.auctionWorld (Sample.auctionContext Sample.receivingLags 10000000)
                1000 "999000" 1000)
             (Sample.payload "1000000" 100000) Sample.fresh)
      = Throw (SubgraphNotSynced 1338 [Sample.record false]))
  /\ (existsb synced [Sample.record false] = true ->
      existsb synced [Sample.record true] = false ->
      fst (Auction.newAuction
             (Sample.auctionWorld (Sample.auctionContext Sample.receivingLags 10000000)
                1000 "999000" 1000)
             (Sample.payload "1000000" 100000) Sample.fresh)
      = Throw (SubgraphNotSynced 1337 [Sample.record true])).
Proof.
  apply (newAuction_SubgraphNotSynced_iff
           (Sample.auctionWorld (Sample.auctionContext Sample.receivingLags 10000000)
              1000 "999000" 1000)
           (Sample.payload "1000000" 100000) Sample.fresh
           (Sample.auctionContext Sample.receivingLags 10000000)
           1000000 1000 Sample.routerAddress 18 18 Sample.chain Sample.chain);
    try reflexivity.
  - lia.
  - intros last H. vm_compute in H. discriminate.
  - discriminate.
  - discriminate.
Defined.

(** ** The rate limiter *)

(** The times recorded in the rate-limiter map stay different from zero as
    long as the clock reads a time after the epoch. *)
Lemma newAuction_records_nonzero w data st :
  clock_after_epoch w ->
  (forall key t, Auction.AUCTION_REQUEST_MAP st !! key = Some t -> t <> 0) ->
  forall key t,
    Auction.AUCTION_REQUEST_MAP (snd (Auction.newAuction w data st)) !! key = Some t -> t <> 0.
Proof.
  intros Hclock Hst key t.
  destruct (Auction.newAuction w data st) as [r st'] eqn:E.
  pose proof (wp_run _ _ _ _ _ _ (newAuction_effects w data st) E) as Heff.
  cbn [snd]. destruct r as [resp | e].
  - destruct Heff as (_ & currentTime & Hnow & ->).
    rewrite lookup_insert. case_decide.
    + intros [= <-]. apply Hclock in Hnow. lia.
    + apply Hst.
  - destruct Heff as (_ & ->). apply Hst.
Qed.

Lemma serve_records_nonzero requests :
  forall st,
    Forall (fun request => clock_after_epoch (fst request)) requests ->
    (forall key t, Auction.AUCTION_REQUEST_MAP st !! key = Some t -> t <> 0) ->
    forall key t,
      Auction.AUCTION_REQUEST_MAP (snd (serve requests st)) !! key = Some t -> t <> 0.
Proof.
  induction requests as [| [w data] requests IH]; intros st Hclocks Hst; cbn [serve].
  - exact Hst.
  - inversion Hclocks as [| ? ? Hw Hrest]; subst.
    pose proof (newAuction_records_nonzero w data st Hw Hst) as Hnext.
    destruct (Auction.newAuction w data st) as [r st1].
    specialize (IH st1 Hrest Hnext).
    destruct (serve requests st1) as [rs st2]. exact IH.
Qed.

(** What the rate-limit check does with a request that reaches it. *)
Lemma newAuction_rate_limit w data st ctx amountBigNumber currentTime routerAddress last :
  Auction.context w = Some ctx ->
  Auction.validateInput w data = true ->
  BigNumber_from (AuctionPayload.amount data) = Some amountBigNumber ->
  amountBigNumber <> 0 ->
  Auction.getNtpTimeSeconds w = Resolves currentTime ->
  Auction.wallet_getAddress ctx = Resolves routerAddress ->
  Auction.AUCTION_REQUEST_MAP st !! Auction.requestKey data = Some last ->
  last <> 0 ->
  (currentTime * 1000 - last < NxtpRouterConfig.requestLimit (Auction.config ctx) ->
   fst (Auction.newAuction w data st) = Throw (AuctionRateExceeded (currentTime - last)))
  /\ (forall elapsed,
        fst (Auction.newAuction w data st) = Throw (AuctionRateExceeded elapsed) ->
        currentTime * 1000 - last < NxtpRouterConfig.requestLimit (Auction.config ctx)).
Proof.
  intros Hctx Hvalid Hparse Hnz Hnow Haddr Hlast Hlast0. split.
  - intros Hlt. apply fst_throws. unfold Auction.newAuction.
    do 6 (wstep; [ | ruled_out .. ]).
    wstep.
    + exfalso. ruled_out.
    + cbn [Auction.AUCTION_REQUEST_MAP] in *. known. reflexivity.
  - intros elapsed E.
    destruct (Auction.newAuction w data st) as [r st'] eqn:Erun. cbn in E. subst r.
    pose proof (wp_run _ _ _ _ _ _ (newAuction_Throw_inv w data st) Erun) as H.
    cbn in H. destruct H as (ctx' & t & last' & H1 & H2 & H3 & H4 & H5 & H6).
    known. lia.
Qed.

(** ** The amount check *)

(** What the amount check does with a request that reaches it: it throws
    [ZeroValueBid] exactly when [BigNumber.from] rejects the amount or reads
    it as zero. *)
Lemma newAuction_ZeroValueBid_iff w data st ctx :
  Auction.context w = Some ctx ->
  Auction.validateInput w data = true ->
  fst (Auction.newAuction w data st) = Throw ZeroValueBid
  <-> BigNumber_from (AuctionPayload.amount data) = None
      \/ BigNumber_from (AuctionPayload.amount data) = Some 0.
Proof.
  intros Hctx Hvalid. split.
  - intros E.
    destruct (Auction.newAuction w data st) as [r st'] eqn:Erun. cbn in E. subst r.
    exact (wp_run _ _ _ _ _ _ (newAuction_Throw_inv w data st) Erun).
  - intros Hbad. apply fst_throws. unfold Auction.newAuction.
    do 4 (wstep; [ | ruled_out .. ]). exfalso. ruled_out.
Qed.

(** A strictly positive amount passes the amount check. *)
Lemma validateAmount_positive amount a st :
  BigNumber_from amount = Some a -> 0 < a ->
  Auction.validateAmount amount st = (Ok tt, st).
Proof.
  intros Hparse Hpos. unfold Auction.validateAmount. rewrite Hparse.
  destruct (a =? 0) eqn:E; [lia | reflexivity].
Qed.

(** An amount that [BigNumber.from] reads as a negative integer is never
    refused with [ZeroValueBid], whatever the world of the request. *)
Lemma newAuction_negative_amount_never_ZeroValueBid w data st a :
  BigNumber_from (AuctionPayload.amount data) = Some a -> a < 0 ->
  thrown (fst (Auction.newAuction w data st)) <> Some ZeroValueBid.
Proof.
  intros Hparse Hneg E.
  destruct (Auction.newAuction w data st) as [r st'] eqn:Erun.
  destruct r as [resp | e]; [discriminate |]. cbn in E. injection E as ->.
  pose proof (wp_run _ _ _ _ _ _ (newAuction_Throw_inv w data st) Erun) as H.
  cbn in H. destruct H as [H | H]; rewrite Hparse in H; [discriminate |].
  injection H as ->. lia.
Qed.

(** ** The cancel operation *)

Lemma wp_call {A} (c : Cancel.Call) (p : promise A) log
    (Q : A -> list Cancel.Call -> Prop) R :
  (forall a, p = Resolves a -> Q a (c :: log)) ->
  (forall reason, p = Rejects reason -> R (Rejected reason) (c :: log)) ->
  wp (Cancel.call c p) log Q R.
Proof.
  intros HQ HR. unfold Cancel.call. apply wp_bind, wp_modify, wp_settle; assumption.
Qed.

(** One step of [cancel], down to the first operation of a nested [bind]. *)
Ltac cstep :=
  cbv beta zeta;
  lazymatch goal with
  | |- wp (bind _ _) _ _ _ => apply wp_bind; cstep
  | |- wp (Cancel.call _ _) _ _ _ => apply wp_call; [intros ? ? | intros ? ?]
  | |- wp (getContext _) _ _ _ => unfold getContext; apply wp_defined; [intros ? ? | intros ?]
  | |- wp (settle _) _ _ _ => apply wp_settle; [intros ? ? | intros ? ?]
  | |- wp (throw_if _ _) _ _ _ => apply wp_throw_if; intros ?
  | |- wp (defined _ _) _ _ _ => apply wp_defined; [intros ? ? | intros ?]
  | |- wp (ret _) _ _ _ => apply wp_ret
  | |- wp (throw _) _ _ _ => apply wp_throw
  | |- wp (match ?x with _ => _ end) _ _ _ => destruct x eqn:?
  end.

Lemma throws_run {S A} (m : M S A) s (R : RouterError -> S -> Prop) :
  wp m s (fun _ _ => False) R ->
  exists e, fst (m s) = Throw e /\ R e (snd (m s)).
Proof.
  unfold wp. destruct (m s) as [[a | e] s']; cbn; [tauto | eauto].
Qed.

Lemma TransactionStatus_eqb_eq a b : TransactionStatus_eqb a b = true <-> a = b.
Proof. destruct a, b; cbn; split; congruence. Qed.

Lemma receiver_guard_holds status expiry currentTime :
  status <> Cancelled -> currentTime < expiry ->
  negb (TransactionStatus_eqb status Cancelled) && (currentTime <? expiry) = true.
Proof.
  intros Hs He. apply andb_true_iff. split.
  - apply negb_true_iff. destruct status; try reflexivity. contradiction.
  - now apply Z.ltb_lt.
Qed.

Lemma receiver_guard_fails status expiry currentTime :
  status = Cancelled \/ expiry <= currentTime ->
  negb (TransactionStatus_eqb status Cancelled) && (currentTime <? expiry) = false.
Proof.
  intros [-> | He]; [reflexivity |].
  apply andb_false_iff. right. now apply Z.ltb_ge.
Qed.

Lemma sender_side_selected (side : string) : side = "sender" -> String.eqb side "sender" = true.
Proof. intros ->. reflexivity. Qed.

(** C2 (P5): a sender-side cancel is not handed to the chain writer
    (a) while a receiver-side record exists that is not [Cancelled] and whose
    expiry lies ahead: [cancel] throws [ReceiverTxExists]; nor
    (b) while the NTP time is less than the timestamp of the sender's
    prepared block plus [SENDER_PREPARE_BUFFER_TIME] = 780 s: [cancel]
    throws [SenderTxTooNew], unless the check of (a), which runs first, has
    already thrown. *)
Theorem sender_cancel_not_dispatched w invariantData input ctx :
  Cancel.context w = Some ctx ->
  Cancel.validateInvariantData w invariantData = true ->
  Cancel.validateInput w input = true ->
  CancelInput.side input = "sender" ->
  (forall existing currentTime,
      Cancel.contractReader_getTransactionForChain ctx
        (InvariantTransactionData.transactionId invariantData)
        (InvariantTransactionData.user invariantData)
        (InvariantTransactionData.receivingChainId invariantData)
      = Resolves (Some existing) ->
      Cancel.getNtpTimeSeconds w = Resolves currentTime ->
      TransactionRecord.status existing <> Cancelled ->
      currentTime < TransactionData.expiry (TransactionRecord.txData existing) ->
      fst (Cancel.cancel w invariantData input [])
      = Throw (ReceiverTxExists (InvariantTransactionData.transactionId invariantData)
                 (InvariantTransactionData.receivingChainId invariantData))
      /\ Cancel.dispatched (snd (Cancel.cancel w invariantData input [])) = false)
  /\ (forall currentTime receipt preparedBlock,
        Cancel.getNtpTimeSeconds w = Resolves currentTime ->
        Cancel.txService_getTransactionReceipt ctx
          (InvariantTransactionData.sendingChainId invariantData)
          (CancelInput.preparedTransactionHash input)
        = Resolves receipt ->
        Cancel.txService_getBlock ctx
          (InvariantTransactionData.sendingChainId invariantData)
          (TransactionReceipt.blockNumber receipt)
        = Resolves (Some preparedBlock) ->
        currentTime < Block.timestamp preparedBlock + Cancel.SENDER_PREPARE_BUFFER_TIME ->
        Cancel.dispatched (snd (Cancel.cancel w invariantData input [])) = false
        /\ (forall existing,
              Cancel.contractReader_getTransactionForChain ctx
                (InvariantTransactionData.transactionId invariantData)
                (InvariantTransactionData.user invariantData)
                (InvariantTransactionData.receivingChainId invariantData)
              = Resolves existing ->
              (forall record, existing = Some record ->
                 TransactionRecord.status record = Cancelled
                 \/ TransactionData.expiry (TransactionRecord.txData record) <= currentTime) ->
              fst (Cancel.cancel w invariantData input [])
              = Throw (SenderTxTooNew (InvariantTransactionData.transactionId invariantData)
                         (InvariantTransactionData.sendingChainId invariantData)
                         (Block.timestamp preparedBlock) currentTime)))
  /\ Cancel.SENDER_PREPARE_BUFFER_TIME = 780.
Proof.
  intros Hctx Hinv Hin Hside.
  apply sender_side_selected in Hside.
  split; [| split; [| reflexivity]].
  - intros existing currentTime Hlookup Hnow Hstatus Hexpiry.
    assert (H : wp (Cancel.cancel w invariantData input) [] (fun _ _ => False)
                  (fun e log =>
                     e = ReceiverTxExists (InvariantTransactionData.transactionId invariantData)
                           (InvariantTransactionData.receivingChainId invariantData)
                     /\ Cancel.dispatched log = false)).
    { unfold Cancel.cancel. rewrite Hside. unfold Cancel.senderSide.
      do 5 (cstep; [ | ruled_out .. ]).
      known. rewrite receiver_guard_holds by assumption.
      cstep; [discriminate | split; reflexivity]. }
    apply throws_run in H as (e & -> & -> & Hlog). split; [reflexivity | exact Hlog].
  - intros currentTime receipt preparedBlock Hnow Hreceipt Hblock Hnew.
    apply Z.ltb_lt in Hnew. split.
    + assert (H : wp (Cancel.cancel w invariantData input) [] (fun _ _ => False)
                    (fun _ log => Cancel.dispatched log = false)).
      { unfold Cancel.cancel. rewrite Hside. unfold Cancel.senderSide.
        do 3 (cstep; [ | ruled_out .. ]).
        cstep; [ | reflexivity].
        cstep; [ | ruled_out]. known.
        cstep; [cstep; [ | reflexivity] | cstep].
        all: cstep; [ | ruled_out ]; known.
        all: cstep; [ | ruled_out ]; known.
        all: rewrite Hnew; cstep; [discriminate | reflexivity]. }
      apply throws_run in H as (e & _ & Hlog). exact Hlog.
    + intros existing Hlookup Hfree.
      apply fst_throws.
      unfold Cancel.cancel. rewrite Hside. unfold Cancel.senderSide.
      destruct existing as [record |].
      * specialize (Hfree record eq_refl).
        do 5 (cstep; [ | ruled_out .. ]). known.
        rewrite receiver_guard_fails by assumption.
        cstep; [ | discriminate].
        do 2 (cstep; [ | ruled_out .. ]). known.
        rewrite Hnew. cstep; [discriminate | reflexivity].
      * do 5 (cstep; [ | ruled_out .. ]). known.
        cstep.
        do 2 (cstep; [ | ruled_out .. ]). known.
        rewrite Hnew. cstep; [discriminate | reflexivity].
Qed.

(** Scenario S5 and its companion: 600 s after the sender's prepared block
    the cancel is refused as too new, and while the receiver side is still
    prepared and unexpired it is refused because the receiver transaction
    exists; neither reaches the chain writer. *)
Lemma sender_cancel_not_dispatched_witness :
  (fst (Cancel.cancel
          (Sample.cancelWorld (Sample.cancelContext false None 1000) 1600)
          Sample.invariantData (Sample.cancelInput "sender") [])
   = Throw (SenderTxTooNew Sample.transactionId 1337 1000 1600)
   /\ Cancel.dispatched
        (snd (Cancel.cancel
                (Sample.cancelWorld (Sample.cancelContext false None 1000) 1600)
                Sample.invariantData (Sample.cancelInput "sender") []))
      = false)
  /\ (fst (Cancel.cancel
             (Sample.cancelWorld
                (Sample.cancelContext false (Some (Sample.receiverRecord Prepared 5000)) 1000)
                1600)
             Sample.invariantData (Sample.cancelInput "sender") [])
      = Throw (ReceiverTxExists Sample.transactionId 1338)
      /\ Cancel.dispatched
           (snd (Cancel.cancel
                   (Sample.cancelWorld
                      (Sample.cancelContext false (Some (Sample.receiverRecord Prepared 5000))
                         1000)
                      1600)
                   Sample.invariantData (Sample.cancelInput "sender") []))
         = false).
Proof.
  split.
  - destruct (sender_cancel_not_dispatched
                (Sample.cancelWorld (Sample.cancelContext false None 1000) 1600)
                Sample.invariantData (Sample.cancelInput "sender")
                (Sample.cancelContext false None 1000)
                eq_refl eq_refl eq_refl eq_refl) as (_ & Hb & _).
    destruct (Hb 1600 {| TransactionReceipt.transactionHash := "0xbbbb";
                         TransactionReceipt.blockNumber := 42 |}
                {| Block.timestamp := 1000 |} eq_refl eq_refl eq_refl) as (Hlog & Hthrow).
    { reflexivity. }
    split; [| exact Hlog].
    apply (Hthrow None eq_refl). intros record [=].
  - destruct (sender_cancel_not_dispatched
                (Sample.cancelWorld
                   (Sample.cancelContext false (Some (Sample.receiverRecord Prepared 5000)) 1000)
                   1600)
                Sample.invariantData (Sample.cancelInput "sender")
                (Sample.cancelContext false (Some (Sample.receiverRecord Prepared 5000)) 1000)
                eq_refl eq_refl eq_refl eq_refl) as (Ha & _).
    apply (Ha (Sample.receiverRecord Prepared 5000) 1600 eq_refl eq_refl).
    + discriminate.
    + reflexivity.
Defined.

(** Why [cancel] throws [ReceiverTxExists] or [SenderTxTooNew]: only on the
    sender side. *)
Lemma cancel_guard_errors_sender_only w invariantData input log :
  wp (Cancel.cancel w invariantData input) log (fun _ _ => True)
    (fun e _ =>
       match e with
       | ReceiverTxExists _ _ | SenderTxTooNew _ _ _ _ => CancelInput.side input = "sender"
       | _ => True
       end).
Proof.
  unfold Cancel.cancel.
  do 3 (cstep; [ | exact I .. ]).
  destruct (String.eqb (CancelInput.side input) "sender") eqn:Hside.
  - apply String.eqb_eq in Hside. unfold Cancel.senderSide.
    repeat (cstep; try exact I; try exact Hside).
  - unfold Cancel.receiverSide.
    destruct (Cancel.isRouterContract a); repeat (cstep; try exact I).
Qed.

(** What the receiver side does: it reads no receiver record, no clock, no
    receipt and no block, and hands the cancel to the chain writer as soon as
    the relayer fee, if one is due, has been quoted. *)
Lemma receiver_cancel_log w invariantData input ctx log :
  Cancel.context w = Some ctx ->
  Cancel.validateInvariantData w invariantData = true ->
  Cancel.validateInput w input = true ->
  String.eqb (CancelInput.side input) "sender" = false ->
  wp (Cancel.cancel w invariantData input) log
    (fun _ log' => existsb Cancel.is_check_call log' = existsb Cancel.is_check_call log
                   /\ Cancel.dispatched log' = true)
    (fun _ log' => existsb Cancel.is_check_call log' = existsb Cancel.is_check_call log).
Proof.
  intros Hctx Hinv Hin Hside.
  unfold Cancel.cancel. rewrite Hside. unfold Cancel.receiverSide.
  do 3 (cstep; [ | reflexivity .. ]). known.
  destruct (Cancel.isRouterContract _);
    repeat (cstep; try reflexivity; try (split; reflexivity)).
Qed.

Lemma receiver_side_selected (side : string) :
  side = "receiver" -> String.eqb side "sender" = false.
Proof. intros ->. reflexivity. Qed.

(** C10: on the receiver side [cancel] consults neither the receiver
    record, nor the clock, nor the receipt and block of the prepare; it
    cannot throw [ReceiverTxExists] or [SenderTxTooNew], which only the
    sender side throws; and the cancel goes to the chain writer for the
    receiving chain: at once when the router signs for itself, and after the
    relayer fee has been quoted when it acts through a router contract. *)
Theorem receiver_cancel_unconditional w invariantData input ctx :
  Cancel.context w = Some ctx ->
  Cancel.validateInvariantData w invariantData = true ->
  Cancel.validateInput w input = true ->
  CancelInput.side input = "receiver" ->
  existsb Cancel.is_check_call (snd (Cancel.cancel w invariantData input [])) = false
  /\ (forall transactionId chainId,
        fst (Cancel.cancel w invariantData input [])
        <> Throw (ReceiverTxExists transactionId chainId))
  /\ (forall transactionId chainId preparedTimestamp currentTime,
        fst (Cancel.cancel w invariantData input [])
        <> Throw (SenderTxTooNew transactionId chainId preparedTimestamp currentTime))
  /\ (forall receipt,
        fst (Cancel.cancel w invariantData input []) = Ok receipt ->
        Cancel.dispatched (snd (Cancel.cancel w invariantData input [])) = true)
  /\ (Cancel.isRouterContract ctx = false ->
      snd (Cancel.cancel w invariantData input [])
      = [Cancel.WriterCancel (InvariantTransactionData.receivingChainId invariantData)
           {| TransactionData.invariant := invariantData;
              TransactionData.variant :=
                {| VariantTransactionData.amount := CancelInput.amount input;
                   VariantTransactionData.expiry := CancelInput.expiry input;
                   VariantTransactionData.preparedBlockNumber :=
                     CancelInput.preparedBlockNumber input |} |}
           "0x" Cancel.AddressZero 0])
  /\ (forall chain routerRelayerFeeAsset relayerFeeAssetDecimal routerRelayerFee,
        Cancel.isRouterContract ctx = true ->
        NxtpRouterConfig.chainConfig (Cancel.config ctx)
          !! InvariantTransactionData.receivingChainId invariantData = Some chain ->
        Cancel.utils_getAddress w
          (Cancel.orAddressZero (ChainConfig.routerContractRelayerAsset chain))
        = Resolves routerRelayerFeeAsset ->
        Cancel.txService_getDecimalsForAsset ctx
          (InvariantTransactionData.receivingChainId invariantData)
          (InvariantTransactionData.receivingAssetId invariantData)
        = Resolves relayerFeeAssetDecimal ->
        Cancel.calculateGasFee w (InvariantTransactionData.receivingChainId invariantData)
          routerRelayerFeeAsset relayerFeeAssetDecimal "cancel" "receiving"
        = Resolves routerRelayerFee ->
        snd (Cancel.cancel w invariantData input [])
        = [Cancel.WriterCancel (InvariantTransactionData.receivingChainId invariantData)
             {| TransactionData.invariant := invariantData;
                TransactionData.variant :=
                  {| VariantTransactionData.amount := CancelInput.amount input;
                     VariantTransactionData.expiry := CancelInput.expiry input;
                     VariantTransactionData.preparedBlockNumber :=
                       CancelInput.preparedBlockNumber input |} |}
             "0x" routerRelayerFeeAsset routerRelayerFee;
           Cancel.CalculateGasFee (InvariantTransactionData.receivingChainId invariantData)
             routerRelayerFeeAsset relayerFeeAssetDecimal "cancel" "receiving";
           Cancel.GetDecimalsForAsset (InvariantTransactionData.receivingChainId invariantData)
             (InvariantTransactionData.receivingAssetId invariantData)])
  /\ (forall w' invariantData' input' log e,
        fst (Cancel.cancel w' invariantData' input' log) = Throw e ->
        (exists transactionId chainId, e = ReceiverTxExists transactionId chainId)
        \/ (exists transactionId chainId preparedTimestamp currentTime,
              e = SenderTxTooNew transactionId chainId preparedTimestamp currentTime) ->
        CancelInput.side input' = "sender").
Proof.
  intros Hctx Hinv Hin Hside.
  assert (Honly : forall w' invariantData' input' log e,
             fst (Cancel.cancel w' invariantData' input' log) = Throw e ->
             (exists transactionId chainId, e = ReceiverTxExists transactionId chainId)
             \/ (exists transactionId chainId preparedTimestamp currentTime,
                   e = SenderTxTooNew transactionId chainId preparedTimestamp currentTime) ->
             CancelInput.side input' = "sender").
  { intros w' invariantData' input' log e E He.
    destruct (Cancel.cancel w' invariantData' input' log) as [r log'] eqn:Erun.
    cbn in E. subst r.
    pose proof (wp_run _ _ _ _ _ _
                  (cancel_guard_errors_sender_only w' invariantData' input' log) Erun) as H.
    destruct He as [(t & c & ->) | (t & c & ts & now & ->)]; exact H. }
  pose proof (receiver_side_selected _ Hside) as Hside'.
  pose proof (receiver_cancel_log w invariantData input ctx [] Hctx Hinv Hin Hside') as Hlog.
  repeat split.
  - destruct (Cancel.cancel w invariantData input []) as [r log'] eqn:Erun.
    pose proof (wp_run _ _ _ _ _ _ Hlog Erun) as H.
    cbn [snd]. destruct r; [apply H | exact H].
  - intros t c E. apply Honly in E; [| left; eauto]. rewrite Hside in E. discriminate.
  - intros t c ts now E. apply Honly in E; [| right; eauto 6]. rewrite Hside in E. discriminate.
  - intros receipt E.
    destruct (Cancel.cancel w invariantData input []) as [r log'] eqn:Erun.
    cbn in E. subst r.
    exact (proj2 (wp_run _ _ _ _ _ _ Hlog Erun)).
  - intros Hself.
    unfold Cancel.cancel, Cancel.receiverSide, getContext.
    rewrite Hctx, Hinv, Hin, Hside'.
    cbv [bind defined ret throw_if negb throw settle Cancel.call modify].
    rewrite Hself.
    destruct (Cancel.contractWriter_cancel _ _ _ _ _); reflexivity.
  - intros chain asset decimals fee Hvia Hchain Hasset Hdecimals Hfee.
    unfold Cancel.cancel, Cancel.receiverSide, getContext.
    rewrite Hctx, Hinv, Hin, Hside'.
    cbv [bind defined ret throw_if negb throw settle Cancel.call modify].
    rewrite Hvia, Hchain, Hasset, Hdecimals, Hfee.
    destruct (Cancel.contractWriter_cancel _ _ _ _ _); reflexivity.
  - exact Honly.
Qed.

(** A receiver-side cancel of the sample transaction at a time when the
    sender side could not be cancelled: no check is made and the cancel is
    handed to the chain writer for chain 1338. *)
Lemma receiver_cancel_unconditional_witness :
  fst (Cancel.cancel
         (Sample.cancelWorld
            (Sample.cancelContext false (Some (Sample.receiverRecord Prepared 5000)) 1000) 1600)
         Sample.invariantData (Sample.cancelInput "receiver") [])
  = Ok {| TransactionReceipt.transactionHash := "0xcccc"; TransactionReceipt.blockNumber := 50 |}
  /\ existsb Cancel.is_check_call
       (snd (Cancel.cancel
               (Sample.cancelWorld
                  (Sample.cancelContext false (Some (Sample.receiverRecord Prepared 5000)) 1000)
                  1600)
               Sample.invariantData (Sample.cancelInput "receiver") []))
     = false
  /\ Cancel.dispatched
       (snd (Cancel.cancel
               (Sample.cancelWorld
                  (Sample.cancelContext false (Some (Sample.receiverRecord Prepared 5000)) 1000)
                  1600)
               Sample.invariantData (Sample.cancelInput "receiver") []))
     = true.
Proof.
  destruct (receiver_cancel_unconditional
              (Sample.cancelWorld
                 (Sample.cancelContext false (Some (Sample.receiverRecord Prepared 5000)) 1000)
                 1600)
              Sample.invariantData (Sample.cancelInput "receiver")
              (Sample.cancelContext false (Some (Sample.receiverRecord Prepared 5000)) 1000)
              eq_refl eq_refl eq_refl eq_refl) as (Hchecks & _ & _ & Hsent & _).
  split; [reflexivity |]. split; [exact Hchecks |].
  apply (Hsent {| TransactionReceipt.transactionHash := "0xcccc";
                  TransactionReceipt.blockNumber := 50 |}).
  reflexivity.
Defined.

(** ** The remaining checks of [newAuction] *)

Lemma wp_resolveSwapIdxList_cases w data s
    (Q : nat * nat * nat -> Auction.RouterState -> Prop) R :
  (forall idx,
      Auction.getSwapIdxList w (AuctionPayload.sendingChainId data)
        (AuctionPayload.sendingAssetId data) (AuctionPayload.receivingChainId data)
        (AuctionPayload.receivingAssetId data) = Some idx -> Q idx s) ->
  (Auction.getSwapIdxList w (AuctionPayload.sendingChainId data)
     (AuctionPayload.sendingAssetId data) (AuctionPayload.receivingChainId data)
     (AuctionPayload.receivingAssetId data) = None -> R ParamsInvalid s) ->
  wp (Auction.resolveSwapIdxList w data) s Q R.
Proof.
  intros HQ HR. unfold Auction.resolveSwapIdxList.
  destruct (Auction.getSwapIdxList _ _ _ _ _) eqn:E;
    [apply wp_ret, HQ | apply wp_throw, HR]; reflexivity.
Qed.

(** [wstep], keeping what the resolution of the swap-pool indices found. *)
Ltac wstep_cases :=
  cbv zeta;
  lazymatch goal with
  | |- wp (bind (Auction.resolveSwapIdxList _ _) _) _ _ _ =>
      apply wp_bind, wp_resolveSwapIdxList_cases; [intros ? ?; destruct_pairs | intros ?]
  | |- _ => wstep
  end.

Ltac close_cause :=
  unfold error_cause; cbn; bool_hyps;
  first
    [ exact I
    | solve [ auto ]
    | solve [ repeat first [ eexists | split ];
              first [ eassumption | reflexivity | lia | auto ] ]
    | match goal with
      | H : (_ || _) = true |- _ =>
          apply orb_true_iff in H as [H | H]; bool_hyps;
          repeat split; do 4 eexists; repeat split; try eassumption;
          first [ left; lia | right; lia ]
      end ].

(** The cause of each of the errors that the later checks throw. *)
Lemma newAuction_Throw_causes w data st :
  wp (Auction.newAuction w data) st (fun _ _ => True) (fun e _ => error_cause w data e).
Proof.
  unfold Auction.newAuction.
  repeat (wstep_cases; [ | close_cause .. ]).
  exact I.
Qed.

(** Everything an accepted auction has gone through, and what it returns. *)
Lemma newAuction_Ok_facts w data st :
  wp (Auction.newAuction w data) st
    (fun resp st' =>
       exists ctx currentTime routerAddress sendingConfig receivingConfig
              receivingRecords sendingRecords receiverLiquidity
              senderBalance receiverBalance bidSignature,
         Auction.context w = Some ctx
         /\ Auction.getNtpTimeSeconds w = Resolves currentTime
         /\ Auction.wallet_getAddress ctx = Resolves routerAddress
         /\ NxtpRouterConfig.chainConfig (Auction.config ctx)
              !! AuctionPayload.sendingChainId data = Some sendingConfig
         /\ NxtpRouterConfig.chainConfig (Auction.config ctx)
              !! AuctionPayload.receivingChainId data = Some receivingConfig
         /\ ChainConfig.providers sendingConfig <> []
         /\ ChainConfig.providers receivingConfig <> []
         /\ Auction.contractReader_getSyncRecords ctx (AuctionPayload.receivingChainId data)
            = Resolves receivingRecords
         /\ existsb synced receivingRecords = true
         /\ Auction.contractReader_getSyncRecords ctx (AuctionPayload.sendingChainId data)
            = Resolves sendingRecords
         /\ existsb synced sendingRecords = true
         /\ Auction.contractReader_getAssetBalance ctx
              (AuctionPayload.receivingAssetId data) (AuctionPayload.receivingChainId data)
            = Resolves receiverLiquidity
         /\ AuctionBid.amountReceived (AuctionResponse.bid resp) <= receiverLiquidity
         /\ Auction.txService_getBalance ctx (AuctionPayload.sendingChainId data) routerAddress
            = Resolves senderBalance
         /\ Auction.txService_getBalance ctx (AuctionPayload.receivingChainId data) routerAddress
            = Resolves receiverBalance
         /\ ChainConfig.minGas sendingConfig <= senderBalance
         /\ ChainConfig.minGas receivingConfig <= receiverBalance
         /\ Auction.signAuctionBid w (AuctionResponse.bid resp) = Resolves bidSignature
         /\ AuctionResponse.bid resp
            = {| AuctionBid.user := AuctionPayload.user data;
                 AuctionBid.router := routerAddress;
                 AuctionBid.initiator := AuctionPayload.initiator data;
                 AuctionBid.sendingChainId := AuctionPayload.sendingChainId data;
                 AuctionBid.sendingAssetId := AuctionPayload.sendingAssetId data;
                 AuctionBid.amount := AuctionPayload.amount data;
                 AuctionBid.receivingChainId := AuctionPayload.receivingChainId data;
                 AuctionBid.receivingAssetId := AuctionPayload.receivingAssetId data;
                 AuctionBid.amountReceived := AuctionBid.amountReceived (AuctionResponse.bid resp);
                 AuctionBid.receivingAddress := AuctionPayload.receivingAddress data;
                 AuctionBid.transactionId := AuctionPayload.transactionId data;
                 AuctionBid.expiry := AuctionPayload.expiry data;
                 AuctionBid.callDataHash := AuctionPayload.callDataHash data;
                 AuctionBid.callTo := AuctionPayload.callTo data;
                 AuctionBid.encryptedCallData := AuctionPayload.encryptedCallData data;
                 AuctionBid.sendingChainTxManagerAddress :=
                   ChainConfig.transactionManagerAddress sendingConfig;
                 AuctionBid.receivingChainTxManagerAddress :=
                   ChainConfig.transactionManagerAddress receivingConfig;
                 AuctionBid.bidExpiry := Auction.getBidExpiry w currentTime |}
         /\ AuctionResponse.bidSignature resp
            = (if AuctionPayload.dryRun data then None else Some bidSignature)
         /\ Auction.AUCTION_REQUEST_MAP st'
            = <[Auction.requestKey data := currentTime * 1000]> (Auction.AUCTION_REQUEST_MAP st))
    (fun _ _ => True).
Proof.
  unfold Auction.newAuction.
  repeat (wstep; [ | exact I .. ]).
  bool_hyps.
  cbn [AuctionResponse.bid AuctionResponse.bidSignature AuctionBid.amountReceived
       Auction.AUCTION_REQUEST_MAP].
  do 11 eexists.
  repeat match goal with |- _ /\ _ => split end; try eassumption; try reflexivity; try lia.
Qed.

Lemma wp_known {S A} (m : M S A) s a (Q : A -> S -> Prop) R :
  pure m -> (forall s0, fst (m s0) = Ok a) -> Q a s -> wp m s Q R.
Proof.
  intros Hm Ha HQ. specialize (Hm s). specialize (Ha s). unfold wp in *.
  destruct (m s) as [[a' | e] s']; cbn in Ha; [| discriminate].
  injection Ha as ->. subst s'. exact HQ.
Qed.

Lemma returns_run {S A} (m : M S A) s a (P : S -> Prop) :
  wp m s (fun a' s' => a' = a /\ P s') (fun _ _ => False) ->
  fst (m s) = Ok a /\ P (snd (m s)).
Proof.
  unfold wp. destruct (m s) as [[a' | e] s']; cbn; [intros [-> H]; auto | tauto].
Qed.

(** Sufficient conditions for a bid: when the context exists, the payload
    passes every check of [newAuction] and every collaborator answers, the
    auction is answered with the bid built from the payload, signed unless
    the request is a dry run, and the time of the request is recorded. *)
Theorem newAuction_accepts w data st ctx amountBigNumber currentTime routerAddress
    inputDecimals outputDecimals sendingConfig receivingConfig
    receivingSyncRecords sendingSyncRecords sendingChainIdx receivingChainIdx swapPoolIdx
    swapPool routerBalancesInEther senderLiquidity receiverLiquidity
    ammOutput amountReceivedInBigNum gasFeeInReceivingToken
    senderBalance receiverBalance bidSignature :
  Auction.context w = Some ctx ->
  Auction.validateInput w data = true ->
  BigNumber_from (AuctionPayload.amount data) = Some amountBigNumber ->
  amountBigNumber <> 0 ->
  Auction.getNtpTimeSeconds w = Resolves currentTime ->
  Auction.wallet_getAddress ctx = Resolves routerAddress ->
  (forall last,
      Auction.AUCTION_REQUEST_MAP st !! Auction.requestKey data = Some last ->
      last = 0
      \/ last + NxtpRouterConfig.requestLimit (Auction.config ctx) <= currentTime * 1000) ->
  currentTime + Auction.AUCTION_EXPIRY_BUFFER w < AuctionPayload.expiry data ->
  Auction.getDecimalsForAsset w (AuctionPayload.sendingChainId data)
    (AuctionPayload.sendingAssetId data) = Resolves inputDecimals ->
  Auction.getDecimalsForAsset w (AuctionPayload.receivingChainId data)
    (AuctionPayload.receivingAssetId data) = Resolves outputDecimals ->
  NxtpRouterConfig.chainConfig (Auction.config ctx) !! AuctionPayload.sendingChainId data
    = Some sendingConfig ->
  NxtpRouterConfig.chainConfig (Auction.config ctx) !! AuctionPayload.receivingChainId data
    = Some receivingConfig ->
  ChainConfig.providers sendingConfig <> [] ->
  ChainConfig.providers receivingConfig <> [] ->
  Auction.contractReader_getSyncRecords ctx (AuctionPayload.receivingChainId data)
    = Resolves receivingSyncRecords ->
  existsb synced receivingSyncRecords = true ->
  Auction.contractReader_getSyncRecords ctx (AuctionPayload.sendingChainId data)
    = Resolves sendingSyncRecords ->
  existsb synced sendingSyncRecords = true ->
  Auction.getSwapIdxList w (AuctionPayload.sendingChainId data)
    (AuctionPayload.sendingAssetId data) (AuctionPayload.receivingChainId data)
    (AuctionPayload.receivingAssetId data)
    = Some (sendingChainIdx, receivingChainIdx, swapPoolIdx) ->
  NxtpRouterConfig.swapPools (Auction.config ctx) !! swapPoolIdx = Some swapPool ->
  (forall st0,
      fst (mapM (Auction.routerBalanceInEther w ctx) (SwapPool.assets swapPool) st0)
      = Ok routerBalancesInEther) ->
  Auction.contractReader_getAssetBalance ctx
    (AuctionPayload.sendingAssetId data) (AuctionPayload.sendingChainId data)
    = Resolves senderLiquidity ->
  Auction.contractReader_getAssetBalance ctx
    (AuctionPayload.receivingAssetId data) (AuctionPayload.receivingChainId data)
    = Resolves receiverLiquidity ->
  Auction.getReceiverAmount w (AuctionPayload.amount data) inputDecimals outputDecimals
    routerBalancesInEther sendingChainIdx receivingChainIdx
    (NxtpRouterConfig.maxPriceImpact (Auction.config ctx))
    (NxtpRouterConfig.amplification (Auction.config ctx))
    (NxtpRouterConfig.allowedVAMM (Auction.config ctx))
    = Resolves ammOutput ->
  BigNumber_from ammOutput = Some amountReceivedInBigNum ->
  Auction.calculateGasFeeInReceivingToken w
    (AuctionPayload.sendingAssetId data) (AuctionPayload.sendingChainId data)
    (AuctionPayload.receivingAssetId data) (AuctionPayload.receivingChainId data)
    outputDecimals
    = Resolves gasFeeInReceivingToken ->
  gasFeeInReceivingToken <= amountReceivedInBigNum ->
  amountReceivedInBigNum - gasFeeInReceivingToken <= receiverLiquidity ->
  Auction.txService_getBalance ctx (AuctionPayload.sendingChainId data) routerAddress
    = Resolves senderBalance ->
  Auction.txService_getBalance ctx (AuctionPayload.receivingChainId data) routerAddress
    = Resolves receiverBalance ->
  ChainConfig.minGas sendingConfig <= senderBalance ->
  ChainConfig.minGas receivingConfig <= receiverBalance ->
  Auction.signAuctionBid w
    {| AuctionBid.user := AuctionPayload.user data;
       AuctionBid.router := routerAddress;
       AuctionBid.initiator := AuctionPayload.initiator data;
       AuctionBid.sendingChainId := AuctionPayload.sendingChainId data;
       AuctionBid.sendingAssetId := AuctionPayload.sendingAssetId data;
       AuctionBid.amount := AuctionPayload.amount data;
       AuctionBid.receivingChainId := AuctionPayload.receivingChainId data;
       AuctionBid.receivingAssetId := AuctionPayload.receivingAssetId data;
       AuctionBid.amountReceived := amountReceivedInBigNum - gasFeeInReceivingToken;
       AuctionBid.receivingAddress := AuctionPayload.receivingAddress data;
       AuctionBid.transactionId := AuctionPayload.transactionId data;
       AuctionBid.expiry := AuctionPayload.expiry data;
       AuctionBid.callDataHash := AuctionPayload.callDataHash data;
       AuctionBid.callTo := AuctionPayload.callTo data;
       AuctionBid.encryptedCallData := AuctionPayload.encryptedCallData data;
       AuctionBid.sendingChainTxManagerAddress :=
         ChainConfig.transactionManagerAddress sendingConfig;
       AuctionBid.receivingChainTxManagerAddress :=
         ChainConfig.transactionManagerAddress receivingConfig;
       AuctionBid.bidExpiry := Auction.getBidExpiry w currentTime |}
    = Resolves bidSignature ->
  fst (Auction.newAuction w data st)
  = Ok {| AuctionResponse.bid :=
            {| AuctionBid.user := AuctionPayload.user data;
               AuctionBid.router := routerAddress;
               AuctionBid.initiator := AuctionPayload.initiator data;
               AuctionBid.sendingChainId := AuctionPayload.sendingChainId data;
               AuctionBid.sendingAssetId := AuctionPayload.sendingAssetId data;
               AuctionBid.amount := AuctionPayload.amount data;
               AuctionBid.receivingChainId := AuctionPayload.receivingChainId data;
               AuctionBid.receivingAssetId := AuctionPayload.receivingAssetId data;
               AuctionBid.amountReceived := amountReceivedInBigNum - gasFeeInReceivingToken;
               AuctionBid.receivingAddress := AuctionPayload.receivingAddress data;
               AuctionBid.transactionId := AuctionPayload.transactionId data;
               AuctionBid.expiry := AuctionPayload.expiry data;
               AuctionBid.callDataHash := AuctionPayload.callDataHash data;
               AuctionBid.callTo := AuctionPayload.callTo data;
               AuctionBid.encryptedCallData := AuctionPayload.encryptedCallData data;
               AuctionBid.sendingChainTxManagerAddress :=
                 ChainConfig.transactionManagerAddress sendingConfig;
               AuctionBid.receivingChainTxManagerAddress :=
                 ChainConfig.transactionManagerAddress receivingConfig;
               AuctionBid.bidExpiry := Auction.getBidExpiry w currentTime |};
          AuctionResponse.bidSignature :=
            if AuctionPayload.dryRun data then None else Some bidSignature;
          AuctionResponse.gasFeeInReceivingToken := gasFeeInReceivingToken |}
  /\ Auction.AUCTION_REQUEST_MAP (snd (Auction.newAuction w data st))
     = <[Auction.requestKey data := currentTime * 1000]> (Auction.AUCTION_REQUEST_MAP st).
Proof.
  intros Hctx Hvalid Hparse Hnz Hnow Haddr Hrate Hexp HinD HoutD Hsc Hrc Hsp Hrp
         Hrr Hrsync Hsr Hssync Hidx Hpool Hbal HsLiq HrLiq Hamm Hparse' Hfee Hge Hle
         HsBal HrBal HsGas HrGas Hsign.
  apply (returns_run (Auction.newAuction w data) st _
           (fun st' => Auction.AUCTION_REQUEST_MAP st'
                       = <[Auction.requestKey data := currentTime * 1000]>
                           (Auction.AUCTION_REQUEST_MAP st))).
  unfold Auction.newAuction.
  do 13 (wstep; [ | ruled_out .. ]).
  unfold Auction.resolveSwapIdxList. rewrite Hidx. cbv zeta.
  apply wp_bind, wp_ret.
  wstep; [ | ruled_out ]. known.
  cbv zeta. apply wp_bind.
  apply (wp_known _ _ routerBalancesInEther);
    [auto with pure_db | exact Hbal |].
  do 5 (wstep; [ | ruled_out .. ]). known.
  do 4 (wstep; [ | ruled_out .. ]). known.
  wstep; [ | ruled_out ].
  wstep; [ | ruled_out ]. known.
  wstep. wstep. split; reflexivity.
Qed.

(** Discharge a condition on a concrete world by evaluation. *)
Ltac by_computation :=
  lazymatch goal with
  | |- forall _, @eq ?T ?m (Some _) -> _ =>
      let H := fresh in
      let E := fresh in
      intros ? H;
      assert (E : m = None) by exact (@eq_refl T None <: m = None);
      rewrite E in H; discriminate H
  | |- forall _, _ => intros; by_computation
  | |- @eq ?T ?l ?r => exact (@eq_refl T r <: l = r)
  | |- _ => vm_compute; first [ reflexivity | discriminate ]
  end.

(** The sample request meets the conditions and is answered with a bid of
    999000 - 1000. *)
Lemma newAuction_accepts_witness :
  bidAmountReceived
    (fst (Auction.newAuction (Sample.world 1000 "999000" 1000)
            (Sample.payload "1000000" 100000) Sample.fresh))
  = Some (999000 - 1000)
  /\ Auction.AUCTION_REQUEST_MAP
       (snd (Auction.newAuction (Sample.world 1000 "999000" 1000)
               (Sample.payload "1000000" 100000) Sample.fresh))
     !! Auction.requestKey (Sample.payload "1000000" 100000)
     = Some (1000 * 1000).
Proof.
  destruct (newAuction_accepts
              (Sample.world 1000 "999000" 1000) (Sample.payload "1000000" 100000)
              Sample.fresh (Sample.auctionContext Sample.allSynced 10000000)
              1000000 1000 Sample.routerAddress 18 18 Sample.chain Sample.chain
              [Sample.record false; Sample.record true]
              [Sample.record false; Sample.record true]
              0%nat 1%nat 0%nat
              {| SwapPool.name := "TEST";
                 SwapPool.assets :=
                   [ {| PoolAsset.assetId := Sample.sendingAsset; PoolAsset.chainId := 1337 |};
                     {| PoolAsset.assetId := Sample.receivingAsset;
                        PoolAsset.chainId := 1338 |} ] |}
              [10000000; 10000000] 10000000 10000000 "999000" 999000 1000
              (10 ^ 18) (10 ^ 18) "0xsigned") as [Hbid Hmap];
    [ by_computation .. | ].
  rewrite Hbid, Hmap. split; [reflexivity | apply lookup_insert_eq].
Defined.

(** A bid is only produced for a request whose expiry lies beyond the
    buffer, between two chains that are both configured with a provider and
    both reported as synced, by a router whose native balance on either
    chain is at least that chain's [minGas]. *)
Theorem newAuction_bid_only_when w data st resp st' :
  Auction.newAuction w data st = (Ok resp, st') ->
  exists ctx currentTime routerAddress sendingConfig receivingConfig
         receivingRecords sendingRecords senderBalance receiverBalance,
    Auction.context w = Some ctx
    /\ Auction.getNtpTimeSeconds w = Resolves currentTime
    /\ currentTime + Auction.AUCTION_EXPIRY_BUFFER w < AuctionPayload.expiry data
    /\ NxtpRouterConfig.chainConfig (Auction.config ctx)
         !! AuctionPayload.sendingChainId data = Some sendingConfig
    /\ NxtpRouterConfig.chainConfig (Auction.config ctx)
         !! AuctionPayload.receivingChainId data = Some receivingConfig
    /\ ChainConfig.providers sendingConfig <> []
    /\ ChainConfig.providers receivingConfig <> []
    /\ Auction.contractReader_getSyncRecords ctx (AuctionPayload.receivingChainId data)
       = Resolves receivingRecords
    /\ (exists record, In record receivingRecords /\ synced record = true)
    /\ Auction.contractReader_getSyncRecords ctx (AuctionPayload.sendingChainId data)
       = Resolves sendingRecords
    /\ (exists record, In record sendingRecords /\ synced record = true)
    /\ Auction.wallet_getAddress ctx = Resolves routerAddress
    /\ Auction.txService_getBalance ctx (AuctionPayload.sendingChainId data) routerAddress
       = Resolves senderBalance
    /\ Auction.txService_getBalance ctx (AuctionPayload.receivingChainId data) routerAddress
       = Resolves receiverBalance
    /\ ChainConfig.minGas sendingConfig <= senderBalance
    /\ ChainConfig.minGas receivingConfig <= receiverBalance.
Proof.
  intros E.
  pose proof (wp_run _ _ _ _ _ _ (newAuction_Ok_facts w data st) E) as H.
  pose proof (wp_run _ _ _ _ _ _ (newAuction_Ok_inv w data st) E) as H'.
  cbn in H, H'.
  destruct H as (ctx & now & addr & sc & rc & rr & sr & liq & sb & rb & sig & H).
  destruct H as (Hctx & Hnow & Haddr & Hsc & Hrc & Hsp & Hrp & Hrr & Hrs & Hsr & Hss
                 & _ & _ & Hsb & Hrb & Hsg & Hrg & _).
  destruct H' as (ctx' & now' & a & rr' & sr' & liq' & amm & ammN & sig' & H').
  destruct H' as (_ & _ & _ & _ & Hnow' & _ & Hexp & _).
  assert (now' = now) by congruence. subst now'.
  apply existsb_exists in Hrs, Hss.
  exists ctx, now, addr, sc, rc, rr, sr, sb, rb.
  repeat match goal with |- _ /\ _ => split end; assumption.
Qed.

Lemma newAuction_bid_only_when_witness :
  exists ctx currentTime routerAddress sendingConfig receivingConfig
         receivingRecords sendingRecords senderBalance receiverBalance,
    Auction.context (Sample.world 1000 "999000" 1000) = Some ctx
    /\ Auction.getNtpTimeSeconds (Sample.world 1000 "999000" 1000) = Resolves currentTime
    /\ currentTime + Auction.AUCTION_EXPIRY_BUFFER (Sample.world 1000 "999000" 1000)
       < AuctionPayload.expiry (Sample.payload "1000000" 100000)
    /\ NxtpRouterConfig.chainConfig (Auction.config ctx)
         !! AuctionPayload.sendingChainId (Sample.payload "1000000" 100000)
       = Some sendingConfig
    /\ NxtpRouterConfig.chainConfig (Auction.config ctx)
         !! AuctionPayload.receivingChainId (Sample.payload "1000000" 100000)
       = Some receivingConfig
    /\ ChainConfig.providers sendingConfig <> []
    /\ ChainConfig.providers receivingConfig <> []
    /\ Auction.contractReader_getSyncRecords ctx
         (AuctionPayload.receivingChainId (Sample.payload "1000000" 100000))
       = Resolves receivingRecords
    /\ (exists record, In record receivingRecords /\ synced record = true)
    /\ Auction.contractReader_getSyncRecords ctx
         (AuctionPayload.sendingChainId (Sample.payload "1000000" 100000))
       = Resolves sendingRecords
    /\ (exists record, In record sendingRecords /\ synced record = true)
    /\ Auction.wallet_getAddress ctx = Resolves routerAddress
    /\ Auction.txService_getBalance ctx
         (AuctionPayload.sendingChainId (Sample.payload "1000000" 100000)) routerAddress
       = Resolves senderBalance
    /\ Auction.txService_getBalance ctx
         (AuctionPayload.receivingChainId (Sample.payload "1000000" 100000)) routerAddress
       = Resolves receiverBalance
    /\ ChainConfig.minGas sendingConfig <= senderBalance
    /\ ChainConfig.minGas receivingConfig <= receiverBalance.
Proof.
  apply (newAuction_bid_only_when (Sample.world 1000 "999000" 1000)
           (Sample.payload "1000000" 100000) Sample.fresh
           (Scenario.answer (Some "0xsigned")) Sample.served_once).
  by_computation.
Defined.

(** The response to an accepted auction: the bid repeats the payload, names
    the wallet's address as the router and the transaction managers of the
    two chain configurations, and expires at [getBidExpiry(currentTime)];
    the signature is the one [signAuctionBid] gave for this bid, withheld
    when the request is a dry run. *)
Theorem newAuction_response_content w data st resp st' :
  Auction.newAuction w data st = (Ok resp, st') ->
  exists ctx currentTime routerAddress sendingConfig receivingConfig bidSignature,
    Auction.context w = Some ctx
    /\ Auction.getNtpTimeSeconds w = Resolves currentTime
    /\ Auction.wallet_getAddress ctx = Resolves routerAddress
    /\ NxtpRouterConfig.chainConfig (Auction.config ctx)
         !! AuctionPayload.sendingChainId data = Some sendingConfig
    /\ NxtpRouterConfig.chainConfig (Auction.config ctx)
         !! AuctionPayload.receivingChainId data = Some receivingConfig
    /\ Auction.signAuctionBid w (AuctionResponse.bid resp) = Resolves bidSignature
    /\ AuctionResponse.bidSignature resp
       = (if AuctionPayload.dryRun data then None else Some bidSignature)
    /\ AuctionBid.user (AuctionResponse.bid resp) = AuctionPayload.user data
    /\ AuctionBid.router (AuctionResponse.bid resp) = routerAddress
    /\ AuctionBid.initiator (AuctionResponse.bid resp) = AuctionPayload.initiator data
    /\ AuctionBid.sendingChainId (AuctionResponse.bid resp) = AuctionPayload.sendingChainId data
    /\ AuctionBid.sendingAssetId (AuctionResponse.bid resp) = AuctionPayload.sendingAssetId data
    /\ AuctionBid.amount (AuctionResponse.bid resp) = AuctionPayload.amount data
    /\ AuctionBid.receivingChainId (AuctionResponse.bid resp)
       = AuctionPayload.receivingChainId data
    /\ AuctionBid.receivingAssetId (AuctionResponse.bid resp)
       = AuctionPayload.receivingAssetId data
    /\ AuctionBid.receivingAddress (AuctionResponse.bid resp)
       = AuctionPayload.receivingAddress data
    /\ AuctionBid.transactionId (AuctionResponse.bid resp) = AuctionPayload.transactionId data
    /\ AuctionBid.expiry (AuctionResponse.bid resp) = AuctionPayload.expiry data
    /\ AuctionBid.callDataHash (AuctionResponse.bid resp) = AuctionPayload.callDataHash data
    /\ AuctionBid.callTo (AuctionResponse.bid resp) = AuctionPayload.callTo data
    /\ AuctionBid.encryptedCallData (AuctionResponse.bid resp)
       = AuctionPayload.encryptedCallData data
    /\ AuctionBid.sendingChainTxManagerAddress (AuctionResponse.bid resp)
       = ChainConfig.transactionManagerAddress sendingConfig
    /\ AuctionBid.receivingChainTxManagerAddress (AuctionResponse.bid resp)
       = ChainConfig.transactionManagerAddress receivingConfig
    /\ AuctionBid.bidExpiry (AuctionResponse.bid resp) = Auction.getBidExpiry w currentTime.
Proof.
  intros E.
  pose proof (wp_run _ _ _ _ _ _ (newAuction_Ok_facts w data st) E) as H. cbn in H.
  destruct H as (ctx & now & addr & sc & rc & rr & sr & liq & sb & rb & sig & H).
  destruct H as (Hctx & Hnow & Haddr & Hsc & Hrc & _ & _ & _ & _ & _ & _ & _ & _ & _ & _
                 & _ & _ & Hsign & Hbid & Hsig & _).
  exists ctx, now, addr, sc, rc, sig.
  repeat match goal with |- _ /\ _ => split end; try assumption;
    rewrite Hbid; reflexivity.
Qed.

(** The dry run of the sample request: the bid is built and signed, and the
    signature is left out of the response. *)
Lemma newAuction_response_content_witness :
  exists ctx currentTime routerAddress sendingConfig receivingConfig bidSignature,
    Auction.context (Sample.world 1000 "999000" 1000) = Some ctx
    /\ Auction.getNtpTimeSeconds (Sample.world 1000 "999000" 1000) = Resolves currentTime
    /\ Auction.wallet_getAddress ctx = Resolves routerAddress
    /\ NxtpRouterConfig.chainConfig (Auction.config ctx)
         !! AuctionPayload.sendingChainId Scenario.dryRunPayload = Some sendingConfig
    /\ NxtpRouterConfig.chainConfig (Auction.config ctx)
         !! AuctionPayload.receivingChainId Scenario.dryRunPayload = Some receivingConfig
    /\ Auction.signAuctionBid (Sample.world 1000 "999000" 1000)
         (AuctionResponse.bid (Scenario.answer None)) = Resolves bidSignature
    /\ AuctionResponse.bidSignature (Scenario.answer None)
       = (if AuctionPayload.dryRun Scenario.dryRunPayload then None else Some bidSignature)
    /\ AuctionBid.user (AuctionResponse.bid (Scenario.answer None))
       = AuctionPayload.user Scenario.dryRunPayload
    /\ AuctionBid.router (AuctionResponse.bid (Scenario.answer None)) = routerAddress
    /\ AuctionBid.initiator (AuctionResponse.bid (Scenario.answer None))
       = AuctionPayload.initiator Scenario.dryRunPayload
    /\ AuctionBid.sendingChainId (AuctionResponse.bid (Scenario.answer None))
       = AuctionPayload.sendingChainId Scenario.dryRunPayload
    /\ AuctionBid.sendingAssetId (AuctionResponse.bid (Scenario.answer None))
       = AuctionPayload.sendingAssetId Scenario.dryRunPayload
    /\ AuctionBid.amount (AuctionResponse.bid (Scenario.answer None))
       = AuctionPayload.amount Scenario.dryRunPayload
    /\ AuctionBid.receivingChainId (AuctionResponse.bid (Scenario.answer None))
       = AuctionPayload.receivingChainId Scenario.dryRunPayload
    /\ AuctionBid.receivingAssetId (AuctionResponse.bid (Scenario.answer None))
       = AuctionPayload.receivingAssetId Scenario.dryRunPayload
    /\ AuctionBid.receivingAddress (AuctionResponse.bid (Scenario.answer None))
       = AuctionPayload.receivingAddress Scenario.dryRunPayload
    /\ AuctionBid.transactionId (AuctionResponse.bid (Scenario.answer None))
       = AuctionPayload.transactionId Scenario.dryRunPayload
    /\ AuctionBid.expiry (AuctionResponse.bid (Scenario.answer None))
       = AuctionPayload.expiry Scenario.dryRunPayload
    /\ AuctionBid.callDataHash (AuctionResponse.bid (Scenario.answer None))
       = AuctionPayload.callDataHash Scenario.dryRunPayload
    /\ AuctionBid.callTo (AuctionResponse.bid (Scenario.answer None))
       = AuctionPayload.callTo Scenario.dryRunPayload
    /\ AuctionBid.encryptedCallData (AuctionResponse.bid (Scenario.answer None))
       = AuctionPayload.encryptedCallData Scenario.dryRunPayload
    /\ AuctionBid.sendingChainTxManagerAddress (AuctionResponse.bid (Scenario.answer None))
       = ChainConfig.transactionManagerAddress sendingConfig
    /\ AuctionBid.receivingChainTxManagerAddress (AuctionResponse.bid (Scenario.answer None))
       = ChainConfig.transactionManagerAddress receivingConfig
    /\ AuctionBid.bidExpiry (AuctionResponse.bid (Scenario.answer None))
       = Auction.getBidExpiry (Sample.world 1000 "999000" 1000) currentTime.
Proof.
  apply (newAuction_response_content (Sample.world 1000 "999000" 1000)
           Scenario.dryRunPayload Sample.fresh (Scenario.answer None) Sample.served_once).
  by_computation.
Defined.

(** Every error of the later checks reports a real condition of the world:
    [ProvidersNotAvailable] a chain without configuration or providers,
    [NotEnoughAmount] an AMM output below the gas fee, [NotEnoughLiquidity]
    a receiver-side liquidity below the amount to be received,
    [NotEnoughGas] a native balance below [minGas], and [ParamsInvalid] a
    payload that fails the schema or has no swap pool. *)
Theorem newAuction_errors_are_justified w data st e st' :
  Auction.newAuction w data st = (Throw e, st') -> error_cause w data e.
Proof.
  intros E. exact (wp_run _ _ _ _ _ _ (newAuction_Throw_causes w data st) E).
Qed.

(** Scenario S4: the refusal for lack of liquidity reports a balance of
    500000 against an amount to be received of 900000. *)
Lemma newAuction_errors_are_justified_witness :
  error_cause Scenario.shortOfLiquidity (Sample.payload "1000000" 100000)
    (NotEnoughLiquidity 1338).
Proof.
  apply (newAuction_errors_are_justified Scenario.shortOfLiquidity
           (Sample.payload "1000000" 100000) Sample.fresh (NotEnoughLiquidity 1338)
           (snd (Auction.newAuction Scenario.shortOfLiquidity
                   (Sample.payload "1000000" 100000) Sample.fresh))).
  by_computation.
Defined.

(** Before anything is read from the world: without a context [newAuction]
    fails with "Context not created", and a payload that fails the schema is
    refused with [ParamsInvalid] whatever its amount, its expiry and the
    state of the rate limiter; in both cases the request has been counted
    and nothing else has changed. *)
Theorem newAuction_refused_before_any_read w data st :
  (Auction.context w = None ->
   fst (Auction.newAuction w data st) = Throw (Rejected "Context not created"))
  /\ (forall ctx, Auction.context w = Some ctx -> Auction.validateInput w data = false ->
      fst (Auction.newAuction w data st) = Throw ParamsInvalid)
  /\ ((Auction.context w = None \/ Auction.validateInput w data = false) ->
      Auction.AUCTION_REQUEST_MAP (snd (Auction.newAuction w data st))
      = Auction.AUCTION_REQUEST_MAP st
      /\ length (Auction.receivedAuction (snd (Auction.newAuction w data st)))
         = S (length (Auction.receivedAuction st))).
Proof.
  assert (Hnone : Auction.context w = None ->
                  Auction.newAuction w data st
                  = (Throw (Rejected "Context not created"),
                     snd (Auction.receivedAuction_inc
                            {| AuctionLabels.sendingAssetId := AuctionPayload.sendingAssetId data;
                               AuctionLabels.receivingAssetId :=
                                 AuctionPayload.receivingAssetId data;
                               AuctionLabels.sendingChainId :=
                                 AuctionPayload.receivingChainId data;
                               AuctionLabels.receivingChainId :=
                                 AuctionPayload.receivingChainId data |} st))).
  { intros H. unfold Auction.newAuction, getContext. rewrite H. reflexivity. }
  assert (Hinvalid : forall ctx, Auction.context w = Some ctx ->
                     Auction.validateInput w data = false ->
                     Auction.newAuction w data st
                     = (Throw ParamsInvalid,
                        snd (Auction.receivedAuction_inc
                               {| AuctionLabels.sendingAssetId :=
                                    AuctionPayload.sendingAssetId data;
                                  AuctionLabels.receivingAssetId :=
                                    AuctionPayload.receivingAssetId data;
                                  AuctionLabels.sendingChainId :=
                                    AuctionPayload.receivingChainId data;
                                  AuctionLabels.receivingChainId :=
                                    AuctionPayload.receivingChainId data |} st))).
  { intros ctx H Hv. unfold Auction.newAuction, getContext. rewrite H.
    cbv [bind Auction.receivedAuction_inc modify defined ret]. rewrite Hv. reflexivity. }
  split; [| split].
  - intros H. rewrite (Hnone H). reflexivity.
  - intros ctx H Hv. rewrite (Hinvalid ctx H Hv). reflexivity.
  - intros [H | Hv].
    + rewrite (Hnone H). split; reflexivity.
    + destruct (Auction.context w) as [ctx |] eqn:Hctx.
      * rewrite (Hinvalid ctx eq_refl Hv). split; reflexivity.
      * rewrite (Hnone eq_refl). split; reflexivity.
Qed.

(** The sample request with an amount of "0" is refused as a zero-value bid. *)
Lemma newAuction_ZeroValueBid_iff_witness :
  fst (Auction.newAuction (Sample.world 1000 "999000" 1000)
         (Sample.payload "0" 100000) Sample.fresh) = Throw ZeroValueBid
  <-> BigNumber_from (AuctionPayload.amount (Sample.payload "0" 100000)) = None
      \/ BigNumber_from (AuctionPayload.amount (Sample.payload "0" 100000)) = Some 0.
Proof.
  apply (newAuction_ZeroValueBid_iff (Sample.world 1000 "999000" 1000)
           (Sample.payload "0" 100000) Sample.fresh
           (Sample.auctionContext Sample.allSynced 10000000));
    by_computation.
Defined.

(** ** Requests in sequence *)

(** After [newAuction] has answered a request at time [t1], dry run or not,
    a request of the same key at time [t2] is refused with
    [AuctionRateExceeded] as long as [t2 * 1000 - t1 * 1000] is below the
    request limit, and passes the rate limit from then on.  The error carries
    [currentTime - lastAttemptTime], the seconds of the clock less the
    milliseconds recorded. *)
Theorem replay_within_limit_is_refused w1 data1 st resp st1 w2 data2 ctx2
    amountBigNumber t1 t2 routerAddress :
  Auction.newAuction w1 data1 st = (Ok resp, st1) ->
  Auction.getNtpTimeSeconds w1 = Resolves t1 ->
  t1 <> 0 ->
  Auction.requestKey data2 = Auction.requestKey data1 ->
  Auction.context w2 = Some ctx2 ->
  Auction.validateInput w2 data2 = true ->
  BigNumber_from (AuctionPayload.amount data2) = Some amountBigNumber ->
  amountBigNumber <> 0 ->
  Auction.getNtpTimeSeconds w2 = Resolves t2 ->
  Auction.wallet_getAddress ctx2 = Resolves routerAddress ->
  (t2 * 1000 - t1 * 1000 < NxtpRouterConfig.requestLimit (Auction.config ctx2) ->
   fst (Auction.newAuction w2 data2 st1) = Throw (AuctionRateExceeded (t2 - t1 * 1000)))
  /\ (NxtpRouterConfig.requestLimit (Auction.config ctx2) <= t2 * 1000 - t1 * 1000 ->
      forall elapsed,
        fst (Auction.newAuction w2 data2 st1) <> Throw (AuctionRateExceeded elapsed)).
Proof.
  intros E Ht1 Hnz Hkey Hctx Hvalid Hparse Hamount Ht2 Haddr.
  pose proof (wp_run _ _ _ _ _ _ (newAuction_effects w1 data1 st) E) as Heff.
  cbn in Heff. destruct Heff as (_ & t1' & Ht1' & Hmap).
  assert (t1' = t1) by congruence. subst t1'.
  assert (Hlast : Auction.AUCTION_REQUEST_MAP st1 !! Auction.requestKey data2
                  = Some (t1 * 1000)).
  { rewrite Hmap, Hkey. apply lookup_insert_eq. }
  destruct (newAuction_rate_limit w2 data2 st1 ctx2 amountBigNumber t2 routerAddress
              (t1 * 1000) Hctx Hvalid Hparse Hamount Ht2 Haddr Hlast ltac:(lia))
    as [Hthrow Honly].
  split; [exact Hthrow |].
  intros Hge elapsed Habs. apply Honly in Habs. lia.
Qed.

(** A dry run at time 1000 and the same request one second later. *)
Lemma replay_within_limit_is_refused_witness :
  (1001 * 1000 - 1000 * 1000 < 5000 ->
   fst (Auction.newAuction (Sample.world 1001 "999000" 1000)
          (Sample.payload "1000000" 100000) Sample.served_once)
   = Throw (AuctionRateExceeded (1001 - 1000 * 1000)))
  /\ (5000 <= 1001 * 1000 - 1000 * 1000 ->
      forall elapsed,
        fst (Auction.newAuction (Sample.world 1001 "999000" 1000)
               (Sample.payload "1000000" 100000) Sample.served_once)
        <> Throw (AuctionRateExceeded elapsed)).
Proof.
  apply (replay_within_limit_is_refused
           (Sample.world 1000 "999000" 1000) Scenario.dryRunPayload Sample.fresh
           (Scenario.answer None) Sample.served_once
           (Sample.world 1001 "999000" 1000) (Sample.payload "1000000" 100000)
           (Sample.auctionContext Sample.allSynced 10000000)
           1000000 1000 1001 Sample.routerAddress);
    by_computation.
Defined.

(** Serving a sequence of requests answers every one of them and counts
    every one of them, answered or refused. *)
Theorem serve_counts_every_request requests st :
  length (fst (serve requests st)) = length requests
  /\ length (Auction.receivedAuction (snd (serve requests st)))
     = (length requests + length (Auction.receivedAuction st))%nat.
Proof.
  revert st. induction requests as [| [w data] requests IH]; intros st; cbn [serve].
  - split; reflexivity.
  - pose proof (newAuction_counts_once w data st) as Hone.
    destruct (Auction.newAuction w data st) as [r st1]. cbn [snd] in Hone.
    specialize (IH st1). destruct (serve requests st1) as [rs st2].
    cbn [fst snd length] in *. destruct IH as [IH1 IH2].
    rewrite IH1, IH2, Hone. cbn [length]. split; lia.
Qed.

(** Every time the rate limiter holds after a sequence of requests was
    either there before or is the time, in milliseconds, of a request of the
    sequence that has that key and was answered with a bid. *)
Theorem serve_records_answered_requests requests :
  forall st key t,
    Auction.AUCTION_REQUEST_MAP (snd (serve requests st)) !! key = Some t ->
    Auction.AUCTION_REQUEST_MAP st !! key = Some t
    \/ exists i w data resp currentTime,
         requests !! i = Some (w, data)
         /\ fst (serve requests st) !! i = Some (Ok resp)
         /\ Auction.requestKey data = key
         /\ Auction.getNtpTimeSeconds w = Resolves currentTime
         /\ t = currentTime * 1000.
Proof.
  induction requests as [| [w data] requests IH]; intros st key t; cbn [serve].
  - auto.
  - destruct (Auction.newAuction w data st) as [r st1] eqn:E.
    pose proof (wp_run _ _ _ _ _ _ (newAuction_effects w data st) E) as Heff.
    specialize (IH st1 key t).
    destruct (serve requests st1) as [rs st2]. cbn [fst snd] in *.
    intros H. destruct (IH H) as [Hst1 | (i & w' & data' & resp & now & Hi & Hr & Hrest)].
    + destruct r as [resp | e].
      * destruct Heff as (_ & now & Hnow & Hmap).
        rewrite Hmap, lookup_insert in Hst1. case_decide as Hk.
        -- injection Hst1 as <-. right.
           exists 0%nat, w, data, resp, now. repeat split; assumption.
        -- left. exact Hst1.
      * destruct Heff as (_ & Hmap). rewrite Hmap in Hst1. left. exact Hst1.
    + right. exists (S i), w', data', resp, now. repeat split; try apply Hrest; assumption.
Qed.

Lemma serve_records_answered_requests_witness :
  Auction.AUCTION_REQUEST_MAP Sample.fresh
    !! Auction.requestKey (Sample.payload "1000000" 100000) = Some 1000000
  \/ exists i w data resp currentTime,
       [(Sample.world 1000 "999000" 1000, Sample.payload "1000000" 100000);
        (Sample.world 1001 "999000" 1000, Sample.payload "1000000" 100000)] !! i
       = Some (w, data)
       /\ fst (serve [(Sample.world 1000 "999000" 1000, Sample.payload "1000000" 100000);
                      (Sample.world 1001 "999000" 1000, Sample.payload "1000000" 100000)]
                 Sample.fresh) !! i = Some (Ok resp)
       /\ Auction.requestKey data = Auction.requestKey (Sample.payload "1000000" 100000)
       /\ Auction.getNtpTimeSeconds w = Resolves currentTime
       /\ 1000000 = currentTime * 1000.
Proof.
  apply (serve_records_answered_requests
           [(Sample.world 1000 "999000" 1000, Sample.payload "1000000" 100000);
            (Sample.world 1001 "999000" 1000, Sample.payload "1000000" 100000)]
           Sample.fresh (Auction.requestKey (Sample.payload "1000000" 100000)) 1000000).
  by_computation.
Defined.

(** ** More on the cancel operation *)

(** The run of a sender-side cancel whose four reads are answered. *)
Lemma sender_cancel_run w invariantData input ctx existing currentTime receipt preparedBlock :
  Cancel.context w = Some ctx ->
  Cancel.validateInvariantData w invariantData = true ->
  Cancel.validateInput w input = true ->
  CancelInput.side input = "sender" ->
  Cancel.contractReader_getTransactionForChain ctx
    (InvariantTransactionData.transactionId invariantData)
    (InvariantTransactionData.user invariantData)
    (InvariantTransactionData.receivingChainId invariantData)
  = Resolves existing ->
  Cancel.getNtpTimeSeconds w = Resolves currentTime ->
  Cancel.txService_getTransactionReceipt ctx
    (InvariantTransactionData.sendingChainId invariantData)
    (CancelInput.preparedTransactionHash input)
  = Resolves receipt ->
  Cancel.txService_getBlock ctx
    (InvariantTransactionData.sendingChainId invariantData)
    (TransactionReceipt.blockNumber receipt)
  = Resolves preparedBlock ->
  let lookup :=
    Cancel.GetTransactionForChain (InvariantTransactionData.transactionId invariantData)
      (InvariantTransactionData.user invariantData)
      (InvariantTransactionData.receivingChainId invariantData) in
  let reads :=
    [Cancel.GetBlock (InvariantTransactionData.sendingChainId invariantData)
       (TransactionReceipt.blockNumber receipt);
     Cancel.GetTransactionReceipt (InvariantTransactionData.sendingChainId invariantData)
       (CancelInput.preparedTransactionHash input);
     Cancel.GetNtpTimeSeconds; lookup] in
  let txData :=
    {| TransactionData.invariant := invariantData;
       TransactionData.variant :=
         {| VariantTransactionData.amount := CancelInput.amount input;
            VariantTransactionData.expiry := CancelInput.expiry input;
            VariantTransactionData.preparedBlockNumber :=
              CancelInput.preparedBlockNumber input |} |} in
  Cancel.cancel w invariantData input []
  = if match existing with
       | Some record =>
           negb (TransactionStatus_eqb (TransactionRecord.status record) Cancelled)
           && (currentTime <? TransactionData.expiry (TransactionRecord.txData record))
       | None => false
       end
    then (Throw (ReceiverTxExists (InvariantTransactionData.transactionId invariantData)
                   (InvariantTransactionData.receivingChainId invariantData)),
          [Cancel.GetNtpTimeSeconds; lookup])
    else match preparedBlock with
         | None =>
             (Throw (SenderTxTooNew (InvariantTransactionData.transactionId invariantData)
                       (InvariantTransactionData.sendingChainId invariantData) 0 currentTime),
              reads)
         | Some block =>
             if currentTime <? Block.timestamp block + Cancel.SENDER_PREPARE_BUFFER_TIME
             then (Throw (SenderTxTooNew
                            (InvariantTransactionData.transactionId invariantData)
                            (InvariantTransactionData.sendingChainId invariantData)
                            (Block.timestamp block) currentTime),
                   reads)
             else (match Cancel.contractWriter_cancel ctx
                           (InvariantTransactionData.sendingChainId invariantData)
                           txData "0x" Cancel.AddressZero 0 with
                   | Resolves r => Ok r
                   | Rejects reason => Throw (Rejected reason)
                   end,
                   Cancel.WriterCancel (InvariantTransactionData.sendingChainId invariantData)
                     txData "0x" Cancel.AddressZero 0 :: reads)
         end.
Proof.
  intros Hctx Hinv Hin Hside Hlookup Hnow Hreceipt Hblock. cbv zeta.
  apply sender_side_selected in Hside.
  unfold Cancel.cancel, Cancel.senderSide, getContext.
  rewrite Hctx, Hinv, Hin, Hside.
  cbv [bind defined ret throw_if throw settle Cancel.call modify]. cbn [negb].
  rewrite Hlookup, Hnow.
  destruct existing as [record |].
  - destruct (negb (TransactionStatus_eqb (TransactionRecord.status record) Cancelled)
              && (currentTime <? TransactionData.expiry (TransactionRecord.txData record)));
      [reflexivity |].
    rewrite Hreceipt, Hblock. destruct preparedBlock as [block |]; [| reflexivity].
    destruct (currentTime <? Block.timestamp block + Cancel.SENDER_PREPARE_BUFFER_TIME);
      [reflexivity |].
    destruct (Cancel.contractWriter_cancel _ _ _ _ _); reflexivity.
  - rewrite Hreceipt, Hblock. destruct preparedBlock as [block |]; [| reflexivity].
    destruct (currentTime <? Block.timestamp block + Cancel.SENDER_PREPARE_BUFFER_TIME);
      [reflexivity |].
    destruct (Cancel.contractWriter_cancel _ _ _ _ _); reflexivity.
Qed.

(** For a sender-side cancel whose reads are answered, the cancel reaches
    the chain writer if and only if the receiver side is out of the way (no
    record, a [Cancelled] record, or a record whose expiry is not ahead of
    the clock any more) and the prepared block is known and at least
    [SENDER_PREPARE_BUFFER_TIME] old.  It is then the last of five calls,
    made for the sending chain with the signature "0x", the zero address as
    relayer-fee asset and a relayer fee of 0, and its outcome is the outcome
    of [cancel]. *)
Theorem sender_cancel_dispatched_iff w invariantData input ctx existing currentTime
    receipt preparedBlock :
  Cancel.context w = Some ctx ->
  Cancel.validateInvariantData w invariantData = true ->
  Cancel.validateInput w input = true ->
  CancelInput.side input = "sender" ->
  Cancel.contractReader_getTransactionForChain ctx
    (InvariantTransactionData.transactionId invariantData)
    (InvariantTransactionData.user invariantData)
    (InvariantTransactionData.receivingChainId invariantData)
  = Resolves existing ->
  Cancel.getNtpTimeSeconds w = Resolves currentTime ->
  Cancel.txService_getTransactionReceipt ctx
    (InvariantTransactionData.sendingChainId invariantData)
    (CancelInput.preparedTransactionHash input)
  = Resolves receipt ->
  Cancel.txService_getBlock ctx
    (InvariantTransactionData.sendingChainId invariantData)
    (TransactionReceipt.blockNumber receipt)
  = Resolves preparedBlock ->
  (Cancel.dispatched (snd (Cancel.cancel w invariantData input [])) = true
   <-> (forall record, existing = Some record ->
          TransactionRecord.status record = Cancelled
          \/ TransactionData.expiry (TransactionRecord.txData record) <= currentTime)
       /\ exists block,
            preparedBlock = Some block
            /\ Block.timestamp block + Cancel.SENDER_PREPARE_BUFFER_TIME <= currentTime)
  /\ (Cancel.dispatched (snd (Cancel.cancel w invariantData input [])) = true ->
      Cancel.cancel w invariantData input []
      = (match Cancel.contractWriter_cancel ctx
                 (InvariantTransactionData.sendingChainId invariantData)
                 {| TransactionData.invariant := invariantData;
                    TransactionData.variant :=
                      {| VariantTransactionData.amount := CancelInput.amount input;
                         VariantTransactionData.expiry := CancelInput.expiry input;
                         VariantTransactionData.preparedBlockNumber :=
                           CancelInput.preparedBlockNumber input |} |}
                 "0x" Cancel.AddressZero 0 with
         | Resolves r => Ok r
         | Rejects reason => Throw (Rejected reason)
         end,
         [Cancel.WriterCancel (InvariantTransactionData.sendingChainId invariantData)
            {| TransactionData.invariant := invariantData;
               TransactionData.variant :=
                 {| VariantTransactionData.amount := CancelInput.amount input;
                    VariantTransactionData.expiry := CancelInput.expiry input;
                    VariantTransactionData.preparedBlockNumber :=
                      CancelInput.preparedBlockNumber input |} |}
            "0x" Cancel.AddressZero 0;
          Cancel.GetBlock (InvariantTransactionData.sendingChainId invariantData)
            (TransactionReceipt.blockNumber receipt);
          Cancel.GetTransactionReceipt (InvariantTransactionData.sendingChainId invariantData)
            (CancelInput.preparedTransactionHash input);
          Cancel.GetNtpTimeSeconds;
          Cancel.GetTransactionForChain
            (InvariantTransactionData.transactionId invariantData)
            (InvariantTransactionData.user invariantData)
            (InvariantTransactionData.receivingChainId invariantData)])).
Proof.
  intros Hctx Hinv Hin Hside Hlookup Hnow Hreceipt Hblock.
  rewrite (sender_cancel_run w invariantData input ctx existing currentTime receipt
             preparedBlock Hctx Hinv Hin Hside Hlookup Hnow Hreceipt Hblock).
  cbv zeta.
  destruct existing as [record |].
  - destruct (negb (TransactionStatus_eqb (TransactionRecord.status record) Cancelled)
              && (currentTime <? TransactionData.expiry (TransactionRecord.txData record)))
      eqn:Hguard.
    + apply andb_true_iff in Hguard as [Hs He].
      apply negb_true_iff in Hs. apply Z.ltb_lt in He.
      split; [split |]; cbn; try discriminate.
      intros [Hfree _]. destruct (Hfree record eq_refl) as [Hc | Hc].
      * rewrite Hc in Hs. discriminate.
      * lia.
    + assert (Hfree : forall record', Some record = Some record' ->
                TransactionRecord.status record' = Cancelled
                \/ TransactionData.expiry (TransactionRecord.txData record') <= currentTime).
      { intros record' [= <-]. apply andb_false_iff in Hguard as [Hs | He].
        - left. apply negb_false_iff, TransactionStatus_eqb_eq in Hs. exact Hs.
        - right. apply Z.ltb_ge in He. exact He. }
      destruct preparedBlock as [block |].
      * destruct (currentTime <? Block.timestamp block + Cancel.SENDER_PREPARE_BUFFER_TIME)
          eqn:Hnew.
        -- apply Z.ltb_lt in Hnew. split; [split |]; cbn; try discriminate.
           intros [_ (block' & [= <-] & Hold)]. lia.
        -- apply Z.ltb_ge in Hnew. split; [split |]; cbn; try reflexivity.
           intros _. split; [exact Hfree | eauto].
      * split; [split |]; cbn; try discriminate.
        intros [_ (block' & [=] & _)].
  - destruct preparedBlock as [block |].
    + destruct (currentTime <? Block.timestamp block + Cancel.SENDER_PREPARE_BUFFER_TIME)
        eqn:Hnew.
      * apply Z.ltb_lt in Hnew. split; [split |]; cbn; try discriminate.
        intros [_ (block' & [= <-] & Hold)]. lia.
      * apply Z.ltb_ge in Hnew. split; [split |]; cbn; try reflexivity.
        intros _. split; [intros record [=] | eauto].
    + split; [split |]; cbn; try discriminate.
      intros [_ (block' & [=] & _)].
Qed.

(** The sample transaction, never prepared on the receiving chain, is
    cancelled on the sending chain exactly 780 s after its prepared block. *)
Lemma sender_cancel_dispatched_iff_witness :
  Cancel.cancel (Sample.cancelWorld (Sample.cancelContext true None 1000) 1780)
    Sample.invariantData (Sample.cancelInput "sender") []
  = (Ok {| TransactionReceipt.transactionHash := "0xcccc";
           TransactionReceipt.blockNumber := 50 |},
     [Cancel.WriterCancel 1337 Scenario.cancelTxData "0x" Cancel.AddressZero 0;
      Cancel.GetBlock 1337 42;
      Cancel.GetTransactionReceipt 1337 "0xbbbb";
      Cancel.GetNtpTimeSeconds;
      Cancel.GetTransactionForChain Sample.transactionId Sample.userAddress 1338]).
Proof.
  destruct (sender_cancel_dispatched_iff
              (Sample.cancelWorld (Sample.cancelContext true None 1000) 1780)
              Sample.invariantData (Sample.cancelInput "sender")
              (Sample.cancelContext true None 1000) None 1780
              {| TransactionReceipt.transactionHash := "0xbbbb";
                 TransactionReceipt.blockNumber := 42 |}
              (Some {| Block.timestamp := 1000 |})
              eq_refl eq_refl eq_refl eq_refl eq_refl eq_refl eq_refl eq_refl)
    as [Hiff Hrun].
  apply Hrun, Hiff. split.
  - intros record [=].
  - exists {| Block.timestamp := 1000 |}. split; [reflexivity | by_computation].
Defined.

(** When the block of the prepare cannot be found, a sender-side cancel that
    the receiver side does not hold up is refused with [SenderTxTooNew] for a
    prepared timestamp of 0, and nothing reaches the chain writer. *)
Theorem sender_cancel_block_missing w invariantData input ctx existing currentTime receipt :
  Cancel.context w = Some ctx ->
  Cancel.validateInvariantData w invariantData = true ->
  Cancel.validateInput w input = true ->
  CancelInput.side input = "sender" ->
  Cancel.contractReader_getTransactionForChain ctx
    (InvariantTransactionData.transactionId invariantData)
    (InvariantTransactionData.user invariantData)
    (InvariantTransactionData.receivingChainId invariantData)
  = Resolves existing ->
  (forall record, existing = Some record ->
     TransactionRecord.status record = Cancelled
     \/ TransactionData.expiry (TransactionRecord.txData record) <= currentTime) ->
  Cancel.getNtpTimeSeconds w = Resolves currentTime ->
  Cancel.txService_getTransactionReceipt ctx
    (InvariantTransactionData.sendingChainId invariantData)
    (CancelInput.preparedTransactionHash input)
  = Resolves receipt ->
  Cancel.txService_getBlock ctx
    (InvariantTransactionData.sendingChainId invariantData)
    (TransactionReceipt.blockNumber receipt)
  = Resolves None ->
  fst (Cancel.cancel w invariantData input [])
  = Throw (SenderTxTooNew (InvariantTransactionData.transactionId invariantData)
             (InvariantTransactionData.sendingChainId invariantData) 0 currentTime)
  /\ Cancel.dispatched (snd (Cancel.cancel w invariantData input [])) = false.
Proof.
  intros Hctx Hinv Hin Hside Hlookup Hfree Hnow Hreceipt Hblock.
  rewrite (sender_cancel_run w invariantData input ctx existing currentTime receipt
             None Hctx Hinv Hin Hside Hlookup Hnow Hreceipt Hblock).
  cbv zeta. destruct existing as [record |]; [| split; reflexivity].
  rewrite receiver_guard_fails by (apply Hfree; reflexivity).
  split; reflexivity.
Qed.

Lemma sender_cancel_block_missing_witness :
  fst (Cancel.cancel (Sample.cancelWorld Scenario.blockMissing 99999)
         Sample.invariantData (Sample.cancelInput "sender") [])
  = Throw (SenderTxTooNew Sample.transactionId 1337 0 99999)
  /\ Cancel.dispatched
       (snd (Cancel.cancel (Sample.cancelWorld Scenario.blockMissing 99999)
               Sample.invariantData (Sample.cancelInput "sender") []))
     = false.
Proof.
  apply (sender_cancel_block_missing
           (Sample.cancelWorld Scenario.blockMissing 99999)
           Sample.invariantData (Sample.cancelInput "sender")
           Scenario.blockMissing None 99999
           {| TransactionReceipt.transactionHash := "0xbbbb";
              TransactionReceipt.blockNumber := 42 |});
    try reflexivity.
  intros record [=].
Defined.

(** Before anything is read: without a context, or with invariant data or
    an input that fails its schema, [cancel] throws without having called a
    single collaborator. *)
Theorem cancel_refused_before_any_call w invariantData input log :
  (Cancel.context w = None ->
   Cancel.cancel w invariantData input log = (Throw (Rejected "Context not created"), log))
  /\ (forall ctx, Cancel.context w = Some ctx ->
      Cancel.validateInvariantData w invariantData = false
      \/ Cancel.validateInput w input = false ->
      Cancel.cancel w invariantData input log = (Throw ParamsInvalid, log)).
Proof.
  split.
  - intros H. unfold Cancel.cancel, getContext. rewrite H. reflexivity.
  - intros ctx H Hbad. unfold Cancel.cancel, getContext. rewrite H.
    cbv [bind defined ret throw_if throw].
    destruct (Cancel.validateInvariantData w invariantData); cbn [negb].
    + destruct Hbad as [Hbad | Hbad]; [discriminate |]. rewrite Hbad. reflexivity.
    + reflexivity.
Qed.

(** Close a branch of [cancel] that has reached the chain writer. *)
Ltac shape_close :=
  first [ eexists _, _, _, _, _ | right; eexists _, _, _, _, _, _ ];
  repeat match goal with
    | |- _ /\ _ => split
    | |- _ \/ _ -> _ =>
        intros [? | ?]; first [ discriminate | congruence | split; reflexivity ]
    | |- _ => first [ eassumption | reflexivity ]
    end.

(** The shape of every run of [cancel]: the chain writer is the last
    collaborator called, if it is called at all, and its answer is the answer
    of [cancel]. *)
Lemma cancel_log_shape w invariantData input :
  wp (Cancel.cancel w invariantData input) []
    (fun receipt log =>
       exists ctx chain asset fee reads,
         Cancel.context w = Some ctx
         /\ log = Cancel.WriterCancel chain
                    {| TransactionData.invariant := invariantData;
                       TransactionData.variant :=
                         {| VariantTransactionData.amount := CancelInput.amount input;
                            VariantTransactionData.expiry := CancelInput.expiry input;
                            VariantTransactionData.preparedBlockNumber :=
                              CancelInput.preparedBlockNumber input |} |}
                    "0x" asset fee :: reads
         /\ Cancel.dispatched reads = false
         /\ chain = (if String.eqb (CancelInput.side input) "sender"
                     then InvariantTransactionData.sendingChainId invariantData
                     else InvariantTransactionData.receivingChainId invariantData)
         /\ (String.eqb (CancelInput.side input) "sender" = true
             \/ Cancel.isRouterContract ctx = false ->
             asset = Cancel.AddressZero /\ fee = 0)
         /\ Cancel.contractWriter_cancel ctx chain
              {| TransactionData.invariant := invariantData;
                 TransactionData.variant :=
                   {| VariantTransactionData.amount := CancelInput.amount input;
                      VariantTransactionData.expiry := CancelInput.expiry input;
                      VariantTransactionData.preparedBlockNumber :=
                        CancelInput.preparedBlockNumber input |} |}
              "0x" asset fee = Resolves receipt)
    (fun e log =>
       Cancel.dispatched log = false
       \/ exists ctx chain asset fee reads reason,
            Cancel.context w = Some ctx
            /\ log = Cancel.WriterCancel chain
                       {| TransactionData.invariant := invariantData;
                          TransactionData.variant :=
                            {| VariantTransactionData.amount := CancelInput.amount input;
                               VariantTransactionData.expiry := CancelInput.expiry input;
                               VariantTransactionData.preparedBlockNumber :=
                                 CancelInput.preparedBlockNumber input |} |}
                       "0x" asset fee :: reads
            /\ Cancel.dispatched reads = false
            /\ chain = (if String.eqb (CancelInput.side input) "sender"
                        then InvariantTransactionData.sendingChainId invariantData
                        else InvariantTransactionData.receivingChainId invariantData)
            /\ (String.eqb (CancelInput.side input) "sender" = true
                \/ Cancel.isRouterContract ctx = false ->
                asset = Cancel.AddressZero /\ fee = 0)
            /\ Cancel.contractWriter_cancel ctx chain
                 {| TransactionData.invariant := invariantData;
                    TransactionData.variant :=
                      {| VariantTransactionData.amount := CancelInput.amount input;
                         VariantTransactionData.expiry := CancelInput.expiry input;
                         VariantTransactionData.preparedBlockNumber :=
                           CancelInput.preparedBlockNumber input |} |}
                 "0x" asset fee = Rejects reason
            /\ e = Rejected reason).
Proof.
  unfold Cancel.cancel.
  do 3 (cstep; [ | left; reflexivity .. ]).
  destruct (String.eqb (CancelInput.side input) "sender") eqn:Hside.
  - unfold Cancel.senderSide.
    repeat (cstep; try (left; reflexivity)); shape_close.
  - unfold Cancel.receiverSide.
    destruct (Cancel.isRouterContract _) eqn:Hvia;
      repeat (cstep; try (left; reflexivity)); shape_close.
Qed.

(** Whatever the input, [cancel] calls the chain writer at most once and as
    its last step: a log with a writer call has it at its head and none
    below, for the sending chain when [side] is "sender" and for the
    receiving chain for any other [side], with the transaction data put
    together from the invariant data and the input, and the signature "0x";
    the relayer fee is 0 in the zero-address asset unless the receiver side
    acts through a router contract.  The outcome of [cancel] is then the
    writer's, and [cancel] returns a receipt in no other way. *)
Theorem cancel_writer_called_last w invariantData input :
  (forall receipt,
     fst (Cancel.cancel w invariantData input []) = Ok receipt ->
     Cancel.dispatched (snd (Cancel.cancel w invariantData input [])) = true)
  /\ (Cancel.dispatched (snd (Cancel.cancel w invariantData input [])) = true ->
      exists ctx asset fee reads,
        Cancel.context w = Some ctx
        /\ snd (Cancel.cancel w invariantData input [])
           = Cancel.WriterCancel
               (if String.eqb (CancelInput.side input) "sender"
                then InvariantTransactionData.sendingChainId invariantData
                else InvariantTransactionData.receivingChainId invariantData)
               {| TransactionData.invariant := invariantData;
                  TransactionData.variant :=
                    {| VariantTransactionData.amount := CancelInput.amount input;
                       VariantTransactionData.expiry := CancelInput.expiry input;
                       VariantTransactionData.preparedBlockNumber :=
                         CancelInput.preparedBlockNumber input |} |}
               "0x" asset fee :: reads
        /\ Cancel.dispatched reads = false
        /\ (String.eqb (CancelInput.side input) "sender" = true
            \/ Cancel.isRouterContract ctx = false ->
            asset = Cancel.AddressZero /\ fee = 0)
        /\ fst (Cancel.cancel w invariantData input [])
           = match Cancel.contractWriter_cancel ctx
                     (if String.eqb (CancelInput.side input) "sender"
                      then InvariantTransactionData.sendingChainId invariantData
                      else InvariantTransactionData.receivingChainId invariantData)
                     {| TransactionData.invariant := invariantData;
                        TransactionData.variant :=
                          {| VariantTransactionData.amount := CancelInput.amount input;
                             VariantTransactionData.expiry := CancelInput.expiry input;
                             VariantTransactionData.preparedBlockNumber :=
                               CancelInput.preparedBlockNumber input |} |}
                     "0x" asset fee with
             | Resolves r => Ok r
             | Rejects reason => Throw (Rejected reason)
             end).
Proof.
  pose proof (cancel_log_shape w invariantData input) as Hshape.
  destruct (Cancel.cancel w invariantData input []) as [r log] eqn:Erun.
  pose proof (wp_run _ _ _ _ _ _ Hshape Erun) as H. clear Hshape Erun.
  cbn [fst snd]. split.
  - intros receipt ->.
    destruct H as (ctx & chain & asset & fee & reads & _ & -> & _). reflexivity.
  - intros Hsent. destruct r as [receipt | e].
    + destruct H as (ctx & chain & asset & fee & reads & Hctx & -> & Hreads & -> & Hfee & Hw).
      exists ctx, asset, fee, reads. rewrite Hw. auto.
    + destruct H as [H | (ctx & chain & asset & fee & reads & reason
                          & Hctx & -> & Hreads & -> & Hfee & Hw & ->)].
      * rewrite H in Hsent. discriminate.
      * exists ctx, asset, fee, reads. rewrite Hw. auto.
Qed.

(** ** Start-up *)

(** One step of [start], down to the first operation of a nested [bind]. *)
Ltac sstep :=
  cbv beta zeta;
  lazymatch goal with
  | |- wp (bind _ _) _ _ _ => apply wp_bind; sstep
  | |- wp (settle _) _ _ _ => apply wp_settle; [intros ? ? | intros ? ?]
  | |- wp (defined _ _) _ _ _ => apply wp_defined; [intros ? ? | intros ?]
  | |- wp (Startup.assign _) _ _ _ =>
      apply wp_modify; cbn [Startup.context Startup.events]
  | |- wp (Startup.emit _) _ _ _ =>
      apply wp_modify; cbn [Startup.context Startup.events]
  | |- wp (if ?c then _ else _) _ _ _ => destruct c eqn:?
  end.

(** Every run of the [try] block of [makeRouter].  A run that comes to its
    end has filled the eight fields of the context, the configuration among
    them with its mnemonic blanked, and has started the bindings the
    configuration asks for.  A run that throws has either started no binding
    or has a full context as well. *)
Lemma start_shape w st :
  wp (Startup.start w) st
    (fun _ st' =>
       exists chainData cfg signer log nats txs reader writer,
         Startup.getChainData w = Resolves (Some chainData)
         /\ Startup.getConfig w = Resolves cfg
         /\ (if Startup.truthy (Startup.mnemonic cfg)
             then Startup.Wallet_fromMnemonic w (default "" (Startup.mnemonic cfg))
             else Startup.new_Web3Signer w (Startup.web3SignerUrl cfg))
            = Resolves signer
         /\ Startup.context st'
            = {| Startup.chainData := Some chainData;
                 Startup.config := Some (Startup.redact cfg);
                 Startup.wallet := Some signer;
                 Startup.logger := Some log;
                 Startup.messaging := Some nats;
                 Startup.txService := Some txs;
                 Startup.contractReader := Some reader;
                 Startup.contractWriter := Some writer |}
         /\ Startup.events st'
            = Startup.LogInfo "Router ready 🚀" None
              :: Startup.BindMetrics
              :: Startup.BindFastify
              :: (if Startup.priceCacheMode cfg then Startup.BindPrices
                  else Startup.LogWarn "Running router not in price cache mode")
              :: (if Startup.cleanUpMode cfg
                  then Startup.LogWarn "Running router in cleanup mode"
                  else Startup.BindMessaging)
              :: (if Startup.diagnosticMode cfg
                  then Startup.LogWarn "Running router in diagnostic mode"
                  else Startup.BindContractReader)
              :: Startup.Connect
              :: Startup.LogInfo "Config generated" (Some (Startup.redact cfg))
              :: Startup.events st)
    (fun e st' =>
       (Startup.getChainData w = Resolves None ->
        e = Rejected "Could not get chain data" /\ st' = st)
       /\ (existsb Startup.is_binding (Startup.events st')
           = existsb Startup.is_binding (Startup.events st)
           \/ exists chainData cfg signer log nats txs reader writer,
                Startup.getConfig w = Resolves cfg
                /\ Startup.context st'
                   = {| Startup.chainData := Some chainData;
                        Startup.config := Some (Startup.redact cfg);
                        Startup.wallet := Some signer;
                        Startup.logger := Some log;
                        Startup.messaging := Some nats;
                        Startup.txService := Some txs;
                        Startup.contractReader := Some reader;
                        Startup.contractWriter := Some writer |})).
Proof.
  unfold Startup.start.
  sstep; [| split; [intros; congruence | left; reflexivity]].
  sstep; [| split; [intros; subst; auto | left; reflexivity]].
  sstep.
  sstep; [| split; [intros; congruence | left; reflexivity]].
  sstep.
  assert (Hbranch : forall (c : bool) (x y : promise Startup.Signer),
             (if c then settle (S := Startup.State) x else settle y)
             = settle (if c then x else y)) by (intros [] ? ?; reflexivity).
  rewrite Hbranch. clear Hbranch.
  sstep; [| split; [intros; congruence | left; reflexivity]].
  destruct (Startup.diagnosticMode a1) eqn:Hdiagnostic;
    destruct (Startup.cleanUpMode a1) eqn:HcleanUp;
    destruct (Startup.priceCacheMode a1) eqn:HpriceCache;
    cbn [Startup.redact Startup.diagnosticMode Startup.cleanUpMode Startup.priceCacheMode
         negb];
    rewrite ?Hdiagnostic, ?HcleanUp, ?HpriceCache; cbn [negb];
    repeat (sstep; try (split; [intros; congruence | left; reflexivity])).
  all: subst.
  all: first
    [ eexists _, _, _, _, _, _, _, _;
      split; [eassumption |]; split; [eassumption |]; split; [eassumption |];
      cbn; rewrite ?Hdiagnostic, ?HcleanUp, ?HpriceCache; split; reflexivity
    | split; [intros; congruence |];
      right; eexists _, _, _, _, _, _, _, _; split; [eassumption | reflexivity] ].
Qed.

(** [makeRouter] ends the process exactly on the runs of its [try] block
    that throw. *)
Lemma makeRouter_not_exited w st :
  Startup.exited (Startup.makeRouter w st) = false ->
  exists st', Startup.start w st = (Ok tt, st') /\ Startup.makeRouter w st = st'.
Proof.
  unfold Startup.makeRouter.
  destruct (Startup.start w st) as [[[] | e] st'].
  - eauto.
  - discriminate.
Qed.

(** When [makeRouter] has not ended the process, the context holds all of
    its eight fields, so that [getContext] hands it out.  Its configuration
    is the one read by [getConfig] with the mnemonic blanked, while the
    wallet has been made from the mnemonic as it was read, or from the
    web3signer URL when there is none. *)
Theorem makeRouter_ready_context w st cfg :
  Startup.getConfig w = Resolves cfg ->
  Startup.exited (Startup.makeRouter w st) = false ->
  exists chainData signer log nats txs reader writer,
    (if Startup.truthy (Startup.mnemonic cfg)
     then Startup.Wallet_fromMnemonic w (default "" (Startup.mnemonic cfg))
     else Startup.new_Web3Signer w (Startup.web3SignerUrl cfg))
    = Resolves signer
    /\ Startup.context (Startup.makeRouter w st)
       = {| Startup.chainData := Some chainData;
            Startup.config := Some (Startup.redact cfg);
            Startup.wallet := Some signer;
            Startup.logger := Some log;
            Startup.messaging := Some nats;
            Startup.txService := Some txs;
            Startup.contractReader := Some reader;
            Startup.contractWriter := Some writer |}
    /\ Startup.current (Startup.context (Startup.makeRouter w st))
       = Some (Startup.context (Startup.makeRouter w st)).
Proof.
  intros Hcfg Hrun.
  destruct (makeRouter_not_exited w st Hrun) as (st' & Estart & ->).
  pose proof (wp_run _ _ _ _ _ _ (start_shape w st) Estart) as H. cbv beta in H.
  destruct H as (chainData & cfg' & signer & log & nats & txs & reader & writer
                 & _ & Hcfg' & Hsigner & Hctx & _).
  rewrite Hcfg in Hcfg'. injection Hcfg' as <-.
  exists chainData, signer, log, nats, txs, reader, writer.
  rewrite Hctx. auto.
Qed.

(** With a mnemonic configured, the context of the started router holds the
    wallet of that mnemonic and a configuration that shows seven dots in its
    place. *)
Lemma makeRouter_ready_context_witness :
  exists chainData signer log nats txs reader writer,
    Resolves (Startup.FromMnemonic "candy maple cake sugar") = Resolves signer
    /\ Startup.context
         (Startup.makeRouter (Scenario.startupWorld (Scenario.startupConfig false false true))
            Startup.boot)
       = {| Startup.chainData := Some chainData;
            Startup.config :=
              Some {| Startup.mnemonic := Some ".......";
                      Startup.web3SignerUrl := None;
                      Startup.logLevel := "info";
                      Startup.authUrl := "https://auth";
                      Startup.natsUrl := "nats://nats";
                      Startup.diagnosticMode := false;
                      Startup.cleanUpMode := false;
                      Startup.priceCacheMode := true |};
            Startup.wallet := Some signer;
            Startup.logger := Some log;
            Startup.messaging := Some nats;
            Startup.txService := Some txs;
            Startup.contractReader := Some reader;
            Startup.contractWriter := Some writer |}
    /\ Startup.current
         (Startup.context
            (Startup.makeRouter
               (Scenario.startupWorld (Scenario.startupConfig false false true))
               Startup.boot))
       = Some (Startup.context
                 (Startup.makeRouter
                    (Scenario.startupWorld (Scenario.startupConfig false false true))
                    Startup.boot)).
Proof.
  exact (makeRouter_ready_context
           (Scenario.startupWorld (Scenario.startupConfig false false true))
           Startup.boot (Scenario.startupConfig false false true) eq_refl eq_refl).
Defined.

Lemma bindings_cons (e : Startup.Event) (l : list Startup.Event) :
  rev (filter (fun e => Startup.is_binding e = true) (e :: l))
  = (rev (filter (fun e => Startup.is_binding e = true) l)
     ++ (if Startup.is_binding e then [e] else []))%list.
Proof.
  rewrite filter_cons. destruct (Startup.is_binding e); cbn.
  - reflexivity.
  - rewrite app_nil_r. reflexivity.
Qed.

(** The bindings of a router that has started, in the order they were
    started in: the contract reader unless in diagnostic mode, the messaging
    unless in clean-up mode, the prices only in price-cache mode, then
    fastify and the metrics in every mode.  The messaging service has been
    connected in every mode, the clean-up mode included. *)
Theorem makeRouter_bindings_by_mode w st cfg :
  Startup.getConfig w = Resolves cfg ->
  Startup.exited (Startup.makeRouter w st) = false ->
  Startup.bindings (Startup.makeRouter w st)
  = (Startup.bindings st
     ++ (if Startup.diagnosticMode cfg then [] else [Startup.BindContractReader])
     ++ (if Startup.cleanUpMode cfg then [] else [Startup.BindMessaging])
     ++ (if Startup.priceCacheMode cfg then [Startup.BindPrices] else [])
     ++ [Startup.BindFastify; Startup.BindMetrics])%list
  /\ In Startup.Connect (Startup.events (Startup.makeRouter w st)).
Proof.
  intros Hcfg Hrun.
  destruct (makeRouter_not_exited w st Hrun) as (st' & Estart & ->).
  pose proof (wp_run _ _ _ _ _ _ (start_shape w st) Estart) as H. cbv beta in H.
  destruct H as (chainData & cfg' & signer & log & nats & txs & reader & writer
                 & _ & Hcfg' & _ & _ & Hevents).
  rewrite Hcfg in Hcfg'. injection Hcfg' as <-.
  unfold Startup.bindings. rewrite Hevents. split.
  - destruct (Startup.diagnosticMode cfg), (Startup.cleanUpMode cfg),
      (Startup.priceCacheMode cfg);
      rewrite !bindings_cons; cbn [Startup.is_binding];
      rewrite <- ?app_assoc; reflexivity.
  - cbn. tauto.
Qed.

(** In clean-up mode with the price cache on, the sample router binds the
    contract reader, the prices, fastify and the metrics. *)
Lemma makeRouter_bindings_by_mode_witness :
  Startup.bindings
    (Startup.makeRouter (Scenario.startupWorld (Scenario.startupConfig false true true))
       Startup.boot)
  = [Startup.BindContractReader; Startup.BindPrices; Startup.BindFastify;
     Startup.BindMetrics]
  /\ In Startup.Connect
       (Startup.events
          (Startup.makeRouter (Scenario.startupWorld (Scenario.startupConfig false true true))
             Startup.boot)).
Proof.
  exact (makeRouter_bindings_by_mode
           (Scenario.startupWorld (Scenario.startupConfig false true true))
           Startup.boot (Scenario.startupConfig false true true) eq_refl eq_refl).
Defined.

(** No binding is started on a partial context: whenever a run of
    [makeRouter] has started a binding, whether the run then failed or not,
    the eight fields of the context had been assigned before. *)
Theorem makeRouter_binds_on_full_context w st :
  existsb Startup.is_binding (Startup.events st) = false ->
  existsb Startup.is_binding (Startup.events (Startup.makeRouter w st)) = true ->
  exists chainData cfg signer log nats txs reader writer,
    Startup.getConfig w = Resolves cfg
    /\ Startup.context (Startup.makeRouter w st)
       = {| Startup.chainData := Some chainData;
            Startup.config := Some (Startup.redact cfg);
            Startup.wallet := Some signer;
            Startup.logger := Some log;
            Startup.messaging := Some nats;
            Startup.txService := Some txs;
            Startup.contractReader := Some reader;
            Startup.contractWriter := Some writer |}.
Proof.
  intros Hbefore Hbound. unfold Startup.makeRouter in *.
  destruct (Startup.start w st) as [[[] | e] st'] eqn:Estart;
    pose proof (wp_run _ _ _ _ _ _ (start_shape w st) Estart) as H; cbv beta in H.
  - destruct H as (chainData & cfg & signer & log & nats & txs & reader & writer
                   & _ & Hcfg & _ & Hctx & _).
    eauto 10.
  - cbn in Hbound. cbn [Startup.context].
    destruct H as [_ [Hsame | H]].
    + rewrite Hsame, Hbefore in Hbound. discriminate.
    + exact H.
Qed.

(** The metrics binding fails: the process is ended with every binding
    started on the full context. *)
Lemma makeRouter_binds_on_full_context_witness :
  exists chainData cfg signer log nats txs reader writer,
    Resolves (Scenario.startupConfig true true false) = Resolves cfg
    /\ Startup.context
         (Startup.makeRouter Scenario.metricsDown Startup.boot)
       = {| Startup.chainData := Some chainData;
            Startup.config := Some (Startup.redact cfg);
            Startup.wallet := Some signer;
            Startup.logger := Some log;
            Startup.messaging := Some nats;
            Startup.txService := Some txs;
            Startup.contractReader := Some reader;
            Startup.contractWriter := Some writer |}.
Proof.
  exact (makeRouter_binds_on_full_context Scenario.metricsDown Startup.boot
           eq_refl eq_refl).
Defined.

(** Without chain data nothing is assigned and nothing is started: the
    error "Could not get chain data" is written to the console and the
    process is ended, with the context as it was. *)
Theorem makeRouter_without_chain_data w st :
  Startup.getChainData w = Resolves None ->
  Startup.makeRouter w st
  = {| Startup.context := Startup.context st;
       Startup.events :=
         Startup.ProcessExit
         :: Startup.ConsoleError (Rejected "Could not get chain data")
         :: Startup.events st |}.
Proof.
  intros Hnone. unfold Startup.makeRouter.
  destruct (Startup.start w st) as [[[] | e] st'] eqn:Estart;
    pose proof (wp_run _ _ _ _ _ _ (start_shape w st) Estart) as H; cbv beta in H.
  - destruct H as (chainData & _ & _ & _ & _ & _ & _ & _ & Hsome & _). congruence.
  - destruct H as [H _]. destruct (H Hnone) as [-> ->]. reflexivity.
Qed.

Lemma makeRouter_without_chain_data_witness :
  Startup.makeRouter Scenario.noChainData Startup.boot
  = {| Startup.context := Startup.empty;
       Startup.events :=
         [Startup.ProcessExit;
          Startup.ConsoleError (Rejected "Could not get chain data")] |}.
Proof.
  exact (makeRouter_without_chain_data Scenario.noChainData Startup.boot eq_refl).
Defined.

(** ** The Multicall contract *)

(** The loop of [aggregate] from index [i] on: the slots below [i] hold the
    return data of the calls made so far, and the calls from [i] on are made
    in turn. *)
Lemma loop_in_turn {St} (evm : Multicall.Evm St) calls fuel :
  forall i done st,
    length done = i -> (i + fuel)%nat = length calls ->
    Multicall.loop evm calls fuel i (done ++ replicate fuel "")%list st
    = match Multicall.in_turn evm (drop i calls) st with
      | Some (rets, st') => Some ((done ++ rets)%list, st')
      | None => None
      end.
Proof.
  induction fuel as [| fuel IH]; intros i done st Hdone Hlen.
  - rewrite drop_ge by lia. reflexivity.
  - destruct (lookup_lt_is_Some_2 calls i ltac:(lia)) as [c Hc].
    rewrite (drop_S _ _ _ Hc). cbn [Multicall.loop Multicall.in_turn]. rewrite Hc.
    destruct (Multicall.call evm st (Multicall.target c) (Multicall.callData c))
      as [[[] ret] st1]; [| reflexivity].
    replace (<[i := ret]> (done ++ replicate (S fuel) "")%list)
      with ((done ++ [ret]) ++ replicate fuel "")%list.
    + rewrite IH by (rewrite ?length_app; cbn; lia).
      destruct (Multicall.in_turn evm (drop (S i) calls) st1) as [[rets st2] |];
        [| reflexivity].
      rewrite <- app_assoc. reflexivity.
    + rewrite <- app_assoc. subst i.
      rewrite insert_app_r_alt by lia. rewrite Nat.sub_diag. reflexivity.
Qed.

Lemma in_turn_app {St} (evm : Multicall.Evm St) calls1 calls2 st :
  Multicall.in_turn evm (calls1 ++ calls2) st
  = match Multicall.in_turn evm calls1 st with
    | Some (rets1, st1) =>
        match Multicall.in_turn evm calls2 st1 with
        | Some (rets2, st2) => Some ((rets1 ++ rets2)%list, st2)
        | None => None
        end
    | None => None
    end.
Proof.
  revert st. induction calls1 as [| c calls1 IH]; intros st; cbn.
  - destruct (Multicall.in_turn evm calls2 st) as [[rets2 st2] |]; reflexivity.
  - destruct (Multicall.call evm st (Multicall.target c) (Multicall.callData c))
      as [[[] ret] st1]; [| reflexivity].
    rewrite IH.
    destruct (Multicall.in_turn evm calls1 st1) as [[rets1 st2] |]; [| reflexivity].
    destruct (Multicall.in_turn evm calls2 st2) as [[rets2 st3] |]; reflexivity.
Qed.

Lemma in_turn_length {St} (evm : Multicall.Evm St) calls :
  forall st rets st',
    Multicall.in_turn evm calls st = Some (rets, st') -> length rets = length calls.
Proof.
  induction calls as [| c calls IH]; intros st rets st'; cbn.
  - intros [= <- _]. reflexivity.
  - destruct (Multicall.call evm st (Multicall.target c) (Multicall.callData c))
      as [[[] ret] st1]; [| discriminate].
    destruct (Multicall.in_turn evm calls st1) as [[rets1 st2] |] eqn:E; [| discriminate].
    intros [= <- _]. cbn. f_equal. eapply IH, E.
Qed.

(** [aggregate] makes the calls in the order of the array, each on the
    chain state left by the one before; it returns the block number it was
    given with the return data of the calls in that same order, one entry
    per call, and reverts as soon as one call fails. *)
Theorem aggregate_in_turn {St} (evm : Multicall.Evm St) blockNumber calls st :
  Multicall.aggregate evm blockNumber calls st
  = match Multicall.in_turn evm calls st with
    | Some (returnData, st') => Some (blockNumber, returnData, st')
    | None => None
    end
  /\ (forall blockNumber' returnData st',
        Multicall.aggregate evm blockNumber calls st = Some (blockNumber', returnData, st') ->
        blockNumber' = blockNumber /\ length returnData = length calls).
Proof.
  assert (Hrun : Multicall.aggregate evm blockNumber calls st
                 = match Multicall.in_turn evm calls st with
                   | Some (returnData, st') => Some (blockNumber, returnData, st')
                   | None => None
                   end).
  { unfold Multicall.aggregate.
    pose proof (loop_in_turn evm calls (length calls) 0%nat [] st eq_refl eq_refl) as H.
    cbn [app] in H. rewrite H, drop_0.
    destruct (Multicall.in_turn evm calls st) as [[rets st'] |]; reflexivity. }
  split; [exact Hrun |].
  intros blockNumber' returnData st'. rewrite Hrun.
  destruct (Multicall.in_turn evm calls st) as [[rets st1] |] eqn:E; [| discriminate].
  intros [= <- <- _]. split; [reflexivity | eapply in_turn_length, E].
Qed.

(** Aggregating two batches in one transaction is aggregating the first and
    then the second on the state the first has left, with the return data
    of the two put end to end; the whole reverts when either does. *)
Theorem aggregate_app {St} (evm : Multicall.Evm St) blockNumber calls1 calls2 st :
  Multicall.aggregate evm blockNumber (calls1 ++ calls2) st
  = match Multicall.aggregate evm blockNumber calls1 st with
    | Some (_, returnData1, st1) =>
        match Multicall.aggregate evm blockNumber calls2 st1 with
        | Some (_, returnData2, st2) => Some (blockNumber, (returnData1 ++ returnData2)%list, st2)
        | None => None
        end
    | None => None
    end.
Proof.
  assert (Hrun : forall calls s,
             Multicall.aggregate evm blockNumber calls s
             = match Multicall.in_turn evm calls s with
               | Some (returnData, st') => Some (blockNumber, returnData, st')
               | None => None
               end).
  { intros calls s. unfold Multicall.aggregate.
    pose proof (loop_in_turn evm calls (length calls) 0%nat [] s eq_refl eq_refl) as H.
    cbn [app] in H. rewrite H, drop_0.
    destruct (Multicall.in_turn evm calls s) as [[rets st'] |]; reflexivity. }
  rewrite !Hrun, in_turn_app.
  destruct (Multicall.in_turn evm calls1 st) as [[rets1 st1] |]; [| reflexivity].
  rewrite Hrun.
  destruct (Multicall.in_turn evm calls2 st1) as [[rets2 st2] |]; reflexivity.
Qed.

(** ** The key of the rate limiter *)

Lemma dash_split a a' r r' :
  dash_free a = true -> dash_free a' = true ->
  a +:+ "-" +:+ r = a' +:+ "-" +:+ r' -> a = a' /\ r = r'.
Proof.
  revert a'. induction a as [| c a IH]; intros [| c' a'] H H' E.
  - change (String "-" r = String "-" r') in E. injection E as ->. auto.
  - change (String "-" r = String c' (a' +:+ "-" +:+ r')) in E.
    injection E as <- _. discriminate H'.
  - change (String c (a +:+ "-" +:+ r) = String "-" r') in E.
    injection E as -> _. discriminate H.
  - change (String c (a +:+ "-" +:+ r) = String c' (a' +:+ "-" +:+ r')) in E.
    injection E as -> E.
    cbn [dash_free] in H, H'.
    apply andb_true_iff in H as [_ H]. apply andb_true_iff in H' as [_ H'].
    destruct (IH a' H H' E) as [-> ->]. auto.
Qed.

Lemma dash_free_pretty_N_go x :
  forall s, dash_free s = true -> dash_free (pretty_N_go x s) = true.
Proof.
  induction (N.lt_wf_0 x) as [x _ IH]; intros s Hs.
  destruct (N.eq_dec x 0%N) as [-> | Hx].
  - rewrite pretty_N_go_0. exact Hs.
  - rewrite pretty_N_go_step by lia.
    apply IH; [apply N.div_lt; lia |].
    cbn [dash_free]. rewrite Hs, andb_true_r.
    unfold pretty_N_char.
    repeat match goal with |- context [match ?n with _ => _ end] => destruct n end;
      reflexivity.
Qed.

Lemma dash_free_pretty (z : Z) : 0 <= z -> dash_free (pretty z) = true.
Proof.
  destruct z as [| p | p]; [reflexivity | | lia]. intros _.
  unfold pretty, pretty_Z, pretty, pretty_positive, pretty, pretty_N.
  destruct (decide (N.pos p = 0%N)); [reflexivity |].
  apply dash_free_pretty_N_go. reflexivity.
Qed.

(** The key is one-to-one on requests whose user and asset identifiers hold
    no dash. *)
Lemma requestKey_inj d1 d2 :
  dash_free (AuctionPayload.user d1) = true ->
  dash_free (AuctionPayload.user d2) = true ->
  dash_free (AuctionPayload.sendingAssetId d1) = true ->
  dash_free (AuctionPayload.sendingAssetId d2) = true ->
  dash_free (AuctionPayload.receivingAssetId d1) = true ->
  dash_free (AuctionPayload.receivingAssetId d2) = true ->
  0 <= AuctionPayload.sendingChainId d1 ->
  0 <= AuctionPayload.sendingChainId d2 ->
  Auction.requestKey d1 = Auction.requestKey d2 ->
  AuctionPayload.user d1 = AuctionPayload.user d2
  /\ AuctionPayload.sendingAssetId d1 = AuctionPayload.sendingAssetId d2
  /\ AuctionPayload.sendingChainId d1 = AuctionPayload.sendingChainId d2
  /\ AuctionPayload.receivingAssetId d1 = AuctionPayload.receivingAssetId d2
  /\ AuctionPayload.receivingChainId d1 = AuctionPayload.receivingChainId d2.
Proof.
  intros Hu1 Hu2 Hs1 Hs2 Hr1 Hr2 Hc1 Hc2. unfold Auction.requestKey. intros E.
  apply dash_split in E as [Hu E]; [| assumption ..].
  apply dash_split in E as [Hs E]; [| assumption ..].
  apply dash_split in E as [Hc E]; [| apply dash_free_pretty; assumption ..].
  apply dash_split in E as [Hr E]; [| assumption ..].
  apply (inj pretty) in Hc. apply (inj pretty) in E. auto.
Qed.

(** An invocation of [newAuction] leaves the rate-limiter entry of every
    request that differs from its own in the user, an asset or a chain as it
    was, whether it has answered or thrown; the identifiers are taken to
    hold no dash, as addresses do, and the sending chain ids not to be
    negative. *)
Theorem newAuction_limits_its_own_key_only w d1 d2 st :
  dash_free (AuctionPayload.user d1) = true ->
  dash_free (AuctionPayload.user d2) = true ->
  dash_free (AuctionPayload.sendingAssetId d1) = true ->
  dash_free (AuctionPayload.sendingAssetId d2) = true ->
  dash_free (AuctionPayload.receivingAssetId d1) = true ->
  dash_free (AuctionPayload.receivingAssetId d2) = true ->
  0 <= AuctionPayload.sendingChainId d1 ->
  0 <= AuctionPayload.sendingChainId d2 ->
  (AuctionPayload.user d1, AuctionPayload.sendingAssetId d1,
   AuctionPayload.sendingChainId d1, AuctionPayload.receivingAssetId d1,
   AuctionPayload.receivingChainId d1)
  <> (AuctionPayload.user d2, AuctionPayload.sendingAssetId d2,
      AuctionPayload.sendingChainId d2, AuctionPayload.receivingAssetId d2,
      AuctionPayload.receivingChainId d2) ->
  Auction.AUCTION_REQUEST_MAP (snd (Auction.newAuction w d1 st)) !! Auction.requestKey d2
  = Auction.AUCTION_REQUEST_MAP st !! Auction.requestKey d2.
Proof.
  intros Hu1 Hu2 Hs1 Hs2 Hr1 Hr2 Hc1 Hc2 Hother.
  assert (Hkey : Auction.requestKey d1 <> Auction.requestKey d2).
  { intros E. apply Hother.
    destruct (requestKey_inj d1 d2 Hu1 Hu2 Hs1 Hs2 Hr1 Hr2 Hc1 Hc2 E)
      as (-> & -> & -> & -> & ->).
    reflexivity. }
  destruct (Auction.newAuction w d1 st) as [r st'] eqn:Erun.
  pose proof (wp_run _ _ _ _ _ _ (newAuction_effects w d1 st) Erun) as H.
  cbn [snd]. destruct r as [resp | e].
  - destruct H as (_ & currentTime & _ & ->). apply lookup_insert_ne. exact Hkey.
  - destruct H as [_ ->]. reflexivity.
Qed.

(** A bid for the sample user does not touch the entry of another user of
    the same assets and chains. *)
Lemma newAuction_limits_its_own_key_only_witness :
  Auction.AUCTION_REQUEST_MAP
    (snd (Auction.newAuction (Sample.world 1000 "999000" 1000)
            (Sample.payload "1000000" 100000) Sample.fresh))
  !! Auction.requestKey
       {| AuctionPayload.user := Sample.routerAddress;
          AuctionPayload.initiator := Sample.routerAddress;
          AuctionPayload.sendingChainId := 1337;
          AuctionPayload.sendingAssetId := Sample.sendingAsset;
          AuctionPayload.amount := "5";
          AuctionPayload.receivingChainId := 1338;
          AuctionPayload.receivingAssetId := Sample.receivingAsset;
          AuctionPayload.receivingAddress := Sample.routerAddress;
          AuctionPayload.expiry := 100000;
          AuctionPayload.transactionId := "0xdddd";
          AuctionPayload.encryptedCallData := "0x";
          AuctionPayload.callDataHash := "0x";
          AuctionPayload.callTo := Cancel.AddressZero;
          AuctionPayload.dryRun := false |}
  = Auction.AUCTION_REQUEST_MAP Sample.fresh
    !! Auction.requestKey
         {| AuctionPayload.user := Sample.routerAddress;
            AuctionPayload.initiator := Sample.routerAddress;
            AuctionPayload.sendingChainId := 1337;
            AuctionPayload.sendingAssetId := Sample.sendingAsset;
            AuctionPayload.amount := "5";
            AuctionPayload.receivingChainId := 1338;
            AuctionPayload.receivingAssetId := Sample.receivingAsset;
            AuctionPayload.receivingAddress := Sample.routerAddress;
            AuctionPayload.expiry := 100000;
            AuctionPayload.transactionId := "0xdddd";
            AuctionPayload.encryptedCallData := "0x";
            AuctionPayload.callDataHash := "0x";
            AuctionPayload.callTo := Cancel.AddressZero;
            AuctionPayload.dryRun := false |}.
Proof.
  apply (newAuction_limits_its_own_key_only (Sample.world 1000 "999000" 1000)
           (Sample.payload "1000000" 100000));
    first [ reflexivity | discriminate ].
Defined.

(** ** The balances of the swap pool *)

(** One asset of the pool: its balance is scaled to 18 decimals and
    weighted, and an asset of more than 18 decimals is refused. *)
Lemma wp_routerBalanceInEther_value w ctx asset s
    (Q : Z -> Auction.RouterState -> Prop) R :
  (forall assetLiquidity assetDecimals chain,
      Auction.contractReader_getAssetBalance ctx (PoolAsset.assetId asset)
        (PoolAsset.chainId asset) = Resolves assetLiquidity ->
      Auction.getDecimalsForAsset w (PoolAsset.chainId asset) (PoolAsset.assetId asset)
      = Resolves assetDecimals ->
      NxtpRouterConfig.chainConfig (Auction.config ctx) !! PoolAsset.chainId asset
      = Some chain ->
      assetDecimals <= 18 ->
      Q (assetLiquidity * 10 ^ (18 - assetDecimals) * ChainConfig.weight chain) s) ->
  (forall reason, R (Rejected reason) s) ->
  wp (Auction.routerBalanceInEther w ctx asset) s Q R.
Proof.
  intros HQ HR. unfold Auction.routerBalanceInEther.
  apply wp_bind, wp_settle; [intros assetLiquidity Hliquidity | intros; apply HR].
  apply wp_bind, wp_settle; [intros assetDecimals Hdecimals | intros; apply HR].
  apply wp_bind, wp_defined; [intros chain Hchain | intros; apply HR].
  cbv zeta. apply wp_bind. unfold Auction.pow10.
  destruct (18 - assetDecimals <? 0) eqn:Hneg; [apply wp_throw, HR |].
  apply Z.ltb_ge in Hneg.
  apply wp_ret, wp_ret, HQ; [assumption .. | lia].
Qed.

Lemma wp_routerBalances_values w ctx assets s
    (Q : list Z -> Auction.RouterState -> Prop) R :
  (forall balances,
      Forall2
        (fun asset balance =>
           exists assetLiquidity assetDecimals chain,
             Auction.contractReader_getAssetBalance ctx (PoolAsset.assetId asset)
               (PoolAsset.chainId asset) = Resolves assetLiquidity
             /\ Auction.getDecimalsForAsset w (PoolAsset.chainId asset)
                  (PoolAsset.assetId asset) = Resolves assetDecimals
             /\ NxtpRouterConfig.chainConfig (Auction.config ctx) !! PoolAsset.chainId asset
                = Some chain
             /\ assetDecimals <= 18
             /\ balance
                = assetLiquidity * 10 ^ (18 - assetDecimals) * ChainConfig.weight chain)
        assets balances ->
      Q balances s) ->
  (forall reason, R (Rejected reason) s) ->
  wp (mapM (Auction.routerBalanceInEther w ctx) assets) s Q R.
Proof.
  revert Q. induction assets as [| asset assets IH]; intros Q HQ HR; cbn [mapM].
  - apply wp_ret, HQ. constructor.
  - apply wp_bind, wp_routerBalanceInEther_value; [| exact HR].
    intros assetLiquidity assetDecimals chain Hliquidity Hdecimals Hchain Hle.
    apply wp_bind, IH; [intros balances Hrest | exact HR].
    apply wp_ret, HQ. constructor; [| exact Hrest].
    exists assetLiquidity, assetDecimals, chain. auto.
Qed.

(** [wstep], keeping what was read for the swap pool. *)
Ltac wstep_pool :=
  cbv zeta;
  lazymatch goal with
  | |- wp (bind (mapM _ _) _) _ _ _ =>
      apply wp_bind, wp_routerBalances_values; [intros ? ? | intros ?]
  | |- _ => wstep_cases
  end.

(** The quote behind a bid: the AMM was asked for the payload's amount with
    the balances of the assets of the request's swap pool, in the order of
    the pool, each scaled to 18 decimals and multiplied by the weight of its
    chain; no asset of the pool has more than 18 decimals; and the amount
    the bid promises is what the AMM answered less the gas fee. *)
Theorem newAuction_quotes_on_pool_balances w data st resp st' :
  Auction.newAuction w data st = (Ok resp, st') ->
  exists ctx sendingChainIdx receivingChainIdx swapPoolIdx swapPool balances
         inputDecimals outputDecimals ammOutput,
    Auction.context w = Some ctx
    /\ Auction.getSwapIdxList w (AuctionPayload.sendingChainId data)
         (AuctionPayload.sendingAssetId data) (AuctionPayload.receivingChainId data)
         (AuctionPayload.receivingAssetId data)
       = Some (sendingChainIdx, receivingChainIdx, swapPoolIdx)
    /\ NxtpRouterConfig.swapPools (Auction.config ctx) !! swapPoolIdx = Some swapPool
    /\ Forall2
         (fun asset balance =>
            exists assetLiquidity assetDecimals chain,
              Auction.contractReader_getAssetBalance ctx (PoolAsset.assetId asset)
                (PoolAsset.chainId asset) = Resolves assetLiquidity
              /\ Auction.getDecimalsForAsset w (PoolAsset.chainId asset)
                   (PoolAsset.assetId asset) = Resolves assetDecimals
              /\ NxtpRouterConfig.chainConfig (Auction.config ctx)
                   !! PoolAsset.chainId asset = Some chain
              /\ assetDecimals <= 18
              /\ balance
                 = assetLiquidity * 10 ^ (18 - assetDecimals) * ChainConfig.weight chain)
         (SwapPool.assets swapPool) balances
    /\ Auction.getDecimalsForAsset w (AuctionPayload.sendingChainId data)
         (AuctionPayload.sendingAssetId data) = Resolves inputDecimals
    /\ Auction.getDecimalsForAsset w (AuctionPayload.receivingChainId data)
         (AuctionPayload.receivingAssetId data) = Resolves outputDecimals
    /\ Auction.getReceiverAmount w (AuctionPayload.amount data)
         inputDecimals outputDecimals balances sendingChainIdx receivingChainIdx
         (NxtpRouterConfig.maxPriceImpact (Auction.config ctx))
         (NxtpRouterConfig.amplification (Auction.config ctx))
         (NxtpRouterConfig.allowedVAMM (Auction.config ctx))
       = Resolves ammOutput
    /\ BigNumber_from ammOutput
       = Some (AuctionBid.amountReceived (AuctionResponse.bid resp)
               + AuctionResponse.gasFeeInReceivingToken resp).
Proof.
  intros E. pattern resp.
  match goal with
  | |- ?Q resp =>
      enough (H : wp (Auction.newAuction w data) st (fun r _ => Q r) (fun _ _ => True))
        by exact (wp_run _ _ _ _ _ _ H E)
  end.
  clear E resp st'. cbv beta. unfold Auction.newAuction.
  repeat (wstep_pool; [ | exact I .. ]).
  cbn [AuctionResponse.bid AuctionResponse.gasFeeInReceivingToken AuctionBid.amountReceived].
  do 9 eexists.
  repeat match goal with |- _ /\ _ => split end; try eassumption.
  match goal with H : BigNumber_from _ = Some _ |- _ => rewrite H end.
  f_equal. lia.
Qed.

(** The sample bid: the AMM answered "999000" on the balances of the two
    assets of the pool, and the bid promises 998000 after a gas fee of 1000. *)
Lemma newAuction_quotes_on_pool_balances_witness :
  exists ctx sendingChainIdx receivingChainIdx swapPoolIdx swapPool balances
         inputDecimals outputDecimals ammOutput,
    Auction.context (Sample.world 1000 "999000" 1000) = Some ctx
    /\ Auction.getSwapIdxList (Sample.world 1000 "999000" 1000)
         (AuctionPayload.sendingChainId (Sample.payload "1000000" 100000))
         (AuctionPayload.sendingAssetId (Sample.payload "1000000" 100000))
         (AuctionPayload.receivingChainId (Sample.payload "1000000" 100000))
         (AuctionPayload.receivingAssetId (Sample.payload "1000000" 100000))
       = Some (sendingChainIdx, receivingChainIdx, swapPoolIdx)
    /\ NxtpRouterConfig.swapPools (Auction.config ctx) !! swapPoolIdx = Some swapPool
    /\ Forall2
         (fun asset balance =>
            exists assetLiquidity assetDecimals chain,
              Auction.contractReader_getAssetBalance ctx (PoolAsset.assetId asset)
                (PoolAsset.chainId asset) = Resolves assetLiquidity
              /\ Auction.getDecimalsForAsset (Sample.world 1000 "999000" 1000)
                   (PoolAsset.chainId asset) (PoolAsset.assetId asset)
                 = Resolves assetDecimals
              /\ NxtpRouterConfig.chainConfig (Auction.config ctx)
                   !! PoolAsset.chainId asset = Some chain
              /\ assetDecimals <= 18
              /\ balance
                 = assetLiquidity * 10 ^ (18 - assetDecimals) * ChainConfig.weight chain)
         (SwapPool.assets swapPool) balances
    /\ Auction.getDecimalsForAsset (Sample.world 1000 "999000" 1000)
         (AuctionPayload.sendingChainId (Sample.payload "1000000" 100000))
         (AuctionPayload.sendingAssetId (Sample.payload "1000000" 100000))
       = Resolves inputDecimals
    /\ Auction.getDecimalsForAsset (Sample.world 1000 "999000" 1000)
         (AuctionPayload.receivingChainId (Sample.payload "1000000" 100000))
         (AuctionPayload.receivingAssetId (Sample.payload "1000000" 100000))
       = Resolves outputDecimals
    /\ Auction.getReceiverAmount (Sample.world 1000 "999000" 1000)
         (AuctionPayload.amount (Sample.payload "1000000" 100000))
         inputDecimals outputDecimals balances sendingChainIdx receivingChainIdx
         (NxtpRouterConfig.maxPriceImpact (Auction.config ctx))
         (NxtpRouterConfig.amplification (Auction.config ctx))
         (NxtpRouterConfig.allowedVAMM (Auction.config ctx))
       = Resolves ammOutput
    /\ BigNumber_from ammOutput
       = Some (AuctionBid.amountReceived
                 (AuctionResponse.bid (Scenario.answer (Some "0xsigned")))
               + AuctionResponse.gasFeeInReceivingToken (Scenario.answer (Some "0xsigned"))).
Proof.
  apply (newAuction_quotes_on_pool_balances (Sample.world 1000 "999000" 1000)
           (Sample.payload "1000000" 100000) Sample.fresh
           (Scenario.answer (Some "0xsigned")) Sample.served_once).
  by_computation.
Defined.

(** ** The rate limiter along a sequence of requests *)

(** For identifiers as the schema has them, two requests have the same key
    exactly when they agree on the five fields of the key. *)
Lemma same_key_fields_key a b :
  plain_ids a -> plain_ids b ->
  same_key_fields a b = true <-> Auction.requestKey a = Auction.requestKey b.
Proof.
  intros (Hu1 & Hs1 & Hr1 & Hc1) (Hu2 & Hs2 & Hr2 & Hc2).
  unfold same_key_fields. rewrite !andb_true_iff, !String.eqb_eq, !Z.eqb_eq. split.
  - intros ((((Hu & Hs) & Hc) & Hr) & Hd). unfold Auction.requestKey.
    rewrite Hu, Hs, Hc, Hr, Hd. reflexivity.
  - intros E.
    destruct (requestKey_inj a b Hu1 Hu2 Hs1 Hs2 Hr1 Hr2 Hc1 Hc2 E) as (? & ? & ? & ? & ?).
    auto.
Qed.

(** What the rate limiter holds for the key of a request after a sequence
    of requests has been served: the time, in milliseconds, of the previous
    attempt recorded for that key, or what it held before the sequence. *)
Lemma serve_lookup requests :
  forall st data,
    Forall (fun request => plain_ids (snd request)) requests ->
    plain_ids data ->
    Auction.AUCTION_REQUEST_MAP (snd (serve requests st)) !! Auction.requestKey data
    = match previous_attempt data (zip requests (fst (serve requests st))) with
      | Some t => Some (t * 1000)
      | None => Auction.AUCTION_REQUEST_MAP st !! Auction.requestKey data
      end.
Proof.
  induction requests as [| [w d] requests IH]; intros st data Hids Hdata; cbn [serve].
  - reflexivity.
  - inversion Hids as [| ? ? Hd Hrest]; subst. cbn [snd] in Hd.
    destruct (Auction.newAuction w d st) as [r st1] eqn:E.
    pose proof (wp_run _ _ _ _ _ _ (newAuction_effects w d st) E) as Heff.
    specialize (IH st1 data Hrest Hdata).
    destruct (serve requests st1) as [rs st2]. cbn [fst snd] in *.
    change (zip ((w, d) :: requests) (r :: rs)) with ((w, d, r) :: zip requests rs).
    cbn [previous_attempt]. rewrite IH.
    destruct (previous_attempt data (zip requests rs)) as [t |]; [reflexivity |].
    destruct r as [resp | e].
    + destruct Heff as (_ & now & Hnow & Hmap). rewrite Hnow, Hmap.
      destruct (same_key_fields d data) eqn:Esame.
      * apply (same_key_fields_key d data Hd Hdata) in Esame. rewrite Esame.
        apply lookup_insert_eq.
      * apply lookup_insert_ne. intros Ekey.
        apply (same_key_fields_key d data Hd Hdata) in Ekey. congruence.
    + destruct Heff as (_ & Hmap). rewrite Hmap. reflexivity.
Qed.

(** C3: a router starts with an empty rate limiter and serves any sequence
    of auction requests, of whatever users, assets and chains.  For a request
    that then reaches the rate-limit check, the previous attempt recorded for
    its key is the latest request of the sequence with the same user, assets
    and chains that was answered with a bid, at NTP time [t].  The request is
    let through if and only if the milliseconds elapsed since then,
    [currentTime * 1000 - t * 1000], are at least [config.requestLimit];
    otherwise it fails with [AuctionRateExceeded].  With no such attempt in
    the sequence the request is let through. *)
Theorem rate_limiter_admits_iff requests st0 w data ctx amountBigNumber currentTime
    routerAddress :
  Auction.AUCTION_REQUEST_MAP st0 = ∅ ->
  Forall (fun request => clock_after_epoch (fst request) /\ plain_ids (snd request))
    requests ->
  plain_ids data ->
  Auction.context w = Some ctx ->
  Auction.validateInput w data = true ->
  BigNumber_from (AuctionPayload.amount data) = Some amountBigNumber ->
  amountBigNumber <> 0 ->
  Auction.getNtpTimeSeconds w = Resolves currentTime ->
  Auction.wallet_getAddress ctx = Resolves routerAddress ->
  match previous_attempt data (zip requests (fst (serve requests st0))) with
  | Some t =>
      (NxtpRouterConfig.requestLimit (Auction.config ctx) <= currentTime * 1000 - t * 1000
       <-> forall elapsed,
             fst (Auction.newAuction w data (snd (serve requests st0)))
             <> Throw (AuctionRateExceeded elapsed))
      /\ (currentTime * 1000 - t * 1000 < NxtpRouterConfig.requestLimit (Auction.config ctx) ->
          fst (Auction.newAuction w data (snd (serve requests st0)))
          = Throw (AuctionRateExceeded (currentTime - t * 1000)))
  | None =>
      forall elapsed,
        fst (Auction.newAuction w data (snd (serve requests st0)))
        <> Throw (AuctionRateExceeded elapsed)
  end.
Proof.
  intros Hempty Hrequests Hdata Hctx Hvalid Hparse Hnz Hnow Haddr.
  assert (Hids : Forall (fun request => plain_ids (snd request)) requests).
  { eapply Forall_impl; [exact Hrequests |]. intros request [_ H]. exact H. }
  assert (Hclocks : Forall (fun request => clock_after_epoch (fst request)) requests).
  { eapply Forall_impl; [exact Hrequests |]. intros request [H _]. exact H. }
  pose proof (serve_lookup requests st0 data Hids Hdata) as Hlookup.
  destruct (previous_attempt data (zip requests (fst (serve requests st0)))) as [t |].
  - assert (Hlast0 : t * 1000 <> 0).
    { apply (serve_records_nonzero requests st0 Hclocks) with (key := Auction.requestKey data).
      - intros key t0. rewrite Hempty, lookup_empty. discriminate.
      - exact Hlookup. }
    destruct (newAuction_rate_limit w data (snd (serve requests st0)) ctx amountBigNumber
                currentTime routerAddress (t * 1000) Hctx Hvalid Hparse Hnz Hnow Haddr
                Hlookup Hlast0) as [Hthrow Honly].
    split; [split |].
    + intros Hge elapsed E. apply Honly in E. lia.
    + intros Hadmit.
      destruct (Z_lt_ge_dec (currentTime * 1000 - t * 1000)
                  (NxtpRouterConfig.requestLimit (Auction.config ctx))) as [Hlt | Hge];
        [| lia].
      exfalso. exact (Hadmit _ (Hthrow Hlt)).
    + exact Hthrow.
  - rewrite Hempty, lookup_empty in Hlookup. intros elapsed E.
    destruct (Auction.newAuction w data (snd (serve requests st0))) as [r st'] eqn:Erun.
    cbn in E. subst r.
    pose proof (wp_run _ _ _ _ _ _ (newAuction_Throw_inv w data _) Erun) as H.
    cbn in H. destruct H as (ctx' & now & last & _ & _ & Hlast & _).
    rewrite Hlookup in Hlast. discriminate.
Qed.

(** Another user is answered at time 1000, the sample user at 1003, and a
    replay of the sample user is refused at 1004.  At 1006 the previous
    attempt recorded for the sample user is the one of time 1003, not the
    other user's and not the refused one: 3000 ms are less than the request
    limit of 5000 ms. *)
Lemma rate_limiter_admits_iff_witness :
  (5000 <= 1006 * 1000 - 1003 * 1000
   <-> forall elapsed,
         fst (Auction.newAuction (Sample.world 1006 "999000" 1000)
                (Sample.payload "1000000" 100000)
                (snd (serve [(Sample.world 1000 "999000" 1000, Scenario.otherUserPayload);
                             (Sample.world 1003 "999000" 1000,
                              Sample.payload "1000000" 100000);
                             (Sample.world 1004 "999000" 1000,
                              Sample.payload "1000000" 100000)] Sample.fresh)))
         <> Throw (AuctionRateExceeded elapsed))
  /\ (1006 * 1000 - 1003 * 1000 < 5000 ->
      fst (Auction.newAuction (Sample.world 1006 "999000" 1000)
             (Sample.payload "1000000" 100000)
             (snd (serve [(Sample.world 1000 "999000" 1000, Scenario.otherUserPayload);
                          (Sample.world 1003 "999000" 1000,
                           Sample.payload "1000000" 100000);
                          (Sample.world 1004 "999000" 1000,
                           Sample.payload "1000000" 100000)] Sample.fresh)))
      = Throw (AuctionRateExceeded (1006 - 1003 * 1000))).
Proof.
  assert (Hprevious :
            previous_attempt (Sample.payload "1000000" 100000)
              (zip [(Sample.world 1000 "999000" 1000, Scenario.otherUserPayload);
                    (Sample.world 1003 "999000" 1000, Sample.payload "1000000" 100000);
                    (Sample.world 1004 "999000" 1000, Sample.payload "1000000" 100000)]
                 (fst (serve [(Sample.world 1000 "999000" 1000, Scenario.otherUserPayload);
                              (Sample.world 1003 "999000" 1000,
                               Sample.payload "1000000" 100000);
                              (Sample.world 1004 "999000" 1000,
                               Sample.payload "1000000" 100000)] Sample.fresh)))
            = Some 1003) by by_computation.
  pose proof (rate_limiter_admits_iff
                [(Sample.world 1000 "999000" 1000, Scenario.otherUserPayload);
                 (Sample.world 1003 "999000" 1000, Sample.payload "1000000" 100000);
                 (Sample.world 1004 "999000" 1000, Sample.payload "1000000" 100000)]
                Sample.fresh
                (Sample.world 1006 "999000" 1000) (Sample.payload "1000000" 100000)
                (Sample.auctionContext Sample.allSynced 10000000)
                1000000 1006 Sample.routerAddress) as H.
  rewrite Hprevious in H. apply H; try reflexivity.
  - repeat constructor; try (intros t [= <-]; lia); try reflexivity; cbn; lia.
  - repeat split; try reflexivity. cbn. lia.
  - lia.
Defined.

(** ** The amount of a payload that has passed the schema *)

Lemma decimal_digit_value c d : decimal_digit c = Some d -> 0 <= d.
Proof.
  unfold decimal_digit.
  destruct ((48 <=? Z.of_N (N_of_ascii c)) && (Z.of_N (N_of_ascii c) <=? 57)) eqn:E;
    [| discriminate].
  intros [= <-]. apply andb_true_iff in E as [E _]. apply Z.leb_le in E. lia.
Qed.

(** A decimal digit is neither a sign nor the x of a hexadecimal prefix. *)
Lemma decimal_digit_plain c d :
  decimal_digit c = Some d ->
  Ascii.eqb c "-" = false /\ Ascii.eqb c "x" = false /\ Ascii.eqb c "X" = false.
Proof.
  intros H. repeat split.
  - destruct (Ascii.eqb_spec c "-") as [-> |]; [discriminate H | reflexivity].
  - destruct (Ascii.eqb_spec c "x") as [-> |]; [discriminate H | reflexivity].
  - destruct (Ascii.eqb_spec c "X") as [-> |]; [discriminate H | reflexivity].
Qed.

Lemma digits_value_decimal s :
  forall acc,
    TIntegerString s = true -> 0 <= acc ->
    exists n, digits_value decimal_digit 10 acc s = Some n /\ 0 <= n.
Proof.
  induction s as [| c s IH]; intros acc Hs Hacc; cbn in *.
  - eauto.
  - destruct (decimal_digit c) as [d |] eqn:Ec; [| discriminate].
    apply IH; [exact Hs |]. apply decimal_digit_value in Ec. lia.
Qed.

(** [BigNumber.from] on a string of the pattern [^([0-9])*$]: the empty
    string is the only one it rejects, and it reads no negative number. *)
Lemma TIntegerString_from s :
  TIntegerString s = true ->
  (s = "" /\ BigNumber_from s = None)
  \/ (s <> "" /\ exists n, BigNumber_from s = Some n /\ 0 <= n).
Proof.
  intros Hs. destruct s as [| c s']; [left; split; reflexivity |].
  right. split; [discriminate |].
  pose proof Hs as Hall. cbn [TIntegerString] in Hs.
  destruct (decimal_digit c) as [d |] eqn:Ec; [| discriminate].
  destruct (decimal_digit_plain c d Ec) as (Hsign & _ & _).
  unfold BigNumber_from. rewrite Hsign. unfold unsigned_from.
  destruct s' as [| x rest].
  - apply (digits_value_decimal (String c "") 0 Hall). lia.
  - cbn [TIntegerString] in Hs.
    destruct (decimal_digit x) as [dx |] eqn:Ex; [| discriminate].
    destruct (decimal_digit_plain x dx Ex) as (_ & Hx & HX).
    rewrite Hx, HX, !andb_false_r.
    apply (digits_value_decimal (String c (String x rest)) 0 Hall). lia.
Qed.

(** C5, as the code has it: the schema check comes first and holds the
    amount to decimal digits, so an amount that is negative or otherwise not
    a string of digits is refused with [ParamsInvalid], not with
    [ZeroValueBid].  A payload that has passed the schema is refused with
    [ZeroValueBid] exactly when its amount cannot be parsed, which leaves the
    empty string, or is zero; [BigNumber.from] reads no negative amount from
    it; and a strictly positive amount passes the amount check. *)
Theorem newAuction_ZeroValueBid_after_schema w data st ctx :
  Auction.context w = Some ctx ->
  Auction.checksAmount w ->
  (TIntegerString (AuctionPayload.amount data) = false ->
   fst (Auction.newAuction w data st) = Throw ParamsInvalid)
  /\ (Auction.validateInput w data = true ->
      (fst (Auction.newAuction w data st) = Throw ZeroValueBid
       <-> AuctionPayload.amount data = ""
           \/ BigNumber_from (AuctionPayload.amount data) = Some 0)
      /\ (BigNumber_from (AuctionPayload.amount data) = None
          <-> AuctionPayload.amount data = "")
      /\ (forall n, BigNumber_from (AuctionPayload.amount data) = Some n -> 0 <= n)
      /\ (forall n,
            BigNumber_from (AuctionPayload.amount data) = Some n -> 0 < n ->
            Auction.validateAmount (AuctionPayload.amount data) st = (Ok tt, st)
            /\ fst (Auction.newAuction w data st) <> Throw ZeroValueBid)).
Proof.
  intros Hctx Hschema. split.
  - intros Hpattern.
    assert (Hinvalid : Auction.validateInput w data = false).
    { destruct (Auction.validateInput w data) eqn:Hv; [| reflexivity].
      apply Hschema in Hv. congruence. }
    unfold Auction.newAuction, getContext. rewrite Hctx.
    cbv [bind Auction.receivedAuction_inc modify defined ret]. rewrite Hinvalid. reflexivity.
  - intros Hvalid. pose proof (Hschema data Hvalid) as Hdigits.
    assert (Hiff : fst (Auction.newAuction w data st) = Throw ZeroValueBid
                   <-> BigNumber_from (AuctionPayload.amount data) = None
                       \/ BigNumber_from (AuctionPayload.amount data) = Some 0).
    { split.
      - intros E.
        destruct (Auction.newAuction w data st) as [r st'] eqn:Erun. cbn in E. subst r.
        exact (wp_run _ _ _ _ _ _ (newAuction_Throw_inv w data st) Erun).
      - intros Hbad. apply fst_throws. unfold Auction.newAuction.
        do 4 (wstep; [ | ruled_out .. ]). exfalso. ruled_out. }
    destruct (TIntegerString_from _ Hdigits) as [[Hempty Hnone] | [Hfull (n & Hn & Hpos)]].
    + repeat split.
      * intros _. left. exact Hempty.
      * intros _. apply Hiff. left. exact Hnone.
      * intros _. exact Hempty.
      * intros _. exact Hnone.
      * intros n Hn. congruence.
      * congruence.
      * intros E. congruence.
    + repeat split.
      * intros E. apply Hiff in E as [E | E]; [congruence | right; exact E].
      * intros [E | E]; [contradiction | apply Hiff; right; exact E].
      * intros E. congruence.
      * intros E. contradiction.
      * intros n' Hn'. congruence.
      * apply (validateAmount_positive _ n0); assumption.
      * intros E. apply Hiff in E as [E | E]; [congruence |].
        match goal with H : BigNumber_from _ = Some ?m, Hm : 0 < ?m |- _ =>
          rewrite H in E; injection E as ->; lia
        end.
Qed.

(** The sample request with the amounts "", "000" and "25". *)
Lemma newAuction_ZeroValueBid_after_schema_witness :
  fst (Auction.newAuction (Sample.world 1000 "999000" 1000)
         (Sample.payload "" 100000) Sample.fresh) = Throw ZeroValueBid
  /\ fst (Auction.newAuction (Sample.world 1000 "999000" 1000)
            (Sample.payload "000" 100000) Sample.fresh) = Throw ZeroValueBid
  /\ fst (Auction.newAuction (Sample.world 1000 "999000" 1000)
            (Sample.payload "25" 100000) Sample.fresh) <> Throw ZeroValueBid.
Proof.
  assert (Hschema : Auction.checksAmount (Sample.world 1000 "999000" 1000)).
  { intros data H. exact H. }
  split; [| split].
  - apply (newAuction_ZeroValueBid_after_schema (Sample.world 1000 "999000" 1000)
             (Sample.payload "" 100000) Sample.fresh
             (Sample.auctionContext Sample.allSynced 10000000) eq_refl Hschema);
      [reflexivity | left; reflexivity].
  - apply (newAuction_ZeroValueBid_after_schema (Sample.world 1000 "999000" 1000)
             (Sample.payload "000" 100000) Sample.fresh
             (Sample.auctionContext Sample.allSynced 10000000) eq_refl Hschema);
      [reflexivity | right; reflexivity].
  - apply (newAuction_ZeroValueBid_after_schema (Sample.world 1000 "999000" 1000)
             (Sample.payload "25" 100000) Sample.fresh
             (Sample.auctionContext Sample.allSynced 10000000) eq_refl Hschema
           ) with (n := 25); [reflexivity | reflexivity | lia].
Defined.

(** C5 fails as stated: the sample request with the negative amount "-1",
    and with the amounts "abc" and "1.5" that no integer can be read from,
    is refused with [ParamsInvalid]; the amount check is not reached. *)
Lemma newAuction_negative_amount_is_ParamsInvalid :
  fst (Auction.newAuction (Sample.world 1000 "999000" 1000)
         (Sample.payload "-1" 100000) Sample.fresh) = Throw ParamsInvalid
  /\ fst (Auction.newAuction (Sample.world 1000 "999000" 1000)
            (Sample.payload "abc" 100000) Sample.fresh) = Throw ParamsInvalid
  /\ fst (Auction.newAuction (Sample.world 1000 "999000" 1000)
            (Sample.payload "1.5" 100000) Sample.fresh) = Throw ParamsInvalid.
Proof. repeat split; by_computation. Qed.
